(** * vouch-proxy: the HTTP handlers of [handlers/handlers.go]

    A shallow embedding of the request handlers ([/validate], [/login],
    [/auth]) and of the authorization policy [VerifyUser], followed by the
    properties of the specification that concern them.

    Conventions of the embedding.
    - Go strings are [string]; [==] on strings is [decide (_ = _)].
    - A handler is a computation in the monad [M]: it threads a [World]
      (the response writer, the log, the collaborator calls made so far and
      the two package-level variables the handlers mutate) and ends either
      normally or in a Go panic.
    - [http.Header] and [session.Values] are finite maps ([gmap]); a Go map
      that the code walks with [range] is a list of its entries, in the order
      in which [range] visits them.
    - Packages that are not part of [handlers.go] (cookie, sessions,
      jwtmanager, domains, the provider, oauth2, fmt on dynamically typed
      values) are type classes: the handlers are defined and verified for
      every implementation of them.
    - Only log calls at Warn and Error level are recorded; Debug and Info
      logging has no effect on the response, the session or the collaborators
      (the one Debug call whose argument can panic is modelled by that
      argument). *)

From stdpp Require Import base decidable option list strings gmap fin_maps.
From Stdlib Require Import ZArith Ascii String.

Set Warnings "-register-all".
Open Scope string_scope.
Open Scope Z_scope.

(** ** Go values *)

(** [error]: the only use the handlers make of an error is [err.Error()]. *)
Abbreviation error := string (only parsing).

(** A value stored in [session.Values] ([interface{}]); a missing key reads
    as [nil], that is [None]. *)
Inductive value : Type :=
| VString (s : string)
| VInt (n : Z).

(** A custom claim as [encoding/json] decodes it into [interface{}]. A number
    is a float64, kept as its bit pattern (the handlers never compute with
    it). *)
Inductive claimValue : Type :=
| CString (s : string)
| CNumber (bits : Z)
| CBool (b : bool)
| CNull
| CSeq (elems : list claimValue)
| CObject (fields : list (string * claimValue)).

(** Go's [int] on the 64-bit platforms the proxy runs on. *)
Definition int_min : Z := - 2 ^ 63.
Definition wrap_int (z : Z) : Z := (z - int_min) mod 2 ^ 64 + int_min.

(** ** [strings] *)

(** The one-byte strings of a line feed and of a double quote. *)
Definition LF : string := String (ascii_of_nat 10) EmptyString.
Definition DQUOTE : string := String (ascii_of_nat 34) EmptyString.

(** [strings.Index(s, sep)] for a one-byte separator, as the pair of the text
    before the first [sep] and the text after it. *)
Fixpoint cut (sep : ascii) (s : string) : option (string * string) :=
  match s with
  | EmptyString => None
  | String c rest =>
      if decide (c = sep) then Some (EmptyString, rest)
      else match cut sep rest with
           | Some (before, after) => Some (String c before, after)
           | None => None
           end
  end.

(** [strings.SplitN(s, sep, 2)] for a one-byte separator: at most two
    substrings, the second being the unsplit remainder. *)
Definition SplitN2 (s : string) (sep : ascii) : list string :=
  match cut sep s with
  | Some (before, after) => [before; after]
  | None => [s]
  end.

(** [strings.Contains(s, substr)]. *)
Fixpoint prefix_of (p s : string) : bool :=
  match p, s with
  | EmptyString, _ => true
  | String a p', String b s' => if decide (a = b) then prefix_of p' s' else false
  | String _ _, EmptyString => false
  end.

Fixpoint Contains (s substr : string) : bool :=
  prefix_of substr s ||
  match s with
  | EmptyString => false
  | String _ s' => Contains s' substr
  end.

(** [strings.Join(elems, sep)]. *)
Fixpoint Join (elems : list string) (sep : string) : string :=
  match elems with
  | [] => ""
  | [e] => e
  | e :: rest => e +:+ sep +:+ Join rest sep
  end.

(** [regExJustAlphaNum = regexp.Compile("[^a-zA-Z0-9]+")]: a byte matches the
    class when it is not an ASCII letter or digit. *)
Definition isAlphaNum (c : ascii) : bool :=
  let n := Z.of_nat (nat_of_ascii c) in
  ((97 <=? n) && (n <=? 122)) || ((65 <=? n) && (n <=? 90)) || ((48 <=? n) && (n <=? 57)).

(** [regExJustAlphaNum.ReplaceAllString(s, "")]: every maximal run of
    matching bytes is replaced by the empty string. *)
Fixpoint stripNonAlphaNum (s : string) : string :=
  match s with
  | EmptyString => EmptyString
  | String c rest =>
      if isAlphaNum c then String c (stripNonAlphaNum rest) else stripNonAlphaNum rest
  end.

(** ** Data model *)

(** [structs.User]: the fields the handlers read. *)
Record User : Type := mkUser {
  Username : string;
  Email : string;
  TeamMemberships : list string
}.

(** [structs.CustomClaims] and [structs.PTokens], filled by the provider and
    handed on to the token manager. *)
Record CustomClaims : Type := mkCustomClaims {
  Claims : list (string * claimValue)
}.

Record PTokens : Type := mkPTokens {
  PAccessToken : string;
  PIdToken : string
}.

(** [jwtmanager.VouchClaims]: the proof token's payload. [vc_CustomClaims] is
    a Go map, listed in the order in which [range] visits it. *)
Record VouchClaims : Type := mkVouchClaims {
  vc_Username : string;
  vc_Sites : list string;
  vc_CustomClaims : list (string * claimValue);
  vc_PAccessToken : string;
  vc_PIdToken : string
}.

(** [Index], the variables passed to [index.tmpl], and [AuthError]. *)
Record Index : Type := mkIndex {
  Msg : string;
  TestURLs : list string;
  Testing : bool
}.

Record AuthError : Type := mkAuthError {
  Error : string;
  JWT : string
}.

(** [cfg.Providers]: the configured [oauth.provider]. *)
Inductive ProviderName : Type :=
| IndieAuth | ADFS | HomeAssistant | OpenStax | Google | GitHub | Nextcloud | OIDC.

(** An [oauth2.AuthCodeOption]. *)
Inductive AuthCodeOption : Type :=
| SetAuthURLParam (key val : string).

(** [cfg.Cfg.Headers]. [ClaimsCleaned] is a Go map from claim name to header
    name, listed in [range] order. *)
Record HeadersCfg : Type := mkHeadersCfg {
  hdr_JWT : string;
  hdr_User : string;
  hdr_QueryString : string;
  hdr_Success : string;
  hdr_AccessToken : string;
  hdr_IDToken : string;
  hdr_ClaimsCleaned : list (string * string)
}.

(** The process-wide configuration the handlers read and never write
    ([cfg.Cfg], [cfg.GenOAuth], [cfg.OAuthopts], [cfg.Branding]). *)
Record Config : Type := mkConfig {
  AllowAllUsers : bool;
  PublicAccess : bool;
  cfg_Testing : bool;
  WhiteList : list string;
  TeamWhiteList : list string;
  Domains : list string;
  Headers : HeadersCfg;
  Session_Name : string;
  GenOAuth_Provider : ProviderName;
  GenOAuth_RedirectURLs : list string;
  OAuthopts : option AuthCodeOption;
  Branding_CcName : string
}.

(** [http.Header] and [url.Values]. *)
Abbreviation Header := (gmap string (list string)).

(** A cookie of the request: plain text, or a cookie sealed by
    [securecookie], kept as the session values it carries. *)
Inductive CookiePayload : Type :=
| Plain (s : string)
| Sealed (values : gmap string value).

(** [*http.Request]: the parts the handlers and their collaborators read.
    [URL_Query] lists the pairs of the query string in the order they appear,
    so that [Get] is the first value of a key. *)
Record Request : Type := mkRequest {
  Host : string;
  req_Header : Header;
  URL_Query : list (string * string);
  req_Cookies : list (string * CookiePayload)
}.

(** [r.URL.Query().Get(key)]: the first value of [key], or the empty
    string. *)
Fixpoint Query_Get (q : list (string * string)) (key : string) : string :=
  match q with
  | [] => ""
  | (k, v) :: rest => if decide (k = key) then v else Query_Get rest key
  end.

(** ** The response writer *)

(** What is written to the body: raw bytes, one execution of
    [indexTemplate] on an [Index], or what [http.Redirect] writes for a URL. *)
Inductive Chunk : Type :=
| Bytes (s : string)
| IndexPage (i : Index)
| RedirectTo (url : string).

(** Calls into [pkg/cookie] on this writer. *)
Inductive CookieOp : Type :=
| SetCookie (jwt : string)
| ClearCookie.

(** The state of an [http.ResponseWriter]: the header map, the status code
    once it has been written, the body so far, the proof-cookie operations,
    and the values of each [session.Save] that succeeded. *)
Record ResponseWriter : Type := mkResponseWriter {
  rw_header : Header;
  rw_status : option Z;
  rw_body : list Chunk;
  rw_cookie : list CookieOp;
  rw_session : list (gmap string value)
}.

Definition StatusOK : Z := 200.
Definition StatusFound : Z := 302.
Definition StatusBadRequest : Z := 400.
Definition StatusUnauthorized : Z := 401.
Definition StatusForbidden : Z := 403.
Definition StatusInternalServerError : Z := 500.

(** The status the client receives: 200 unless a code was written. *)
Definition status_sent (w : ResponseWriter) : Z := default StatusOK (rw_status w).

(** ** Log entries and collaborator calls *)

Inductive Level : Type := Warn | ErrorLevel.

Inductive LogArg : Type :=
| LStr (s : string)
| LErr (e : option error)
| LVal (v : option value)
| LClaim (v : claimValue).

(** One call of the sugared logger: [printf] is the format of the [...f]
    variants and [None] for the print-style ones. *)
Record LogEntry : Type := mkLogEntry {
  log_level : Level;
  log_printf : option string;
  log_args : list LogArg
}.

(** Calls the handlers make into the provider, the policy and the token
    manager, recorded in order. *)
Inductive Call : Type :=
| CallGetUserInfo
| CallVerifyUser (u : User) (ok : bool)
| CallCreateUserTokenString (u : User) (cc : CustomClaims) (pt : PTokens).

(** ** Collaborators *)

(** [net/textproto]. *)
Class Textproto : Type := {
  CanonicalMIMEHeaderKey : string -> string
}.

(** [pkg/cookie]: [Cookie(r)] reads the proof cookie. *)
Class CookiePkg : Type := {
  cookie_Cookie : Request -> string * option error
}.

(** [gorilla/sessions]: [sessstore.Get] returns a session (a fresh one when
    decoding fails) and an error; [session.Save] may fail. *)
Class Sessions : Type := {
  sessstore_Get : Request -> string -> gmap string value * option error;
  session_Save_err : Request -> gmap string value -> option error
}.

(** [pkg/jwtmanager]. *)
Class Jwtmanager : Type := {
  Token : Type;
  ParseTokenString : string -> Token * option error;
  PTokenClaims : Token -> VouchClaims * option error;
  SiteInClaims : string -> VouchClaims -> bool;
  CreateUserTokenString : User -> CustomClaims -> PTokens -> string
}.

(** [pkg/domains]. *)
Class DomainsPkg : Type := {
  domains_Matches : string -> string;
  IsUnderManagement : string -> bool
}.

(** The [Provider] interface of [handlers.go]: [GetUserInfo] fills the three
    structures it is given and may fail. *)
Class Provider : Type := {
  GetUserInfo : Request -> User -> CustomClaims -> PTokens ->
                (User * CustomClaims * PTokens) * option error
}.

(** [oauth2.Config.AuthCodeURL], as a function of the client's redirect URL,
    the state and the options it is passed ([None] is a nil option). *)
Class OAuth2 : Type := {
  AuthCodeURL : string -> string -> list (option AuthCodeOption) -> string
}.

(** [fmt] where the handlers leave the simple case of a constant format with
    string operands: the text of [Sprint] and of the [%s] verb on a claim value
    that is not a string, and [Sprintf] with a computed format and one string
    operand. *)
Class Fmt : Type := {
  Sprint_other : claimValue -> string;
  verb_s_other : claimValue -> string;
  Sprintf_computed : string -> string -> string
}.

(** [gorilla/sessions] on a store whose [MaxAge] was set by
    [sessstore.MaxAge(age)]: the age enters the decoding of the session cookie
    and the cookie that [session.Save] writes. *)
Class SessionsAt : Type := {
  sessstore_Get_at : Z -> Request -> string -> gmap string value * option error;
  session_Save_err_at : Z -> Request -> gmap string value -> option error
}.

(** ** The world a handler runs in *)

(** [rng] is the outcome of each successive call of
    [securerandom.URLBase64InBytes]; [rng_next] counts the calls made. *)
Record World : Type := mkWorld {
  writer : ResponseWriter;
  logged : list LogEntry;
  calls : list Call;
  cfg_TestURLs : list string;
  OAuthClient_RedirectURL : string;
  rng : nat -> string * option error;
  rng_next : nat
}.

(** How a Go function ends. *)
Inductive Res (A : Type) : Type :=
| Returns (a : A)
| Panics (msg : string).
Arguments Returns {A} a.
Arguments Panics {A} msg.

Definition M (A : Type) : Type := World -> Res A * World.

#[export] Instance M_ret : MRet M := fun A a σ => (Returns a, σ).

#[export] Instance M_bind : MBind M := fun A B f m σ =>
  match m σ with
  | (Returns a, σ') => f a σ'
  | (Panics msg, σ') => (Panics msg, σ')
  end.

Definition panic {A : Type} (msg : string) : M A := fun σ => (Panics msg, σ).

Definition get_world : M World := fun σ => (Returns σ, σ).

Definition modify (f : World -> World) : M unit := fun σ => (Returns tt, f σ).

Definition with_w (f : ResponseWriter -> ResponseWriter) : M unit :=
  modify (fun σ => mkWorld (f (writer σ)) (logged σ) (calls σ) (cfg_TestURLs σ)
                           (OAuthClient_RedirectURL σ) (rng σ) (rng_next σ)).

Definition log (lvl : Level) (printf : option string) (args : list LogArg) : M unit :=
  modify (fun σ => mkWorld (writer σ) (logged σ ++ [mkLogEntry lvl printf args]) (calls σ)
                           (cfg_TestURLs σ) (OAuthClient_RedirectURL σ) (rng σ) (rng_next σ)).

Definition record_call (c : Call) : M unit :=
  modify (fun σ => mkWorld (writer σ) (logged σ) (calls σ ++ [c]) (cfg_TestURLs σ)
                           (OAuthClient_RedirectURL σ) (rng σ) (rng_next σ)).

(** The server hands every request a new response writer; the log and the
    call record start empty, the package-level variables are kept. *)
Definition fresh_writer : ResponseWriter := mkResponseWriter ∅ None [] [] [].

Definition serve (handler : M unit) (σ : World) : Res unit * World :=
  handler (mkWorld fresh_writer [] [] (cfg_TestURLs σ) (OAuthClient_RedirectURL σ)
                   (rng σ) (rng_next σ)).

(** [for _, x := range l { body }] without [break]. *)
Fixpoint forM_ {A : Type} (l : list A) (body : A -> M unit) : M unit :=
  match l with
  | [] => mret tt
  | x :: rest => body x ;; forM_ rest body
  end.

(** ** Reference collaborators

    One small implementation of every collaborator, on which the theorems
    below are instantiated. *)

Module Reference.

Fixpoint assoc {A : Type} (key : string) (l : list (string * A)) : option A :=
  match l with
  | [] => None
  | (k, v) :: rest => if decide (k = key) then Some v else assoc key rest
  end.

(** Header keys are taken as they are written. *)
Definition textproto : Textproto :=
  {| CanonicalMIMEHeaderKey := fun key => key |}.

(** The proof cookie is the plain cookie named [VouchCookie]. *)
Definition cookies : CookiePkg :=
  {| cookie_Cookie := fun r =>
       match assoc "VouchCookie" (req_Cookies r) with
       | Some (Plain jwt) => (jwt, None)
       | _ => ("", Some "http: named cookie not present")
       end |}.

(** The session is the sealed cookie of the configured name; saving never
    fails. *)
Definition sessions : Sessions :=
  {| sessstore_Get := fun r name =>
       match assoc name (req_Cookies r) with
       | Some (Sealed values) => (values, None)
       | Some (Plain _) => (∅, Some "securecookie: the value is not valid")
       | None => (∅, None)
       end;
     session_Save_err := fun _ _ => None |}.

(** A token is [jwt:] followed by the username; it is valid for the one site
    [a.example.com] and carries two custom claims. *)
Definition claims_of (username : string) : VouchClaims :=
  mkVouchClaims username ["a.example.com"]
    [("groups", CSeq [CString "a"; CString "b"]);
     ("address", CObject [("country", CString "US")])]
    "" "".

Definition jwtmanager : Jwtmanager :=
  {| Token := string;
     ParseTokenString := fun s =>
       if prefix_of "jwt:" s then (String.substring 4 (String.length s - 4) s, None)
       else ("", Some "token contains an invalid number of segments");
     PTokenClaims := fun tok => (claims_of tok, None);
     SiteInClaims := fun host claims =>
       existsb (fun site => Contains host site) (vc_Sites claims);
     CreateUserTokenString := fun u _ _ => "jwt:" +:+ Username u |}.

Definition domains : DomainsPkg :=
  {| domains_Matches := fun host => host;
     IsUnderManagement := fun email => Contains email "@example.com" |}.

(** The provider names the user after the [code] of the callback. *)
Definition provider : Provider :=
  {| GetUserInfo := fun r user customClaims ptokens =>
       let code := Query_Get (URL_Query r) "code" in
       if decide (code = "") then
         ((user, customClaims, ptokens), Some "oauth2: cannot fetch token")
       else
         ((mkUser code (code +:+ "@example.com") ["dev"], customClaims, ptokens), None) |}.

Definition oauth2 : OAuth2 :=
  {| AuthCodeURL := fun redirectURL state _ =>
       "https://idp.example.com/authorize?redirect_uri=" +:+ redirectURL +:+
       "&state=" +:+ state |}.

Definition fmt : Fmt :=
  {| Sprint_other := fun _ => "map[country:US]";
     verb_s_other := fun _ => "%!s(float64=1)";
     Sprintf_computed := fun format operand => format +:+ " " +:+ operand |}.

Definition headers : HeadersCfg :=
  mkHeadersCfg "X-Vouch-Token" "X-Vouch-User" "access_token" "X-Vouch-Success" "" ""
    [("groups", "X-Groups"); ("address", "X-Address")].

(** The configuration: nothing allowed by default, one whitelisted user. *)
Definition config (publicAccess testing : bool) : Config :=
  mkConfig false publicAccess testing ["alice"] [] [] headers "VouchSession"
    Google ["https://vouch.example.com/auth"] None "Vouch".

(** A world whose random source works ([rand_ok]) or fails ([rand_fails]). *)
Definition rand_ok : nat -> string * option error :=
  fun _ => ("Zm9v-YmFy_YmF6", None).

Definition rand_fails : nat -> string * option error :=
  fun _ => ("", Some "crypto/rand: entropy unavailable").

Definition world (rng : nat -> string * option error) : World :=
  mkWorld (mkResponseWriter ∅ None [] [] []) [] [] [] "" rng 0.

(** Requests to [/validate]: with a proof cookie, with an Authorization
    header and a query-string token, and with no token at all. *)
Definition r_cookie (host jwt : string) : Request :=
  mkRequest host ∅ [] [("VouchCookie", Plain jwt)].

Definition r_authorization (auth : string) : Request :=
  mkRequest "a.example.com" {["Authorization" := [auth]]} [("access_token", "jwt:bob")] [].

Definition r_no_token : Request := mkRequest "a.example.com" ∅ [] [].

(** Requests to [/login] for one destination, and the sessions a browser
    holds after the first and after the second of them. *)
Definition app_url : string := "https://app.example.com/page".

Definition r_login (cookies : list (string * CookiePayload)) : Request :=
  mkRequest "vouch.example.com" ∅ [("url", app_url)] cookies.

Definition session_after (count : Z) : gmap string value :=
  <[app_url := VInt count]>
    (<["requestedURL" := VString app_url]> (<["state" := VString "Zm9vYmFyYmF6"]> ∅)).

(** Callbacks from the provider, in the session of the first login. *)
Definition r_callback (query : list (string * string)) : Request :=
  mkRequest "vouch.example.com" ∅ query [("VouchSession", Sealed (session_after 1))].

(** The store with a [MaxAge]: a negative age makes every stored session
    expire, so that [Get] gives a new, empty one. *)
Definition sessions_at : SessionsAt :=
  {| sessstore_Get_at := fun age r name =>
       match assoc name (req_Cookies r) with
       | Some (Sealed values) =>
           if decide (age < 0) then (∅, Some "securecookie: expired timestamp")
           else (values, None)
       | Some (Plain _) => (∅, Some "securecookie: the value is not valid")
       | None => (∅, None)
       end;
     session_Save_err_at := fun _ _ _ => None |}.

(** A request to [/logout], and a configuration of the IndieAuth provider and
    one with the team whitelist. *)
Definition r_logout (query : list (string * string)) : Request :=
  mkRequest "vouch.example.com" ∅ query [("VouchSession", Sealed (session_after 1))].

Definition config_teams : Config :=
  mkConfig false false false [] ["dev"] [] headers "VouchSession"
    Google ["https://vouch.other.org/auth"; "https://vouch.example.com/auth";
            "https://vouch.example.com/auth2"] None "Vouch".

Definition config_allow_all : Config :=
  mkConfig true false false [] [] [] headers "VouchSession"
    Google ["https://vouch.example.com/auth"] None "Vouch".

Definition config_open : Config :=
  mkConfig false false false [] [] [] headers "VouchSession"
    Google ["https://vouch.example.com/auth"] None "Vouch".

(** A domain collaborator that matches no host, a token manager whose tokens
    carry the provider's tokens, and a configuration that forwards them. *)
Definition domains_none : DomainsPkg :=
  {| domains_Matches := fun _ => "";
     IsUnderManagement := fun _ => false |}.

Definition claims_with_tokens (username : string) : VouchClaims :=
  mkVouchClaims username ["a.example.com"] [("groups", CSeq [CString "a"; CString "b"])]
    "access-123" "id-456".

Definition jwtmanager_tokens : Jwtmanager :=
  {| Token := string;
     ParseTokenString := fun s => (s, None);
     PTokenClaims := fun tok => (claims_with_tokens tok, None);
     SiteInClaims := fun host claims =>
       existsb (fun site => Contains host site) (vc_Sites claims);
     CreateUserTokenString := fun u _ _ => Username u |}.

Definition config_tokens : Config :=
  mkConfig false false false [] [] []
    (mkHeadersCfg "X-Vouch-Token" "X-Vouch-User" "access_token" "X-Vouch-Success"
       "X-Vouch-IdP-AccessToken" "X-Vouch-IdP-IdToken" [("groups", "X-Groups")])
    "VouchSession" Google ["https://vouch.example.com/auth"] None "Vouch".

(** The session of the first login after a successful callback, and the
    session of a first login made while the random source was failing. *)
Definition session_cleared : gmap string value :=
  <[app_url := VInt 0]> (<["requestedURL" := VString ""]> (session_after 1)).

Definition session_empty_state : gmap string value :=
  <[app_url := VInt 1]>
    (<["requestedURL" := VString app_url]> (<["state" := VString ""]> ∅)).

Definition r_in_session (query : list (string * string)) (session : CookiePayload) :
    Request :=
  mkRequest "vouch.example.com" ∅ query [("VouchSession", session)].

End Reference.

(** ** [net/http] *)

Section Handlers.
Context {net_textproto : Textproto} {pkg_cookie : CookiePkg} {gorilla_sessions : Sessions}
        {pkg_jwtmanager : Jwtmanager} {pkg_domains : DomainsPkg} {oauth_provider : Provider}
        {x_oauth2 : OAuth2} {std_fmt : Fmt}.
Context {gorilla_store : SessionsAt}.
Variable cfg : Config.

(** [h.Get(key)], [h.Add(key, value)] and [h.Set(key, value)]. *)
Definition Header_Get (h : Header) (key : string) : string :=
  match h !! CanonicalMIMEHeaderKey key with
  | Some (v :: _) => v
  | _ => ""
  end.

Definition Header_Add (h : Header) (key val : string) : Header :=
  <[CanonicalMIMEHeaderKey key := (default [] (h !! CanonicalMIMEHeaderKey key) ++ [val])%list]> h.

Definition Header_Set (h : Header) (key val : string) : Header :=
  <[CanonicalMIMEHeaderKey key := [val]]> h.

(** [w.Header().Add(key, value)] and [w.Header().Set(key, value)]. *)
Definition w_Header_Add (key val : string) : M unit :=
  with_w (fun rw => mkResponseWriter (Header_Add (rw_header rw) key val) (rw_status rw)
                      (rw_body rw) (rw_cookie rw) (rw_session rw)).

Definition w_Header_Set (key val : string) : M unit :=
  with_w (fun rw => mkResponseWriter (Header_Set (rw_header rw) key val) (rw_status rw)
                      (rw_body rw) (rw_cookie rw) (rw_session rw)).

(** [w.WriteHeader(code)]: only the first call sets the status. *)
Definition w_WriteHeader (code : Z) : M unit :=
  with_w (fun rw => mkResponseWriter (rw_header rw)
                      (match rw_status rw with Some c => Some c | None => Some code end)
                      (rw_body rw) (rw_cookie rw) (rw_session rw)).

(** [w.Write(...)]: writes the status 200 first when none was written. The
    write itself is taken to succeed. *)
Definition w_Write (c : Chunk) : M unit :=
  w_WriteHeader StatusOK ;;
  with_w (fun rw => mkResponseWriter (rw_header rw) (rw_status rw)
                      (rw_body rw ++ [c]) (rw_cookie rw) (rw_session rw)).

(** [http.Error(w, msg, code)]. *)
Definition http_Error (msg : string) (code : Z) : M unit :=
  w_Header_Set "Content-Type" "text/plain; charset=utf-8" ;;
  w_Header_Set "X-Content-Type-Options" "nosniff" ;;
  w_WriteHeader code ;;
  w_Write (Bytes (msg +:+ LF)).

(** [http.Redirect(w, r, url, code)]: the status [code]; the [Location]
    header and the short HTML body that name [url] are the chunk
    [RedirectTo url]. *)
Definition http_Redirect (url : string) (code : Z) : M unit :=
  w_WriteHeader code ;;
  with_w (fun rw => mkResponseWriter (rw_header rw) (rw_status rw)
                      (rw_body rw ++ [RedirectTo url]) (rw_cookie rw) (rw_session rw)).

(** ** [pkg/cookie] and [gorilla/sessions] on the writer *)

Definition cookie_SetCookie (jwt : string) : M unit :=
  with_w (fun rw => mkResponseWriter (rw_header rw) (rw_status rw) (rw_body rw)
                      (rw_cookie rw ++ [SetCookie jwt]) (rw_session rw)).

Definition cookie_ClearCookie : M unit :=
  with_w (fun rw => mkResponseWriter (rw_header rw) (rw_status rw) (rw_body rw)
                      (rw_cookie rw ++ [ClearCookie]) (rw_session rw)).

(** [session.Save(r, w)]: on success the session's values go out with the
    response. *)
Definition session_Save (r : Request) (values : gmap string value) : M (option error) :=
  match session_Save_err r values with
  | Some e => mret (Some e)
  | None =>
      with_w (fun rw => mkResponseWriter (rw_header rw) (rw_status rw) (rw_body rw)
                          (rw_cookie rw) (rw_session rw ++ [values])) ;;
      mret None
  end.

(** [if err != nil { log.Error(err) }]. *)
Definition log_if_err (err : option error) : M unit :=
  match err with
  | Some e => log ErrorLevel None [LErr (Some e)]
  | None => mret tt
  end.

(** A type assertion [v.(string)] and [v.(int)] on a session value. *)
Definition assert_string (v : option value) : M string :=
  match v with
  | Some (VString s) => mret s
  | Some (VInt _) => panic "interface conversion: interface {} is int, not string"
  | None => panic "interface conversion: interface {} is nil, not string"
  end.

Definition assert_int (v : option value) : M Z :=
  match v with
  | Some (VInt n) => mret n
  | Some (VString _) => panic "interface conversion: interface {} is string, not int"
  | None => panic "interface conversion: interface {} is nil, not int"
  end.

(** [v != s] for an interface value [v] and a string [s]. *)
Definition iface_ne_string (v : option value) (s : string) : bool :=
  match v with
  | Some (VString s') => bool_decide (s' ≠ s)
  | _ => true
  end.

(** ** [fmt] on the operands the handlers pass *)

(** The [%s] verb on an [error] and on a slice of strings. *)
Definition verb_s_err (e : option error) : string :=
  match e with
  | Some msg => msg
  | None => "%!s(<nil>)"
  end.

Definition verb_s_strings (l : list string) : string :=
  "[" +:+ Join l " " +:+ "]".

(** [fmt.Sprintf("\"%s\"", v)] and [fmt.Sprint(v)] on a claim value. *)
Definition Sprintf_quoted (v : claimValue) : string :=
  match v with
  | CString s => DQUOTE +:+ s +:+ DQUOTE
  | _ => DQUOTE +:+ verb_s_other v +:+ DQUOTE
  end.

Definition Sprint (v : claimValue) : string :=
  match v with
  | CString s => s
  | _ => Sprint_other v
  end.

(** [reflect.TypeOf(val).Kind() == reflect.String] for [val] of static type
    [string]. *)
Definition Kind_is_String (val : string) : bool := true.
(** ** [handlers.go] *)

(** [loginURL(r, state)]. For the providers other than IndieAuth and ADFS
    the first configured redirect URL that contains the domain matching the
    request's host is stored in [cfg.OAuthClient.RedirectURL]. *)
Fixpoint first_RedirectURL (domain : string) (urls : list string) : option string :=
  match urls with
  | [] => None
  | v :: rest => if Contains v domain then Some v else first_RedirectURL domain rest
  end.

Definition set_RedirectURL (v : string) : M unit :=
  modify (fun σ => mkWorld (writer σ) (logged σ) (calls σ) (cfg_TestURLs σ) v
                           (rng σ) (rng_next σ)).

Definition loginURL (r : Request) (state : string) : M string :=
  match GenOAuth_Provider cfg with
  | IndieAuth =>
      σ ← get_world ;
      mret (AuthCodeURL (OAuthClient_RedirectURL σ) state
              [Some (SetAuthURLParam "response_type" "id")])
  | ADFS =>
      σ ← get_world ;
      mret (AuthCodeURL (OAuthClient_RedirectURL σ) state [OAuthopts cfg])
  | _ =>
      let domain := domains_Matches (Host r) in
      match first_RedirectURL domain (GenOAuth_RedirectURLs cfg) with
      | Some v => set_RedirectURL v
      | None => mret tt
      end ;;
      σ ← get_world ;
      match OAuthopts cfg with
      | Some o => mret (AuthCodeURL (OAuthClient_RedirectURL σ) state [Some o])
      | None => mret (AuthCodeURL (OAuthClient_RedirectURL σ) state [])
      end
  end.

(** [FindJWT(r)]: cookie, JWT header, Authorization header, query string, in
    that order. *)
Definition FindJWT (r : Request) : string :=
  let '(jwt, err) := cookie_Cookie r in
  match err with
  | None => jwt
  | Some _ =>
      let jwt := Header_Get (req_Header r) (hdr_JWT (Headers cfg)) in
      if decide (jwt ≠ "") then jwt
      else
        let auth := Header_Get (req_Header r) "Authorization" in
        let from_auth :=
          if decide (auth ≠ "") then
            match SplitN2 auth " " with
            | [_; s1] => Some s1
            | _ => None
            end
          else None in
        match from_auth with
        | Some jwt => jwt
        | None =>
            let jwt := Query_Get (URL_Query r) (hdr_QueryString (Headers cfg)) in
            if decide (jwt ≠ "") then jwt else ""
        end
  end.

(** [ClaimsFromJWT(jwt)]: the zero claims and the error when the token does
    not parse. *)
Definition ClaimsFromJWT (jwt : string) : M (VouchClaims * option error) :=
  let '(jwtParsed, err) := ParseTokenString jwt in
  match err with
  | Some e =>
      log ErrorLevel None [LStr "jwtParsed returned error, clearing cookie"] ;;
      mret (mkVouchClaims "" [] [] "" "", Some e)
  | None =>
      let '(claims, err) := PTokenClaims jwtParsed in
      match err with
      | Some e => mret (claims, Some e)
      | None => mret (claims, None)
      end
  end.

(** [renderIndex(w, msg)]: executes [index.tmpl] on the message and the test
    URLs collected so far. *)
Definition renderIndex (msg : string) : M unit :=
  σ ← get_world ;
  w_Write (IndexPage (mkIndex msg (cfg_TestURLs σ) (cfg_Testing cfg))).

(** [error401(w, r, ae)], [redirect302(w, r, rURL)] and [ok200(w, r)]. *)
Definition error401 (ae : AuthError) : M unit :=
  log ErrorLevel None [LStr (Error ae)] ;;
  cookie_ClearCookie ;;
  http_Error (Error ae) StatusUnauthorized.

Definition append_TestURL (rURL : string) : M unit :=
  modify (fun σ => mkWorld (writer σ) (logged σ) (calls σ) (cfg_TestURLs σ ++ [rURL])
                           (OAuthClient_RedirectURL σ) (rng σ) (rng_next σ)).

Definition redirect302 (rURL : string) : M unit :=
  if cfg_Testing cfg then
    append_TestURL rURL ;;
    renderIndex ("302 redirect to: " +:+ rURL)
  else http_Redirect rURL StatusFound.

Definition ok200 : M unit :=
  w_Write (Bytes ("200 OK" +:+ LF)).

(** The body of the two nested [range] loops of [/validate], for one custom
    claim [k, v] and one configured mapping [claim, header]. *)
Definition project_claim (k : string) (v : claimValue) (claim header : string) : M unit :=
  if decide (claim = k) then
    match v with
    | CSeq val =>
        let strs := Sprintf_quoted <$> val in
        w_Header_Add header (Join strs ",")
    | _ =>
        let val := Sprint v in
        if Kind_is_String val then w_Header_Add header val
        else log ErrorLevel
               (Some "Couldn't parse header type for %s %+v.  Please submit an issue.")
               [LStr k; LClaim v]
    end
  else mret tt.

(** Lines 218 to 286 of [ValidateRequestHandler]: what the handler does once
    the token is accepted for the request's host. *)
Definition validate_accepted (claims : VouchClaims) : M unit :=
  (if decide (0 < List.length (hdr_ClaimsCleaned (Headers cfg)))%nat then
     forM_ (vc_CustomClaims claims) (fun '(k, v) =>
       forM_ (hdr_ClaimsCleaned (Headers cfg)) (fun '(claim, header) =>
         project_claim k v claim header))
   else mret tt) ;;
  w_Header_Add (hdr_User (Headers cfg)) (vc_Username claims) ;;
  w_Header_Add (hdr_Success (Headers cfg)) "true" ;;
  (if decide (hdr_AccessToken (Headers cfg) ≠ "") then
     if decide (vc_PAccessToken claims ≠ "") then
       w_Header_Add (hdr_AccessToken (Headers cfg)) (vc_PAccessToken claims)
     else mret tt
   else mret tt) ;;
  (if decide (hdr_IDToken (Headers cfg) ≠ "") then
     if decide (vc_PIdToken claims ≠ "") then
       w_Header_Add (hdr_IDToken (Headers cfg)) (vc_PIdToken claims)
     else mret tt
   else mret tt) ;;
  if cfg_Testing cfg then renderIndex ("user authorized " +:+ vc_Username claims)
  else ok200.

(** [ValidateRequestHandler(w, r)]. *)
Definition ValidateRequestHandler (r : Request) : M unit :=
  let jwt := FindJWT r in
  if decide (jwt = "") then
    if PublicAccess cfg then
      w_Header_Add (hdr_User (Headers cfg)) "" ;;
      ok200
    else error401 (mkAuthError "no jwt found in request" "")
  else
    '(claims, err) ← ClaimsFromJWT jwt ;
    match err with
    | Some e =>
        if negb (PublicAccess cfg) then error401 (mkAuthError e jwt)
        else w_Header_Add (hdr_User (Headers cfg)) ""
    | None =>
        if decide (vc_Username claims = "") then
          if negb (PublicAccess cfg) then
            error401 (mkAuthError "no Username found in jwt" jwt)
          else w_Header_Add (hdr_User (Headers cfg)) ""
        else if negb (AllowAllUsers cfg) then
          if negb (SiteInClaims (Host r) claims) then
            if negb (PublicAccess cfg) then
              error401 (mkAuthError
                ("http header 'Host: " +:+ Host r +:+
                 "' not authorized for configured `vouch.domains` (is Host being sent properly?)")
                jwt)
            else w_Header_Add (hdr_User (Headers cfg)) ""
          else validate_accepted claims
        else validate_accepted claims
    end.

(** [generateStateNonce()]: 32 bytes of secure randomness in URL-safe
    base64, stripped of everything that is not a letter or a digit. *)
Definition base64Bytes : nat := 32.

Definition securerandom_URLBase64InBytes (n : nat) : M (string * option error) :=
  σ ← get_world ;
  modify (fun σ => mkWorld (writer σ) (logged σ) (calls σ) (cfg_TestURLs σ)
                           (OAuthClient_RedirectURL σ) (rng σ) (S (rng_next σ))) ;;
  mret (rng σ (rng_next σ)).

Definition generateStateNonce : M (string * option error) :=
  '(state, err) ← securerandom_URLBase64InBytes base64Bytes ;
  match err with
  | Some e => mret ("", Some e)
  | None => mret (stripNonAlphaNum state, None)
  end.

(** Lines 371 to 397 of [LoginHandler]: a destination was requested; [values]
    are the session's values, the new state among them. *)
Definition login_destination (r : Request) (state : string) (values : gmap string value)
    (requestedURL : string) : M unit :=
  let values := <["requestedURL" := VString requestedURL]> values in
  failcount ← match values !! requestedURL with
              | None => mret 0
              | Some v => assert_int (Some v)
              end ;
  let failcount := wrap_int (failcount + 1) in
  let values := <[requestedURL := VInt failcount]> values in
  err ← session_Save r values ;
  log_if_err err ;;
  if decide (failcount > 2) then
    let vouchError := Query_Get (URL_Query r) "error" in
    renderIndex ("/login too many redirects for " +:+ requestedURL +:+ " - " +:+ vouchError)
  else
    lURL ← loginURL r state ;
    redirect302 lURL.

(** [LoginHandler(w, r)]. *)
Definition LoginHandler (r : Request) : M unit :=
  cookie_ClearCookie ;;
  let '(values, err) := sessstore_Get r (Session_Name cfg) in
  match err with
  | Some e =>
      log Warn
        (Some "couldn't find existing encrypted secure cookie with name %s: %s (probably fine)")
        [LStr (Session_Name cfg); LErr (Some e)]
  | None => mret tt
  end ;;
  '(state, err) ← generateStateNonce ;
  log_if_err err ;;
  let values := <["state" := VString state]> values in
  let requestedURL := Query_Get (URL_Query r) "url" in
  if decide (requestedURL = "") then
    renderIndex "/login no destination URL requested" ;;
    log ErrorLevel None [LStr "no destination URL requested"]
  else login_destination r state values requestedURL.

(** [VerifyUser(u)]. The two loops return as soon as a match is found. *)
Fixpoint range_find (x : string) (wls : list string) : bool :=
  match wls with
  | [] => false
  | wl :: rest => if decide (x = wl) then true else range_find x rest
  end.

Fixpoint range_teams (teams wls : list string) : bool :=
  match teams with
  | [] => false
  | team :: rest => if range_find team wls then true else range_teams rest wls
  end.

Definition VerifyUser_switch (user : User) : M (bool * option error) :=
  if AllowAllUsers cfg then mret (true, None)
  else if decide (List.length (WhiteList cfg) ≠ 0%nat) then
    if range_find (Username user) (WhiteList cfg) then mret (true, None)
    else mret (false,
               Some ("VerifyUser: user.Username not found in WhiteList: " +:+ Username user))
  else if decide (List.length (TeamWhiteList cfg) ≠ 0%nat) then
    if range_teams (TeamMemberships user) (TeamWhiteList cfg) then mret (true, None)
    else mret (false,
               Some ("VerifyUser: user.TeamMemberships " +:+
                     verb_s_strings (TeamMemberships user) +:+
                     " not found in TeamWhiteList: " +:+ verb_s_strings (TeamWhiteList cfg) +:+
                     " for user " +:+ Username user))
  else if decide (List.length (Domains cfg) ≠ 0%nat) then
    if IsUnderManagement (Email user) then mret (true, None)
    else mret (false,
               Some (Sprintf_computed
                       ("VerifyUser: Email %s is not within a " +:+ Branding_CcName cfg +:+
                        " managed domain")
                       (Email user)))
  else
    log Warn None
      [LStr "VerifyUser: no domains, whitelist, teamWhitelist or AllowAllUsers configured, any successful auth to the IdP authorizes access"] ;;
    mret (true, None).

(** The call is recorded with the decision it returned. *)
Definition VerifyUser (user : User) : M (bool * option error) :=
  res ← VerifyUser_switch user ;
  record_call (CallVerifyUser user res.1) ;;
  mret res.

(** [getUserInfo(r, &user, &customClaims, &ptokens)]. *)
Definition getUserInfo (r : Request) (user : User) (customClaims : CustomClaims)
    (ptokens : PTokens) : M ((User * CustomClaims * PTokens) * option error) :=
  record_call CallGetUserInfo ;;
  mret (GetUserInfo r user customClaims ptokens).

Definition jwtmanager_CreateUserTokenString (user : User) (customClaims : CustomClaims)
    (ptokens : PTokens) : M string :=
  record_call (CallCreateUserTokenString user customClaims ptokens) ;;
  mret (CreateUserTokenString user customClaims ptokens).

(** Lines 503 to 512 of [CallbackHandler]: the policy denied the user. *)
Definition callback_denied (values : gmap string value) (err : option error) : M unit :=
  log ErrorLevel None [LErr err] ;;
  requestedURL ← assert_string (values !! "requestedURL") ;
  if decide (requestedURL ≠ "") then
    renderIndex ("/auth User is not authorized. " +:+ verb_s_err err +:+
                 " <a href=" +:+ DQUOTE +:+ requestedURL +:+ DQUOTE +:+
                 ">Please try again</a>.")
  else
    renderIndex ("/auth User is not authorized. " +:+ verb_s_err err +:+
                 " Please try again.").

(** Lines 515 to 536 of [CallbackHandler]: the user is authorized. *)
Definition callback_authorized (r : Request) (values : gmap string value) (user : User)
    (customClaims : CustomClaims) (ptokens : PTokens) : M unit :=
  tokenstring ← jwtmanager_CreateUserTokenString user customClaims ptokens ;
  cookie_SetCookie tokenstring ;;
  requestedURL ← assert_string (values !! "requestedURL") ;
  if decide (requestedURL ≠ "") then
    let values := <["requestedURL" := VString ""]> values in
    let values := <[requestedURL := VInt 0]> values in
    err ← session_Save r values ;
    log_if_err err ;;
    redirect302 requestedURL
  else renderIndex ("/auth " +:+ tokenstring).

(** [CallbackHandler(w, r)]. *)
Definition CallbackHandler (r : Request) : M unit :=
  let '(values, err) := sessstore_Get r (Session_Name cfg) in
  match err with
  | Some e =>
      log ErrorLevel (Some "/auth could not find session store %s") [LStr (Session_Name cfg)] ;;
      http_Error e StatusInternalServerError
  | None =>
      let queryState := Query_Get (URL_Query r) "state" in
      if iface_ne_string (values !! "state") queryState then
        log ErrorLevel (Some "/auth Invalid session state: stored %s, returned %s")
          [LVal (values !! "state"); LStr queryState] ;;
        renderIndex "/auth Invalid session state."
      else
        let errorState := Query_Get (URL_Query r) "error" in
        if decide (errorState ≠ "") then
          let errorDescription := Query_Get (URL_Query r) "error_description" in
          log Warn None [LStr "/auth Error state: "; LStr errorState;
                         LStr ", Error description: "; LStr errorDescription] ;;
          w_WriteHeader StatusForbidden ;;
          renderIndex ("FORBIDDEN: " +:+ errorDescription)
        else
          '(filled, err) ← getUserInfo r (mkUser "" "" []) (mkCustomClaims []) (mkPTokens "" "") ;
          let '(user, customClaims, ptokens) := filled in
          match err with
          | Some e =>
              log ErrorLevel None [LErr (Some e)] ;;
              http_Error e StatusBadRequest
          | None =>
              _ ← assert_string (values !! "requestedURL") ;
              '(ok, err) ← VerifyUser user ;
              if negb ok then callback_denied values err
              else callback_authorized r values user customClaims ptokens
          end
  end.

(** [LogoutHandler(w, r)]. The store's [MaxAge] is package-level state: the
    handler takes the age in force and returns the age it leaves. The session
    is read and saved under the age [-1]. *)
Definition session_Save_at (age : Z) (r : Request) (values : gmap string value) :
    M (option error) :=
  match session_Save_err_at age r values with
  | Some e => mret (Some e)
  | None =>
      with_w (fun rw => mkResponseWriter (rw_header rw) (rw_status rw) (rw_body rw)
                          (rw_cookie rw) (rw_session rw ++ [values])) ;;
      mret None
  end.

Definition LogoutHandler (r : Request) (MaxAge : Z) : M Z :=
  cookie_ClearCookie ;;
  let MaxAge := -1 in
  let '(values, err) := sessstore_Get_at MaxAge r (Session_Name cfg) in
  log_if_err err ;;
  err ← session_Save_at MaxAge r values ;
  log_if_err err ;;
  let MaxAge := 300 in
  let requestedURL := Query_Get (URL_Query r) "url" in
  (if decide (requestedURL ≠ "") then redirect302 requestedURL
   else renderIndex "/logout you have been logged out") ;;
  mret MaxAge.

(** The server's call of a handler that returns a value. *)
Definition serve_with {A : Type} (handler : M A) (σ : World) : Res A * World :=
  handler (mkWorld fresh_writer [] [] (cfg_TestURLs σ) (OAuthClient_RedirectURL σ)
                   (rng σ) (rng_next σ)).

(** ** The specification's vocabulary *)

(** [s] contains the byte [sep]. *)
Definition contains_byte (sep : ascii) (s : string) : Prop :=
  ∃ before after, s = before +:+ String sep after.

(** The response carries [val] among the values of the header [key]. *)
Definition header_has (rw : ResponseWriter) (key val : string) : Prop :=
  val ∈ default [] (rw_header rw !! CanonicalMIMEHeaderKey key).

(** The response of [error401] with the message [msg], and the pass-through
    of public-access mode: nothing but an empty identity header. *)
Definition unauthorized_writer (msg : string) : ResponseWriter :=
  mkResponseWriter
    (Header_Set (Header_Set ∅ "Content-Type" "text/plain; charset=utf-8")
       "X-Content-Type-Options" "nosniff")
    (Some StatusUnauthorized) [Bytes (msg +:+ LF)] [ClearCookie] [].

Definition public_writer : ResponseWriter :=
  mkResponseWriter (Header_Add ∅ (hdr_User (Headers cfg)) "") None [] [] [].

(** The text of the 401 for a host outside the token's sites. *)
Definition host_not_authorized (host : string) : string :=
  "http header 'Host: " +:+ host +:+
  "' not authorized for configured `vouch.domains` (is Host being sent properly?)".

(** A session entry is cleared when it is absent or holds the zero value of
    its type. *)
Definition cleared (v : option value) : Prop :=
  v = None ∨ v = Some (VString "") ∨ v = Some (VInt 0).

(** The request [r] comes with the session that the response [rw] saved. *)
Definition carries_session (r : Request) (rw : ResponseWriter) : Prop :=
  ∃ values, last (rw_session rw) = Some values ∧
            sessstore_Get r (Session_Name cfg) = (values, None).

(** The zero values [CallbackHandler] hands to the provider. *)
Definition no_user : User := mkUser "" "" [].
Definition no_claims : CustomClaims := mkCustomClaims [].
Definition no_tokens : PTokens := mkPTokens "" "".

(** A token is rejected, with the message [msg], when it does not parse,
    when its claims cannot be extracted, or when they carry no username. *)
Definition token_rejected (jwt msg : string) : Prop :=
  (∃ tok, ParseTokenString jwt = (tok, Some msg)) ∨
  (∃ tok claims, ParseTokenString jwt = (tok, None) ∧
                 PTokenClaims tok = (claims, Some msg)) ∨
  (∃ tok claims, ParseTokenString jwt = (tok, None) ∧
                 PTokenClaims tok = (claims, None) ∧
                 vc_Username claims = "" ∧ msg = "no Username found in jwt").

(** A step of a handler that only adds response headers and log entries,
    and a computation that always makes such a step. *)
Definition header_step (σ σ' : World) : Prop :=
  rw_status (writer σ') = rw_status (writer σ) ∧
  rw_body (writer σ') = rw_body (writer σ) ∧
  rw_cookie (writer σ') = rw_cookie (writer σ) ∧
  rw_session (writer σ') = rw_session (writer σ) ∧
  calls σ' = calls σ ∧
  cfg_TestURLs σ' = cfg_TestURLs σ ∧
  ∀ key val, header_has (writer σ) key val → header_has (writer σ') key val.

Definition adds_headers (m : M unit) : Prop :=
  ∀ σ, ∃ σ', m σ = (Returns tt, σ') ∧ header_step σ σ'.

(** The precedence tiers of the authorization policy (section 4.3), the tier
    a configuration selects, and what each tier asks of an identity. *)
Inductive Tier : Type :=
| TierAllowAll | TierWhiteList | TierTeamWhiteList | TierDomains | TierDefault.

Definition Policy_tier (c : Config) : Tier :=
  if AllowAllUsers c then TierAllowAll
  else if bool_decide (WhiteList c ≠ []) then TierWhiteList
  else if bool_decide (TeamWhiteList c ≠ []) then TierTeamWhiteList
  else if bool_decide (Domains c ≠ []) then TierDomains
  else TierDefault.

Definition Policy_permits (t : Tier) (c : Config) (i : User) : Prop :=
  match t with
  | TierAllowAll => True
  | TierWhiteList => Username i ∈ WhiteList c
  | TierTeamWhiteList => ∃ team, team ∈ TeamMemberships i ∧ team ∈ TeamWhiteList c
  | TierDomains => IsUnderManagement (Email i) = true
  | TierDefault => True
  end.

(** Go's largest [int]. *)
Definition int_max : Z := 2 ^ 63 - 1.

(** Every byte of [s] is an ASCII letter or digit. *)
Fixpoint all_AlphaNum (s : string) : Prop :=
  match s with
  | EmptyString => True
  | String c rest => isAlphaNum c = true ∧ all_AlphaNum rest
  end.

(** [sub] occurs in [s]. *)
Definition substring_of (sub s : string) : Prop :=
  ∃ before after, s = before +:+ sub +:+ after.

(** The header value that the claim projection gives a claim value. *)
Definition claim_header_value (v : claimValue) : string :=
  match v with
  | CSeq val => Join (Sprintf_quoted <$> val) ","
  | _ => Sprint v
  end.

(** The shape of the sessions the handlers write: [state] and [requestedURL]
    hold strings, the destination is not one of these two keys, every other
    key holds a failure count, and a session with a state has a
    destination. *)
Definition session_ok (values : gmap string value) : Prop :=
  (∀ k, k ≠ "state" → k ≠ "requestedURL" →
        values !! k = None ∨ ∃ n, values !! k = Some (VInt n)) ∧
  (values !! "state" = None ∨ ∃ s, values !! "state" = Some (VString s)) ∧
  (values !! "requestedURL" = None ∨
   ∃ u, values !! "requestedURL" = Some (VString u) ∧ u ≠ "state" ∧ u ≠ "requestedURL") ∧
  (values !! "state" ≠ None → values !! "requestedURL" ≠ None).

(** Membership of a call or a cookie operation in an explicit list. *)
Ltac in_list H :=
  repeat (apply elem_of_cons in H as [H|H]; [try discriminate H|]);
  try (apply elem_of_nil in H; contradiction).

(** ** Properties of the string helpers *)

Lemma cut_spec (sep : ascii) (s : string) :
  match cut sep s with
  | Some (before, after) => s = before +:+ String sep after ∧ ¬ contains_byte sep before
  | None => ¬ contains_byte sep s
  end.
Proof.
  induction s as [|c rest IH]; simpl.
  - intros ([|? ?] & after & Heq); discriminate.
  - destruct (decide (c = sep)) as [->|Hne].
    + split; [reflexivity|]. intros ([|? ?] & after & Heq); discriminate.
    + destruct (cut sep rest) as [[before after]|].
      * destruct IH as [-> Hfree]. split; [reflexivity|].
        intros ([|c' b'] & a' & Heq); simpl in Heq; inversion Heq; subst.
        -- congruence.
        -- apply Hfree. eexists _, _. reflexivity.
      * intros ([|c' b'] & a' & Heq); simpl in Heq; inversion Heq; subst.
        -- congruence.
        -- apply IH. eexists _, _. reflexivity.
Qed.

Lemma cut_first (sep : ascii) (before after : string) :
  ¬ contains_byte sep before →
  cut sep (before +:+ String sep after) = Some (before, after).
Proof.
  induction before as [|c b IH]; intros Hfree; simpl.
  - destruct (decide (sep = sep)); congruence.
  - destruct (decide (c = sep)) as [->|Hne].
    + exfalso. apply Hfree. exists "", b. reflexivity.
    + rewrite IH; [reflexivity|].
      intros (b' & a' & ->). apply Hfree. exists (String c b'), a'. reflexivity.
Qed.

(** ** Token discovery *)

(** C10: in token discovery without a cookie token and without a token in
    the custom header, an Authorization header whose value contains a space is
    split at its first space and the part after it is the token, whatever the
    part before it is; a value without a space is ignored and discovery ends
    with the query-string parameter. *)
Theorem FindJWT_Authorization_header (r : Request) (j : string) (e : error) :
  cookie_Cookie r = (j, Some e) →
  Header_Get (req_Header r) (hdr_JWT (Headers cfg)) = "" →
  let auth := Header_Get (req_Header r) "Authorization" in
  (∀ scheme tok, ¬ contains_byte " " scheme → auth = scheme +:+ " " +:+ tok →
     FindJWT r = tok) ∧
  (contains_byte " " auth →
     ∃ scheme tok, auth = scheme +:+ " " +:+ tok ∧ ¬ contains_byte " " scheme ∧
                   FindJWT r = tok) ∧
  (¬ contains_byte " " auth →
     FindJWT r = Query_Get (URL_Query r) (hdr_QueryString (Headers cfg))).
Proof.
  intros Hcookie Hheader auth.
  assert (Hfind : FindJWT r =
            match (if decide (auth ≠ "") then
                     match SplitN2 auth " " with [_; s1] => Some s1 | _ => None end
                   else None) with
            | Some jwt => jwt
            | None => Query_Get (URL_Query r) (hdr_QueryString (Headers cfg))
            end).
  { unfold FindJWT. rewrite Hcookie, Hheader. fold auth.
    destruct (decide ("" ≠ "")) as [Hne|_]; [congruence|].
    destruct (if decide (auth ≠ "") then _ else _); [reflexivity|].
    destruct (decide (_ ≠ "")) as [_|Heq]; [reflexivity|].
    apply dec_stable in Heq. symmetry. exact Heq. }
  assert (Hsplit : ∀ scheme tok, ¬ contains_byte " " scheme →
            auth = scheme +:+ " " +:+ tok → FindJWT r = tok).
  { intros scheme tok Hfree Hauth. rewrite Hfind.
    destruct (decide (auth ≠ "")) as [_|Hempty].
    - unfold SplitN2. rewrite Hauth. change (" " +:+ tok) with (String " " tok).
      rewrite cut_first by assumption. reflexivity.
    - exfalso. apply Hempty. rewrite Hauth. destruct scheme; discriminate. }
  split; [exact Hsplit|]. split.
  - intros Hspace. pose proof (cut_spec " " auth) as Hcut.
    destruct (cut " " auth) as [[scheme tok]|]; [|contradiction].
    destruct Hcut as [Hauth Hfree]. exists scheme, tok.
    split; [exact Hauth|]. split; [exact Hfree|]. exact (Hsplit scheme tok Hfree Hauth).
  - intros Hfree. rewrite Hfind. pose proof (cut_spec " " auth) as Hcut.
    unfold SplitN2. destruct (cut " " auth) as [[scheme tok]|].
    + exfalso. apply Hfree. destruct Hcut as [-> _]. eexists _, _. reflexivity.
    + destruct (decide (auth ≠ "")); reflexivity.
Qed.

(** ** The authorization policy *)

Lemma range_find_elem (x : string) (wls : list string) :
  range_find x wls = true ↔ x ∈ wls.
Proof.
  induction wls as [|wl rest IH]; simpl.
  - split; [discriminate|]. intros Hin. inversion Hin.
  - destruct (decide (x = wl)) as [->|Hne].
    + split; [intros _; left|reflexivity].
    + rewrite IH. split; [intros Hin; right; exact Hin|].
      intros Hin. inversion Hin; subst; [congruence|assumption].
Qed.

Lemma range_teams_elem (teams wls : list string) :
  range_teams teams wls = true ↔ ∃ team, team ∈ teams ∧ team ∈ wls.
Proof.
  induction teams as [|team rest IH]; simpl.
  - split; [discriminate|]. intros (t & Hin & _). inversion Hin.
  - destruct (range_find team wls) eqn:Hfind.
    + split; [|reflexivity]. intros _. exists team. split; [left|].
      apply range_find_elem. exact Hfind.
    + rewrite IH. split.
      * intros (t & Hin & Hwl). exists t. split; [right; exact Hin|exact Hwl].
      * intros (t & Hin & Hwl). inversion Hin; subst.
        -- apply range_find_elem in Hwl. congruence.
        -- exists t. split; assumption.
Qed.

Lemma length_ne_0 {A : Type} (l : list A) : List.length l ≠ 0%nat ↔ l ≠ [].
Proof. destruct l; simpl; split; congruence. Qed.

(** What one call of [VerifyUser] does to the world: it appends to the log
    (a warning, in the default tier) and records itself; the writer and the
    package-level variables are untouched. *)
Lemma VerifyUser_run (user : User) (σ : World) :
  ∃ (d : bool) (e : option error) (entries : list LogEntry),
    VerifyUser user σ =
      (Returns (d, e),
       mkWorld (writer σ) (logged σ ++ entries) (calls σ ++ [CallVerifyUser user d])
               (cfg_TestURLs σ) (OAuthClient_RedirectURL σ) (rng σ) (rng_next σ)) ∧
    (d = true ↔ Policy_permits (Policy_tier cfg) cfg user) ∧
    (d = true ↔ e = None).
Proof.
  unfold VerifyUser, VerifyUser_switch, Policy_tier.
  destruct (AllowAllUsers cfg).
  { exists true, None, []. rewrite app_nil_r. simpl. tauto. }
  destruct (decide (List.length (WhiteList cfg) ≠ 0%nat)) as [Hwl|Hwl];
    rewrite length_ne_0 in Hwl.
  { rewrite bool_decide_true by assumption.
    destruct (range_find (Username user) (WhiteList cfg)) eqn:Hfind.
    - exists true, None, []. rewrite app_nil_r. simpl.
      rewrite <- range_find_elem. tauto.
    - eexists false, (Some _), []. rewrite app_nil_r. simpl.
      rewrite <- range_find_elem, Hfind. split; [reflexivity|]. split; split; discriminate. }
  rewrite bool_decide_false by assumption.
  destruct (decide (List.length (TeamWhiteList cfg) ≠ 0%nat)) as [Htwl|Htwl];
    rewrite length_ne_0 in Htwl.
  { rewrite bool_decide_true by assumption.
    destruct (range_teams (TeamMemberships user) (TeamWhiteList cfg)) eqn:Hfind.
    - exists true, None, []. rewrite app_nil_r. simpl.
      rewrite <- range_teams_elem. tauto.
    - eexists false, (Some _), []. rewrite app_nil_r. simpl.
      rewrite <- range_teams_elem, Hfind. split; [reflexivity|]. split; split; discriminate. }
  rewrite bool_decide_false by assumption.
  destruct (decide (List.length (Domains cfg) ≠ 0%nat)) as [Hdom|Hdom];
    rewrite length_ne_0 in Hdom.
  { rewrite bool_decide_true by assumption.
    destruct (IsUnderManagement (Email user)) eqn:Hmanaged.
    - exists true, None, []. rewrite app_nil_r. simpl. tauto.
    - eexists false, (Some _), []. rewrite app_nil_r. simpl.
      rewrite Hmanaged. split; [reflexivity|]. split; split; discriminate. }
  rewrite bool_decide_false by assumption.
  eexists true, None, [_]. simpl. split; [reflexivity|]. tauto.
Qed.

Lemma VerifyUser_any_world (user : User) (σ σ' : World) :
  (VerifyUser user σ).1 = (VerifyUser user σ').1.
Proof.
  unfold VerifyUser, VerifyUser_switch.
  destruct (AllowAllUsers cfg); [reflexivity|].
  destruct (decide _); [destruct (range_find _ _); reflexivity|].
  destruct (decide _); [destruct (range_teams _ _); reflexivity|].
  destruct (decide _); [destruct (IsUnderManagement _); reflexivity|].
  reflexivity.
Qed.

(** C3: [VerifyUser] returns a decision for every identity, the decision is
    that of the single tier the configuration selects (allow-all, then the
    username whitelist, then the team whitelist, then the managed domains,
    then permit by default), an error accompanies exactly the denials, and the
    decision is the same in every world, so it depends on the identity and
    the configuration only. *)
Theorem VerifyUser_one_tier (user : User) (σ : World) :
  ∃ (d : bool) (e : option error),
    (VerifyUser user σ).1 = Returns (d, e) ∧
    (d = true ↔ Policy_permits (Policy_tier cfg) cfg user) ∧
    (d = true ↔ e = None) ∧
    (∀ σ', (VerifyUser user σ').1 = (VerifyUser user σ).1) ∧
    match Policy_tier cfg with
    | TierAllowAll => AllowAllUsers cfg = true
    | TierWhiteList => AllowAllUsers cfg = false ∧ WhiteList cfg ≠ []
    | TierTeamWhiteList =>
        AllowAllUsers cfg = false ∧ WhiteList cfg = [] ∧ TeamWhiteList cfg ≠ []
    | TierDomains =>
        AllowAllUsers cfg = false ∧ WhiteList cfg = [] ∧ TeamWhiteList cfg = [] ∧
        Domains cfg ≠ []
    | TierDefault =>
        AllowAllUsers cfg = false ∧ WhiteList cfg = [] ∧ TeamWhiteList cfg = [] ∧
        Domains cfg = []
    end.
Proof.
  destruct (VerifyUser_run user σ) as (d & e & entries & Hrun & Hpermits & Herr).
  exists d, e. rewrite Hrun. simpl.
  split; [reflexivity|]. split; [exact Hpermits|]. split; [exact Herr|]. split.
  - intros σ'. rewrite (VerifyUser_any_world user σ' σ), Hrun. reflexivity.
  - unfold Policy_tier. destruct (AllowAllUsers cfg); [reflexivity|].
    repeat case_bool_decide; repeat split;
      try reflexivity; try assumption; try (by apply dec_stable).
Qed.

(** ** Steps that only add headers *)

Lemma Header_Add_keeps (h : Header) (key val key' val' : string) :
  val' ∈ default [] (h !! CanonicalMIMEHeaderKey key') →
  val' ∈ default [] (Header_Add h key val !! CanonicalMIMEHeaderKey key').
Proof.
  intros Hin. unfold Header_Add.
  destruct (decide (CanonicalMIMEHeaderKey key = CanonicalMIMEHeaderKey key')) as [Heq|Hne].
  - rewrite Heq, lookup_insert_eq. simpl. apply elem_of_app. left. exact Hin.
  - rewrite lookup_insert_ne by assumption. exact Hin.
Qed.

Lemma header_step_refl (σ : World) : header_step σ σ.
Proof. unfold header_step. tauto. Qed.

Lemma header_step_trans (σ1 σ2 σ3 : World) :
  header_step σ1 σ2 → header_step σ2 σ3 → header_step σ1 σ3.
Proof.
  unfold header_step. intros (?&?&?&?&?&?&H12) (?&?&?&?&?&?&H23).
  repeat split; try congruence. intros key val Hin. apply H23, H12, Hin.
Qed.

Lemma adds_headers_ret : adds_headers (mret tt).
Proof. intros σ. exists σ. split; [reflexivity|apply header_step_refl]. Qed.

Lemma adds_headers_seq (m k : M unit) :
  adds_headers m → adds_headers k → adds_headers (m ;; k).
Proof.
  intros Hm Hk σ. destruct (Hm σ) as (σ1 & Hrun1 & Hstep1).
  destruct (Hk σ1) as (σ2 & Hrun2 & Hstep2). exists σ2.
  split; [|eapply header_step_trans; eassumption].
  unfold mbind, M_bind. rewrite Hrun1. exact Hrun2.
Qed.

Lemma adds_headers_Header_Add (key val : string) : adds_headers (w_Header_Add key val).
Proof.
  intros σ. eexists. split; [reflexivity|].
  unfold header_step, header_has. simpl. repeat split; try reflexivity.
  intros key' val'. apply Header_Add_keeps.
Qed.

Lemma adds_headers_log (lvl : Level) (printf : option string) (args : list LogArg) :
  adds_headers (log lvl printf args).
Proof.
  intros σ. eexists. split; [reflexivity|].
  unfold header_step. simpl. tauto.
Qed.

Lemma adds_headers_forM_ {A : Type} (l : list A) (body : A → M unit) :
  (∀ x, adds_headers (body x)) → adds_headers (forM_ l body).
Proof.
  intros Hbody. induction l as [|x rest IH]; simpl.
  - apply adds_headers_ret.
  - apply adds_headers_seq; [apply Hbody|exact IH].
Qed.

Lemma adds_headers_project_claim (k : string) (v : claimValue) (claim header : string) :
  adds_headers (project_claim k v claim header).
Proof.
  unfold project_claim. destruct (decide (claim = k)); [|apply adds_headers_ret].
  destruct v; simpl; apply adds_headers_Header_Add.
Qed.

Lemma bind_run {A B : Type} (m : M A) (k : A → M B) (σ σ1 : World) (a : A) :
  m σ = (Returns a, σ1) → (m ≫= k) σ = k a σ1.
Proof. intros Hrun. unfold mbind, M_bind. rewrite Hrun. reflexivity. Qed.

Lemma w_Header_Add_run (key val : string) (σ : World) :
  ∃ σ', w_Header_Add key val σ = (Returns tt, σ') ∧ header_step σ σ' ∧
        header_has (writer σ') key val.
Proof.
  destruct (adds_headers_Header_Add key val σ) as (σ' & Hrun & Hstep).
  exists σ'. split; [exact Hrun|]. split; [exact Hstep|].
  inversion Hrun; subst. unfold header_has, Header_Add. simpl.
  rewrite lookup_insert_eq. simpl. apply elem_of_app. right. left.
Qed.

(** [ok200] and [renderIndex] write the status 200, unless a status was
    written before, and one chunk; they leave the headers alone. *)
Lemma w_Write_run (c : Chunk) (σ : World) :
  ∃ σ', w_Write c σ = (Returns tt, σ') ∧
        rw_header (writer σ') = rw_header (writer σ) ∧
        rw_status (writer σ') = Some (default StatusOK (rw_status (writer σ))) ∧
        rw_body (writer σ') = (rw_body (writer σ) ++ [c])%list ∧
        rw_cookie (writer σ') = rw_cookie (writer σ) ∧
        rw_session (writer σ') = rw_session (writer σ) ∧
        calls σ' = calls σ.
Proof.
  eexists. split; [reflexivity|]. simpl.
  destruct (rw_status (writer σ)); repeat split; reflexivity.
Qed.

(** ** [/validate] *)

Lemma validate_accepted_run (claims : VouchClaims) (σ : World) :
  rw_status (writer σ) = None →
  ∃ σ', validate_accepted claims σ = (Returns tt, σ') ∧
        header_has (writer σ') (hdr_User (Headers cfg)) (vc_Username claims) ∧
        header_has (writer σ') (hdr_Success (Headers cfg)) "true" ∧
        rw_status (writer σ') = Some StatusOK ∧
        rw_cookie (writer σ') = rw_cookie (writer σ) ∧
        calls σ' = calls σ.
Proof.
  intros Hstatus. unfold validate_accepted.
  set (claims_phase := if decide (0 < _)%nat then _ else _).
  set (access_phase := if decide (hdr_AccessToken _ ≠ _) then _ else _).
  set (id_phase := if decide (hdr_IDToken _ ≠ _) then _ else _).
  set (last_phase := if cfg_Testing cfg then _ else _).
  assert (Hclaims : adds_headers claims_phase).
  { subst claims_phase. destruct (decide (0 < _)%nat); [|apply adds_headers_ret].
    apply adds_headers_forM_. intros [k v].
    apply adds_headers_forM_. intros [claim header]. apply adds_headers_project_claim. }
  assert (Haccess : adds_headers access_phase).
  { subst access_phase. destruct (decide (hdr_AccessToken _ ≠ _));
      [destruct (decide (vc_PAccessToken _ ≠ _))|];
      apply adds_headers_Header_Add || apply adds_headers_ret. }
  assert (Hid : adds_headers id_phase).
  { subst id_phase. destruct (decide (hdr_IDToken _ ≠ _));
      [destruct (decide (vc_PIdToken _ ≠ _))|];
      apply adds_headers_Header_Add || apply adds_headers_ret. }
  assert (Hlast : ∀ σ5, ∃ σ', last_phase σ5 = (Returns tt, σ') ∧
            rw_header (writer σ') = rw_header (writer σ5) ∧
            rw_status (writer σ') = Some (default StatusOK (rw_status (writer σ5))) ∧
            rw_cookie (writer σ') = rw_cookie (writer σ5) ∧
            calls σ' = calls σ5).
  { intros σ5. subst last_phase. unfold renderIndex, ok200, get_world.
    destruct (cfg_Testing cfg).
    - destruct (w_Write_run
                  (IndexPage (mkIndex ("user authorized " +:+ vc_Username claims)
                                (cfg_TestURLs σ5) true)) σ5)
        as (σ' & Hrun & ? & ? & ? & ? & ? & ?).
      exists σ'. unfold mbind, M_bind. simpl. tauto.
    - destruct (w_Write_run (Bytes ("200 OK" +:+ LF)) σ5)
        as (σ' & Hrun & ? & ? & ? & ? & ? & ?).
      exists σ'. tauto. }
  clearbody claims_phase access_phase id_phase last_phase.
  destruct (Hclaims σ) as (σ1 & Hrun1 & Hstep1).
  destruct (w_Header_Add_run (hdr_User (Headers cfg)) (vc_Username claims) σ1)
    as (σ2 & Hrun2 & Hstep2 & Huser).
  destruct (w_Header_Add_run (hdr_Success (Headers cfg)) "true" σ2)
    as (σ3 & Hrun3 & Hstep3 & Hsuccess).
  destruct (Haccess σ3) as (σ4 & Hrun4 & Hstep4).
  destruct (Hid σ4) as (σ5 & Hrun5 & Hstep5).
  destruct (Hlast σ5) as (σ6 & Hrun6 & Hheader6 & Hstatus6 & Hcookie6 & Hcalls6).
  exists σ6.
  rewrite (bind_run _ _ _ _ _ Hrun1), (bind_run _ _ _ _ _ Hrun2),
    (bind_run _ _ _ _ _ Hrun3), (bind_run _ _ _ _ _ Hrun4), (bind_run _ _ _ _ _ Hrun5).
  split; [exact Hrun6|].
  pose proof (header_step_trans _ _ _ Hstep4 Hstep5) as Hstep35.
  pose proof (header_step_trans _ _ _ Hstep3 Hstep35) as Hstep25.
  pose proof (header_step_trans _ _ _ Hstep1 (header_step_trans _ _ _ Hstep2 Hstep25))
    as Hstep05.
  unfold header_has in *. rewrite Hheader6, Hstatus6, Hcookie6, Hcalls6.
  destruct Hstep05 as (Hst & _ & Hck & _ & Hcl & _ & _).
  destruct Hstep25 as (_ & _ & _ & _ & _ & _ & Hkeep25).
  destruct Hstep35 as (_ & _ & _ & _ & _ & _ & Hkeep35).
  rewrite Hst, Hstatus, Hck, Hcl. simpl.
  split; [apply Hkeep25, Huser|]. split; [apply Hkeep35, Hsuccess|]. tauto.
Qed.

Lemma ClaimsFromJWT_accepts (jwt : string) (tok : Token) (claims : VouchClaims) (σ : World) :
  ParseTokenString jwt = (tok, None) →
  PTokenClaims tok = (claims, None) →
  ClaimsFromJWT jwt σ = (Returns (claims, None), σ).
Proof. intros Hparse Hclaims. unfold ClaimsFromJWT. rewrite Hparse, Hclaims. reflexivity. Qed.

(** What [/validate] does with a token that parses and names a user. *)
Lemma validate_parsed (r : Request) (σ : World) (tok : Token) (claims : VouchClaims) :
  FindJWT r ≠ "" →
  ParseTokenString (FindJWT r) = (tok, None) →
  PTokenClaims tok = (claims, None) →
  vc_Username claims ≠ "" →
  ValidateRequestHandler r σ =
    (if negb (AllowAllUsers cfg) then
       if negb (SiteInClaims (Host r) claims) then
         if negb (PublicAccess cfg) then
           error401 (mkAuthError (host_not_authorized (Host r)) (FindJWT r))
         else w_Header_Add (hdr_User (Headers cfg)) ""
       else validate_accepted claims
     else validate_accepted claims) σ.
Proof.
  intros Hfound Hparse Hclaims Huser. unfold ValidateRequestHandler.
  destruct (decide (FindJWT r = "")) as [Hnone|_]; [contradiction|].
  rewrite (bind_run _ _ _ _ _ (ClaimsFromJWT_accepts _ _ _ σ Hparse Hclaims)).
  destruct (decide (vc_Username claims = "")) as [Hempty|_]; [contradiction|].
  reflexivity.
Qed.

Lemma not_in_unauthorized_headers (msg key : string) :
  ¬ header_has (unauthorized_writer msg) key "true".
Proof.
  unfold header_has, unauthorized_writer, Header_Set. simpl.
  intros Hin.
  destruct (decide (CanonicalMIMEHeaderKey "X-Content-Type-Options" =
                    CanonicalMIMEHeaderKey key)) as [Heq|Hne].
  - rewrite Heq, lookup_insert_eq in Hin. simpl in Hin.
    apply list_elem_of_singleton in Hin. discriminate.
  - rewrite lookup_insert_ne in Hin by assumption.
    destruct (decide (CanonicalMIMEHeaderKey "Content-Type" =
                      CanonicalMIMEHeaderKey key)) as [Heq'|Hne'].
    + rewrite Heq', lookup_insert_eq in Hin. simpl in Hin.
      apply list_elem_of_singleton in Hin. discriminate.
    + rewrite lookup_insert_ne, lookup_empty in Hin by assumption.
      simpl in Hin. inversion Hin.
Qed.

Lemma not_in_public_headers (key : string) : ¬ header_has public_writer key "true".
Proof.
  unfold header_has, public_writer, Header_Add. simpl. intros Hin.
  destruct (decide (CanonicalMIMEHeaderKey (hdr_User (Headers cfg)) =
                    CanonicalMIMEHeaderKey key)) as [Heq|Hne].
  - rewrite Heq, lookup_insert_eq in Hin. rewrite <- Heq, lookup_empty in Hin.
    simpl in Hin. apply list_elem_of_singleton in Hin. discriminate.
  - rewrite lookup_insert_ne, lookup_empty in Hin by assumption.
    simpl in Hin. inversion Hin.
Qed.

(** C2: for a [/validate] request whose token parses and names a user, with
    allow-all off: when the request's host matches the token's sites the
    handler returns 200 with the username in the identity header and [true] in
    the success header; when it does not match, the response is the 401 of
    [error401] whose text names the host, or, in public-access mode, a
    pass-through with nothing but an empty identity header; so the success
    header is set only if the host matches. *)
Theorem validate_checks_site (r : Request) (σ : World) (tok : Token) (claims : VouchClaims) :
  FindJWT r ≠ "" →
  ParseTokenString (FindJWT r) = (tok, None) →
  PTokenClaims tok = (claims, None) →
  vc_Username claims ≠ "" →
  AllowAllUsers cfg = false →
  let out := serve (ValidateRequestHandler r) σ in
  out.1 = Returns tt ∧
  (SiteInClaims (Host r) claims = true →
     header_has (writer out.2) (hdr_User (Headers cfg)) (vc_Username claims) ∧
     header_has (writer out.2) (hdr_Success (Headers cfg)) "true" ∧
     status_sent (writer out.2) = StatusOK ∧
     rw_cookie (writer out.2) = []) ∧
  (SiteInClaims (Host r) claims = false →
     writer out.2 = if PublicAccess cfg then public_writer
                    else unauthorized_writer (host_not_authorized (Host r))) ∧
  (header_has (writer out.2) (hdr_Success (Headers cfg)) "true" →
     SiteInClaims (Host r) claims = true).
Proof.
  intros Hfound Hparse Hclaims Huser Hallow out.
  assert (Hdenied : SiteInClaims (Host r) claims = false →
            out.1 = Returns tt ∧
            writer out.2 = if PublicAccess cfg then public_writer
                           else unauthorized_writer (host_not_authorized (Host r))).
  { intros Hsite. subst out. unfold serve.
    rewrite (validate_parsed _ _ tok claims) by assumption.
    rewrite Hallow, Hsite. simpl. destruct (PublicAccess cfg); split; reflexivity. }
  assert (Haccepted : SiteInClaims (Host r) claims = true →
            out.1 = Returns tt ∧
            header_has (writer out.2) (hdr_User (Headers cfg)) (vc_Username claims) ∧
            header_has (writer out.2) (hdr_Success (Headers cfg)) "true" ∧
            status_sent (writer out.2) = StatusOK ∧
            rw_cookie (writer out.2) = []).
  { intros Hsite. subst out. unfold serve.
    rewrite (validate_parsed _ _ tok claims) by assumption.
    rewrite Hallow, Hsite. simpl.
    match goal with
    | |- context [validate_accepted claims ?σ0] =>
        destruct (validate_accepted_run claims σ0 eq_refl)
          as (σ' & -> & Hu & Hs & Hstatus & Hcookie & _)
    end.
    simpl. unfold status_sent. rewrite Hstatus, Hcookie. tauto. }
  destruct (SiteInClaims (Host r) claims) eqn:Hsite.
  - destruct (Haccepted eq_refl) as (Hret & Hrest).
    split; [exact Hret|]. split; [intros _; exact Hrest|].
    split; [discriminate|reflexivity].
  - destruct (Hdenied eq_refl) as (Hret & Hwriter).
    split; [exact Hret|]. split; [discriminate|].
    split; [intros _; exact Hwriter|].
    rewrite Hwriter. intros Hin. exfalso. destruct (PublicAccess cfg).
    + exact (not_in_public_headers _ Hin).
    + exact (not_in_unauthorized_headers _ _ Hin).
Qed.

(** The response to a rejected token, and the response without a token. *)
Lemma validate_rejected (r : Request) (σ : World) (msg : string) :
  FindJWT r ≠ "" →
  token_rejected (FindJWT r) msg →
  let out := serve (ValidateRequestHandler r) σ in
  out.1 = Returns tt ∧
  writer out.2 = if PublicAccess cfg then public_writer else unauthorized_writer msg.
Proof.
  intros Hfound Hrejected. unfold serve, ValidateRequestHandler.
  destruct (decide (FindJWT r = "")) as [Hnone|_]; [contradiction|].
  unfold mbind, M_bind, ClaimsFromJWT.
  destruct Hrejected as [(tok & Hparse)|[(tok & claims & Hparse & Hclaims)|
                         (tok & claims & Hparse & Hclaims & Hempty & ->)]].
  - rewrite Hparse. simpl. destruct (PublicAccess cfg); split; reflexivity.
  - rewrite Hparse, Hclaims. simpl. destruct (PublicAccess cfg); split; reflexivity.
  - rewrite Hparse, Hclaims. simpl.
    destruct (decide (vc_Username claims = "")) as [_|Hne]; [|contradiction].
    destruct (PublicAccess cfg); split; reflexivity.
Qed.

Lemma validate_no_token (r0 : Request) (σ0 : World) :
  FindJWT r0 = "" →
  let out := serve (ValidateRequestHandler r0) σ0 in
  out.1 = Returns tt ∧
  writer out.2 =
    if PublicAccess cfg then
      mkResponseWriter (rw_header public_writer) (Some StatusOK) [Bytes ("200 OK" +:+ LF)] [] []
    else unauthorized_writer "no jwt found in request".
Proof.
  intros Hnone. unfold serve, ValidateRequestHandler.
  destruct (decide (FindJWT r0 = "")) as [_|Hfound]; [|contradiction].
  destruct (PublicAccess cfg); split; reflexivity.
Qed.

(** C4 (amended): a [/validate] request whose token is rejected gets the
    status, the headers and the cookie clearing of a request without a token
    under the same public-access setting: 401 with the cookie cleared when
    public access is off, 200 with an empty identity header when it is on.
    The bodies are not the same: each 401 carries the text of its own
    failure. *)
Theorem validate_rejected_like_no_token (r r0 : Request) (σ σ0 : World) (msg : string) :
  FindJWT r ≠ "" →
  token_rejected (FindJWT r) msg →
  FindJWT r0 = "" →
  let out := serve (ValidateRequestHandler r) σ in
  let out0 := serve (ValidateRequestHandler r0) σ0 in
  out.1 = Returns tt ∧ out0.1 = Returns tt ∧
  status_sent (writer out.2) = status_sent (writer out0.2) ∧
  rw_header (writer out.2) = rw_header (writer out0.2) ∧
  rw_cookie (writer out.2) = rw_cookie (writer out0.2) ∧
  (PublicAccess cfg = false →
     writer out.2 = unauthorized_writer msg ∧
     writer out0.2 = unauthorized_writer "no jwt found in request") ∧
  (PublicAccess cfg = true →
     status_sent (writer out.2) = StatusOK ∧
     rw_header (writer out.2) = Header_Add ∅ (hdr_User (Headers cfg)) "" ∧
     rw_cookie (writer out.2) = []).
Proof.
  intros Hfound Hrejected Hnone out out0.
  destruct (validate_rejected r σ msg Hfound Hrejected) as [Hret Hwriter].
  destruct (validate_no_token r0 σ0 Hnone) as [Hret0 Hwriter0].
  fold out in Hret, Hwriter. fold out0 in Hret0, Hwriter0.
  rewrite Hwriter, Hwriter0.
  split; [exact Hret|]. split; [exact Hret0|].
  destruct (PublicAccess cfg); repeat split; reflexivity || discriminate.
Qed.

(** C9: the claim projection of [/validate] adds a header for a matching
    claim of every shape: a sequence gives the comma-separated list of its
    double-quoted elements, every other value, scalar or not, gives the text
    of [fmt.Sprint]; no value is skipped and nothing is logged, because the
    test that guards the error branch looks at the string [fmt.Sprint]
    returned. *)
Theorem project_claim_every_shape (k header : string) (v : claimValue) (σ : World) :
  project_claim k v k header σ =
    w_Header_Add header
      (match v with
       | CSeq val => Join (Sprintf_quoted <$> val) ","
       | _ => Sprint v
       end) σ ∧
  logged (project_claim k v k header σ).2 = logged σ.
Proof.
  unfold project_claim. destruct (decide (k = k)) as [_|Hne]; [|contradiction].
  destruct v; split; reflexivity.
Qed.

(** ** [/auth] *)

Lemma callback_authorized_run (r : Request) (values : gmap string value) (user : User)
    (cc : CustomClaims) (pt : PTokens) (url : string) (σ : World) :
  values !! "requestedURL" = Some (VString url) →
  let tok := CreateUserTokenString user cc pt in
  let saved := <[url := VInt 0]> (<["requestedURL" := VString ""]> values) in
  ∃ σ', callback_authorized r values user cc pt σ = (Returns tt, σ') ∧
        calls σ' = (calls σ ++ [CallCreateUserTokenString user cc pt])%list ∧
        rw_cookie (writer σ') = (rw_cookie (writer σ) ++ [SetCookie tok])%list ∧
        rw_header (writer σ') = rw_header (writer σ) ∧
        rw_status (writer σ') =
          Some (default (if decide (url ≠ "") then
                           if cfg_Testing cfg then StatusOK else StatusFound
                         else StatusOK) (rw_status (writer σ))) ∧
        rw_session (writer σ') =
          (rw_session (writer σ) ++
             if decide (url ≠ "") then
               match session_Save_err r saved with Some _ => [] | None => [saved] end
             else [])%list ∧
        rw_body (writer σ') =
          (rw_body (writer σ) ++
             [if decide (url ≠ "") then
                if cfg_Testing cfg then
                  IndexPage (mkIndex ("302 redirect to: " +:+ url)
                               (cfg_TestURLs σ ++ [url]) true)
                else RedirectTo url
              else IndexPage (mkIndex ("/auth " +:+ tok) (cfg_TestURLs σ)
                                (cfg_Testing cfg))])%list.
Proof.
  intros Hurl tok saved. subst tok saved.
  unfold callback_authorized, jwtmanager_CreateUserTokenString, session_Save, redirect302,
    renderIndex.
  rewrite Hurl. unfold mbind, M_bind. simpl.
  destruct (decide (url ≠ "")) as [Hknown|Hnone]; simpl.
  - destruct (session_Save_err r _) as [e|]; simpl;
      destruct (cfg_Testing cfg); simpl;
      destruct (rw_status (writer σ)); simpl;
      eexists; (split; [reflexivity|]); simpl;
      rewrite ?app_nil_r; repeat split; reflexivity.
  - destruct (rw_status (writer σ)); simpl;
      eexists; (split; [reflexivity|]); simpl;
      rewrite ?app_nil_r; repeat split; reflexivity.
Qed.

Lemma callback_denied_run (values : gmap string value) (err : option error) (url : string)
    (σ : World) :
  values !! "requestedURL" = Some (VString url) →
  ∃ σ', callback_denied values err σ = (Returns tt, σ') ∧
        calls σ' = calls σ ∧
        rw_cookie (writer σ') = rw_cookie (writer σ) ∧
        rw_session (writer σ') = rw_session (writer σ).
Proof.
  intros Hurl. unfold callback_denied, renderIndex. rewrite Hurl.
  unfold mbind, M_bind. simpl.
  destruct (decide (url ≠ "")); simpl; eexists; (split; [reflexivity|]); simpl; tauto.
Qed.

(** The world in which [CallbackHandler] runs the policy: the provider has
    been called and nothing has been written. *)
Lemma callback_reaches_policy (r : Request) (σ : World) (values : gmap string value)
    (user : User) (cc : CustomClaims) (pt : PTokens) (url : string) :
  sessstore_Get r (Session_Name cfg) = (values, None) →
  iface_ne_string (values !! "state") (Query_Get (URL_Query r) "state") = false →
  Query_Get (URL_Query r) "error" = "" →
  GetUserInfo r no_user no_claims no_tokens = ((user, cc, pt), None) →
  values !! "requestedURL" = Some (VString url) →
  serve (CallbackHandler r) σ =
    ('(ok, err) ← VerifyUser user ;
     if negb ok then callback_denied values err
     else callback_authorized r values user cc pt)
      (mkWorld fresh_writer [] [CallGetUserInfo] (cfg_TestURLs σ)
               (OAuthClient_RedirectURL σ) (rng σ) (rng_next σ)).
Proof.
  intros Hsession Hstate Herror Hinfo Hurl. unfold serve, CallbackHandler.
  rewrite Hsession, Hstate, Herror.
  destruct (decide ("" ≠ "")) as [Hne|_]; [congruence|].
  unfold getUserInfo. fold no_user no_claims no_tokens. rewrite Hinfo, Hurl.
  reflexivity.
Qed.

(** The collaborator calls and the cookie operations of a callback, in every
    case. *)
Lemma CallbackHandler_trace (r : Request) (σ : World) :
  let out := serve (CallbackHandler r) σ in
  (calls out.2 = [] ∧ rw_cookie (writer out.2) = []) ∨
  (calls out.2 = [CallGetUserInfo] ∧ rw_cookie (writer out.2) = []) ∨
  (∃ user, calls out.2 = [CallGetUserInfo; CallVerifyUser user false] ∧
           rw_cookie (writer out.2) = []) ∨
  (∃ user cc pt,
      GetUserInfo r no_user no_claims no_tokens = ((user, cc, pt), None) ∧
      Policy_permits (Policy_tier cfg) cfg user ∧
      calls out.2 = [CallGetUserInfo; CallVerifyUser user true;
                     CallCreateUserTokenString user cc pt] ∧
      rw_cookie (writer out.2) = [SetCookie (CreateUserTokenString user cc pt)]).
Proof.
  destruct (sessstore_Get r (Session_Name cfg)) as [values [e|]] eqn:Hsession.
  { left. unfold serve, CallbackHandler. rewrite Hsession. split; reflexivity. }
  destruct (iface_ne_string (values !! "state") (Query_Get (URL_Query r) "state"))
    eqn:Hstate.
  { left. unfold serve, CallbackHandler, renderIndex. rewrite Hsession, Hstate.
    split; reflexivity. }
  destruct (decide (Query_Get (URL_Query r) "error" ≠ "")) as [Herror|Herror].
  { left. unfold serve, CallbackHandler, renderIndex. rewrite Hsession, Hstate.
    destruct (decide (Query_Get (URL_Query r) "error" ≠ "")); [|contradiction].
    split; reflexivity. }
  apply dec_stable in Herror.
  destruct (GetUserInfo r no_user no_claims no_tokens) as [[[user cc] pt] [e|]] eqn:Hinfo.
  { right. left. unfold serve, CallbackHandler, getUserInfo.
    rewrite Hsession, Hstate, Herror.
    destruct (decide ("" ≠ "")) as [Hne|_]; [congruence|].
    fold no_user no_claims no_tokens. rewrite Hinfo. split; reflexivity. }
  destruct (values !! "requestedURL") as [[url|n]|] eqn:Hurl.
  2,3: right; left; unfold serve, CallbackHandler, getUserInfo;
       rewrite Hsession, Hstate, Herror;
       (destruct (decide ("" ≠ "")) as [Hne|_]; [congruence|]);
       fold no_user no_claims no_tokens; rewrite Hinfo, Hurl; split; reflexivity.
  intros out. subst out.
  rewrite (callback_reaches_policy r σ values user cc pt url) by assumption.
  match goal with
  | |- context [mbind _ (VerifyUser user) ?σ1] =>
      destruct (VerifyUser_run user σ1) as (d & e & entries & Hrun & Hpermits & _);
      rewrite (bind_run _ _ _ _ _ Hrun)
  end.
  destruct d; simpl.
  - right. right. right. exists user, cc, pt.
    match goal with
    | |- context [callback_authorized r values user cc pt ?σ2] =>
        destruct (callback_authorized_run r values user cc pt url σ2 Hurl)
          as (σ' & -> & Hcalls & Hcookie & _)
    end.
    simpl in *. rewrite Hcalls, Hcookie.
    split; [reflexivity|]. split; [tauto|]. split; reflexivity.
  - right. right. left. exists user.
    match goal with
    | |- context [callback_denied values e ?σ2] =>
        destruct (callback_denied_run values e url σ2 Hurl)
          as (σ' & -> & Hcalls & Hcookie & _)
    end.
    simpl in *. rewrite Hcalls, Hcookie. split; reflexivity.
Qed.

(** C1: in every [/auth] callback, the token manager is asked for a token
    only for the identity the provider filled in for this request and only
    after [VerifyUser] returned [true] for it; the only proof cookie ever set
    is that token; and when [VerifyUser] returned [false] no token is created
    and no proof cookie is set. *)
Theorem callback_token_needs_approval (r : Request) (σ : World) :
  let out := serve (CallbackHandler r) σ in
  (∀ user cc pt, CallCreateUserTokenString user cc pt ∈ calls out.2 →
     GetUserInfo r no_user no_claims no_tokens = ((user, cc, pt), None) ∧
     CallVerifyUser user true ∈ calls out.2 ∧
     Policy_permits (Policy_tier cfg) cfg user) ∧
  (∀ jwt, SetCookie jwt ∈ rw_cookie (writer out.2) →
     ∃ user cc pt, jwt = CreateUserTokenString user cc pt ∧
                   CallCreateUserTokenString user cc pt ∈ calls out.2) ∧
  (∀ user, CallVerifyUser user false ∈ calls out.2 →
     (∀ u cc pt, CallCreateUserTokenString u cc pt ∉ calls out.2) ∧
     rw_cookie (writer out.2) = []).
Proof.
  intros out.
  destruct (CallbackHandler_trace r σ)
    as [[Hcalls Hcookie]|[[Hcalls Hcookie]|[(u & Hcalls & Hcookie)|
        (u & cc & pt & Hinfo & Hpermits & Hcalls & Hcookie)]]];
    fold out in Hcalls, Hcookie; rewrite Hcalls, Hcookie.
  - split; [|split].
    + intros ? ? ? Hin. in_list Hin.
    + intros ? Hin. in_list Hin.
    + intros ? Hin. in_list Hin.
  - split; [|split].
    + intros ? ? ? Hin. in_list Hin.
    + intros ? Hin. in_list Hin.
    + intros ? Hin. in_list Hin.
  - split; [|split].
    + intros ? ? ? Hin. in_list Hin.
    + intros ? Hin. in_list Hin.
    + intros ? _. split; [|reflexivity]. intros ? ? ? Hin. in_list Hin.
  - split; [|split].
    + intros u' cc' pt' Hin. in_list Hin. inversion Hin; subst.
      split; [exact Hinfo|]. split; [|exact Hpermits].
      apply elem_of_cons. right. apply elem_of_cons. left. reflexivity.
    + intros jwt Hin. in_list Hin. inversion Hin; subst.
      exists u, cc, pt. split; [reflexivity|].
      do 2 (apply elem_of_cons; right). apply elem_of_cons. left. reflexivity.
    + intros u' Hin. in_list Hin.
Qed.

(** C5 (amended): a callback whose query string has a non-empty [error]
    parameter never calls the provider, runs no policy decision, issues no
    token and writes no session, and the handler returns. What is answered
    depends on the two checks made before the [error] parameter is read: a
    session that does not load is answered with 500 and the error text; a
    session that loads but whose stored nonce is not the returned [state] (no
    nonce stored included) is answered with the invalid-session-state page;
    and only when the session loads and the returned [state] is the stored
    nonce is the response 403 with the index page showing the
    [error_description]. *)
Theorem callback_provider_error (r : Request) (σ : World) :
  Query_Get (URL_Query r) "error" ≠ "" →
  let out := serve (CallbackHandler r) σ in
  out.1 = Returns tt ∧
  calls out.2 = [] ∧
  rw_cookie (writer out.2) = [] ∧
  rw_session (writer out.2) = [] ∧
  (∀ values e,
     sessstore_Get r (Session_Name cfg) = (values, Some e) →
     rw_status (writer out.2) = Some StatusInternalServerError ∧
     rw_body (writer out.2) = [Bytes (e +:+ LF)]) ∧
  (∀ values,
     sessstore_Get r (Session_Name cfg) = (values, None) →
     values !! "state" ≠ Some (VString (Query_Get (URL_Query r) "state")) →
     rw_status (writer out.2) = Some StatusOK ∧
     rw_body (writer out.2) =
       [IndexPage (mkIndex "/auth Invalid session state." (cfg_TestURLs σ)
                     (cfg_Testing cfg))]) ∧
  (∀ values,
     sessstore_Get r (Session_Name cfg) = (values, None) →
     values !! "state" = Some (VString (Query_Get (URL_Query r) "state")) →
     rw_status (writer out.2) = Some StatusForbidden ∧
     rw_body (writer out.2) =
       [IndexPage (mkIndex ("FORBIDDEN: " +:+ Query_Get (URL_Query r) "error_description")
                     (cfg_TestURLs σ) (cfg_Testing cfg))]).
Proof.
  intros Herror out. subst out. unfold serve, CallbackHandler, renderIndex.
  destruct (sessstore_Get r (Session_Name cfg)) as [values [e|]].
  { do 4 (split; [reflexivity|]). split; [|split; intros ? [=]].
    intros ? ? [= _ <-]. split; reflexivity. }
  destruct (iface_ne_string (values !! "state") (Query_Get (URL_Query r) "state"))
    eqn:Hstate.
  { do 4 (split; [reflexivity|]). split; [intros ? ? [=]|]. split.
    { intros ? _ _. split; reflexivity. }
    intros ? [= <-] Hstored.
    rewrite Hstored in Hstate. simpl in Hstate.
    rewrite bool_decide_false in Hstate by (intros Hne; apply Hne; reflexivity).
    discriminate. }
  destruct (decide (Query_Get (URL_Query r) "error" ≠ "")); [|contradiction].
  do 4 (split; [reflexivity|]). split; [intros ? ? [=]|]. split.
  { intros ? [= <-] Hstored. exfalso. apply Hstored.
    destruct (values !! "state") as [[stored|count]|]; simpl in Hstate; try discriminate.
    apply bool_decide_eq_false in Hstate. apply dec_stable in Hstate. rewrite Hstate.
    reflexivity. }
  intros ? _ _. split; reflexivity.
Qed.

(** C6 (amended): on a successful callback (session loaded, state matched,
    no provider error, userinfo fetched, policy permitted) the handler sets
    the proof-token cookie; when the stored destination URL is not empty it
    saves the session with the destination URL and that destination's failure
    count cleared, leaving the stored nonce as it is, and answers through
    [redirect302] with the destination: a 302 redirect, or in testing mode
    the index page that names it; when the stored destination URL is empty it
    renders the index page with the issued token and saves nothing. *)
Theorem callback_success (r : Request) (σ : World) (values : gmap string value)
    (user : User) (cc : CustomClaims) (pt : PTokens) (url : string) :
  sessstore_Get r (Session_Name cfg) = (values, None) →
  values !! "state" = Some (VString (Query_Get (URL_Query r) "state")) →
  Query_Get (URL_Query r) "error" = "" →
  GetUserInfo r no_user no_claims no_tokens = ((user, cc, pt), None) →
  Policy_permits (Policy_tier cfg) cfg user →
  values !! "requestedURL" = Some (VString url) →
  let out := serve (CallbackHandler r) σ in
  let tok := CreateUserTokenString user cc pt in
  let saved := <[url := VInt 0]> (<["requestedURL" := VString ""]> values) in
  out.1 = Returns tt ∧
  rw_cookie (writer out.2) = [SetCookie tok] ∧
  (url ≠ "" →
     rw_session (writer out.2) =
       match session_Save_err r saved with Some _ => [] | None => [saved] end ∧
     cleared (saved !! "requestedURL") ∧
     cleared (saved !! url) ∧
     (url ≠ "state" → saved !! "state" = values !! "state") ∧
     rw_status (writer out.2) = Some (if cfg_Testing cfg then StatusOK else StatusFound) ∧
     rw_body (writer out.2) =
       [if cfg_Testing cfg then
          IndexPage (mkIndex ("302 redirect to: " +:+ url) (cfg_TestURLs σ ++ [url]) true)
        else RedirectTo url]) ∧
  (url = "" →
     rw_session (writer out.2) = [] ∧
     rw_status (writer out.2) = Some StatusOK ∧
     rw_body (writer out.2) =
       [IndexPage (mkIndex ("/auth " +:+ tok) (cfg_TestURLs σ) (cfg_Testing cfg))]).
Proof.
  intros Hsession Hstate Herror Hinfo Hpermits Hurl out tok saved.
  assert (Hmatch : iface_ne_string (values !! "state")
                     (Query_Get (URL_Query r) "state") = false).
  { rewrite Hstate. simpl. apply bool_decide_false. intros Hne. apply Hne. reflexivity. }
  subst out.
  rewrite (callback_reaches_policy r σ values user cc pt url) by assumption.
  match goal with
  | |- context [mbind _ (VerifyUser user) ?σ1] =>
      destruct (VerifyUser_run user σ1) as (d & e & entries & Hrun & Hdecision & _);
      rewrite (bind_run _ _ _ _ _ Hrun)
  end.
  assert (d = true) as -> by tauto. cbv beta iota.
  change (negb true) with false. cbv iota.
  match goal with
  | |- context [callback_authorized r values user cc pt ?σ2] =>
      destruct (callback_authorized_run r values user cc pt url σ2 Hurl)
        as (σ' & -> & _ & Hcookie & _ & Hstatus & Hsaved & Hbody)
  end.
  simpl in Hcookie, Hstatus, Hsaved, Hbody. simpl fst. simpl snd.
  rewrite Hcookie, Hstatus, Hsaved, Hbody.
  split; [reflexivity|]. split; [reflexivity|]. split.
  - intros Hknown. destruct (decide (url ≠ "")) as [_|Hnone]; [|contradiction].
    split; [reflexivity|]. split.
    { unfold cleared, saved. destruct (decide (url = "requestedURL")) as [->|Hne].
      - right. right. apply lookup_insert_eq.
      - right. left. rewrite lookup_insert_ne by assumption. apply lookup_insert_eq. }
    split; [right; right; apply lookup_insert_eq|].
    split.
    { intros Hne. unfold saved. rewrite !lookup_insert_ne by congruence. reflexivity. }
    split; reflexivity.
  - intros ->. destruct (decide ("" ≠ "")) as [Hne|_]; [congruence|].
    repeat split; reflexivity.
Qed.

(** ** [/login] *)

Lemma loginURL_run (r : Request) (state : string) (σ : World) :
  ∃ redirectURL opts σ',
    loginURL r state σ = (Returns (AuthCodeURL redirectURL state opts), σ') ∧
    writer σ' = writer σ ∧ logged σ' = logged σ ∧ calls σ' = calls σ ∧
    cfg_TestURLs σ' = cfg_TestURLs σ.
Proof.
  unfold loginURL, set_RedirectURL, get_world, modify, mbind, M_bind.
  destruct (GenOAuth_Provider cfg);
    try (destruct (first_RedirectURL _ _)); try (destruct (OAuthopts cfg));
    simpl; eexists _, _, _; (split; [reflexivity|]); simpl; tauto.
Qed.

Lemma generateStateNonce_run (σ : World) (random : string) (rerr : option error) :
  rng σ (rng_next σ) = (random, rerr) →
  generateStateNonce σ =
    (Returns (match rerr with Some _ => "" | None => stripNonAlphaNum random end, rerr),
     mkWorld (writer σ) (logged σ) (calls σ) (cfg_TestURLs σ) (OAuthClient_RedirectURL σ)
             (rng σ) (S (rng_next σ))).
Proof.
  intros Hrng. unfold generateStateNonce, securerandom_URLBase64InBytes, get_world, modify,
    mbind, M_bind. simpl. rewrite Hrng. destruct rerr; reflexivity.
Qed.

(** The second half of [/login], for a destination that is not the session
    key [requestedURL]: the session is saved with the destination and the
    incremented count, and the handler either renders the too-many-redirects
    page or goes through [redirect302] to the provider. *)
Lemma login_destination_run (r : Request) (state : string) (values : gmap string value)
    (url : string) (count : Z) (σ : World) :
  url ≠ "requestedURL" →
  (values !! url = None ∧ count = 0) ∨ values !! url = Some (VInt count) →
  let failcount := wrap_int (count + 1) in
  let saved := <[url := VInt failcount]> (<["requestedURL" := VString url]> values) in
  ∃ σ', login_destination r state values url σ = (Returns tt, σ') ∧
        rw_cookie (writer σ') = rw_cookie (writer σ) ∧
        rw_session (writer σ') =
          (rw_session (writer σ) ++
             match session_Save_err r saved with Some _ => [] | None => [saved] end)%list ∧
        (∀ entry, entry ∈ logged σ → entry ∈ logged σ') ∧
        if decide (failcount > 2) then
          rw_status (writer σ') = Some (default StatusOK (rw_status (writer σ))) ∧
          rw_body (writer σ') =
            (rw_body (writer σ) ++
               [IndexPage (mkIndex ("/login too many redirects for " +:+ url +:+ " - " +:+
                                    Query_Get (URL_Query r) "error")
                             (cfg_TestURLs σ) (cfg_Testing cfg))])%list
        else
          ∃ redirectURL opts,
            let lURL := AuthCodeURL redirectURL state opts in
            if cfg_Testing cfg then
              rw_status (writer σ') = Some (default StatusOK (rw_status (writer σ))) ∧
              rw_body (writer σ') =
                (rw_body (writer σ) ++
                   [IndexPage (mkIndex ("302 redirect to: " +:+ lURL)
                                 (cfg_TestURLs σ ++ [lURL]) true)])%list
            else
              rw_status (writer σ') = Some (default StatusFound (rw_status (writer σ))) ∧
              rw_body (writer σ') = (rw_body (writer σ) ++ [RedirectTo lURL])%list.
Proof.
  intros Hdest Hcount failcount saved. subst saved failcount.
  unfold login_destination. cbv zeta.
  rewrite lookup_insert_ne by congruence.
  set (start := match values !! url with None => mret 0 | Some v => assert_int (Some v) end).
  assert (Hstart : start σ = (Returns count, σ)).
  { subst start. destruct Hcount as [[Hc Hz]|Hc]; rewrite Hc; [rewrite Hz|]; reflexivity. }
  rewrite (bind_run _ _ _ _ _ Hstart). clear Hstart start.
  unfold session_Save.
  destruct (session_Save_err r _) as [se|];
    (erewrite bind_run by reflexivity);
    (erewrite bind_run by reflexivity);
    destruct (decide (wrap_int (count + 1) > 2)) as [Hmany|Hfew].
  1, 3: unfold renderIndex, get_world, mbind, M_bind; simpl;
    eexists; (split; [reflexivity|]); simpl; rewrite ?app_nil_r;
    (split; [reflexivity|]); (split; [reflexivity|]);
    (split; [intros entry Hin; rewrite ?elem_of_app; tauto|]);
    destruct (rw_status (writer σ)); split; reflexivity.
  all: match goal with
       | |- context [mbind _ (loginURL ?r0 ?st) ?σ1] =>
           destruct (loginURL_run r0 st σ1)
             as (redirectURL & opts & σ2 & Hrun & Hwriter & Hlog & _ & Hurls);
           rewrite (bind_run _ _ _ _ _ Hrun)
       end;
    unfold redirect302, http_Redirect, renderIndex, get_world, mbind, M_bind;
    simpl in Hwriter, Hlog, Hurls;
    destruct (cfg_Testing cfg) eqn:Htesting; simpl;
    eexists; (split; [reflexivity|]); simpl; rewrite Hwriter, ?Hlog, ?Hurls, ?app_nil_r;
    (split; [reflexivity|]); (split; [reflexivity|]);
    (split; [intros entry Hin; rewrite ?elem_of_app; tauto|]);
    exists redirectURL, opts; simpl;
    destruct (rw_status (writer σ)); split; reflexivity.
Qed.

(** The first half of [/login]: the proof cookie is cleared, a state is
    generated (the empty string when the random source fails, with the failure
    logged) and, for a request that names a destination, the handler goes on
    with [login_destination]. *)
Lemma login_reaches_destination (r : Request) (σ : World) (values : gmap string value)
    (err0 : option error) (url random : string) (rerr : option error) :
  sessstore_Get r (Session_Name cfg) = (values, err0) →
  rng σ (rng_next σ) = (random, rerr) →
  Query_Get (URL_Query r) "url" = url →
  url ≠ "" →
  let state := match rerr with Some _ => "" | None => stripNonAlphaNum random end in
  ∃ σ1, serve (LoginHandler r) σ =
          login_destination r state (<["state" := VString state]> values) url σ1 ∧
        writer σ1 = mkResponseWriter ∅ None [] [ClearCookie] [] ∧
        cfg_TestURLs σ1 = cfg_TestURLs σ ∧
        (∀ e, rerr = Some e → mkLogEntry ErrorLevel None [LErr (Some e)] ∈ logged σ1).
Proof.
  intros Hsession Hrng Hurl Hknown state. subst state.
  unfold serve, LoginHandler. rewrite Hsession, Hurl.
  destruct (decide (url = "")) as [Hnone|_]; [contradiction|].
  destruct err0 as [e0|];
    (erewrite bind_run by reflexivity);
    (erewrite bind_run by reflexivity);
    (erewrite (bind_run generateStateNonce) by (apply generateStateNonce_run; exact Hrng));
    cbv beta iota;
    destruct rerr as [re|];
    (erewrite bind_run by reflexivity);
    eexists; (split; [reflexivity|]); simpl;
    (split; [reflexivity|]); (split; [reflexivity|]);
    intros e Heq; inversion Heq; subst;
    rewrite ?elem_of_cons; tauto.
Qed.

(** One [/login] for a destination that is not one of the session's own
    keys. *)
Lemma LoginHandler_run (r : Request) (σ : World) (values : gmap string value)
    (err0 : option error) (url random : string) (rerr : option error) (count : Z) :
  sessstore_Get r (Session_Name cfg) = (values, err0) →
  rng σ (rng_next σ) = (random, rerr) →
  Query_Get (URL_Query r) "url" = url →
  url ≠ "" → url ≠ "state" → url ≠ "requestedURL" →
  (values !! url = None ∧ count = 0) ∨ values !! url = Some (VInt count) →
  let out := serve (LoginHandler r) σ in
  let state := match rerr with Some _ => "" | None => stripNonAlphaNum random end in
  let failcount := wrap_int (count + 1) in
  let saved := <[url := VInt failcount]>
                 (<["requestedURL" := VString url]> (<["state" := VString state]> values)) in
  out.1 = Returns tt ∧
  rw_cookie (writer out.2) = [ClearCookie] ∧
  rw_session (writer out.2) =
    match session_Save_err r saved with Some _ => [] | None => [saved] end ∧
  (∀ e, rerr = Some e → mkLogEntry ErrorLevel None [LErr (Some e)] ∈ logged out.2) ∧
  if decide (failcount > 2) then
    rw_status (writer out.2) = Some StatusOK ∧
    rw_body (writer out.2) =
      [IndexPage (mkIndex ("/login too many redirects for " +:+ url +:+ " - " +:+
                           Query_Get (URL_Query r) "error")
                    (cfg_TestURLs σ) (cfg_Testing cfg))]
  else
    ∃ redirectURL opts,
      let lURL := AuthCodeURL redirectURL state opts in
      if cfg_Testing cfg then
        rw_status (writer out.2) = Some StatusOK ∧
        rw_body (writer out.2) =
          [IndexPage (mkIndex ("302 redirect to: " +:+ lURL) (cfg_TestURLs σ ++ [lURL]) true)]
      else
        rw_status (writer out.2) = Some StatusFound ∧
        rw_body (writer out.2) = [RedirectTo lURL].
Proof.
  intros Hsession Hrng Hurl Hknown Hstate Hdest Hcount out state failcount saved.
  destruct (login_reaches_destination r σ values err0 url random rerr
              Hsession Hrng Hurl Hknown) as (σ1 & Hrun1 & Hwriter1 & Hurls1 & Hlog1).
  fold state in Hrun1.
  assert (Hcount' : (<["state" := VString state]> values !! url = None ∧ count = 0) ∨
                    <["state" := VString state]> values !! url = Some (VInt count)).
  { rewrite lookup_insert_ne by congruence. exact Hcount. }
  destruct (login_destination_run r state (<["state" := VString state]> values) url count σ1
              Hdest Hcount') as (σ2 & Hrun2 & Hcookie & Hsaved & Hlog2 & Hpage).
  subst out. rewrite Hrun1, Hrun2. simpl fst. simpl snd.
  rewrite Hwriter1 in Hcookie, Hsaved, Hpage. simpl in Hcookie, Hsaved, Hpage.
  rewrite Hurls1 in Hpage.
  split; [reflexivity|]. split; [exact Hcookie|]. split; [exact Hsaved|].
  split; [intros e He; apply Hlog2, Hlog1, He|]. exact Hpage.
Qed.

(** C7: when the random source fails during [/login], the handler logs the
    error and goes on with the empty string as the state: it stores the empty
    state in the session and redirects to the provider's authorization
    endpoint with it. The login attempt does not fail. *)
Theorem login_without_randomness (r : Request) (σ : World) (values : gmap string value)
    (err0 : option error) (url random : string) (e : error) :
  sessstore_Get r (Session_Name cfg) = (values, err0) →
  rng σ (rng_next σ) = (random, Some e) →
  Query_Get (URL_Query r) "url" = url →
  url ≠ "" → url ≠ "state" → url ≠ "requestedURL" →
  values !! url = None →
  cfg_Testing cfg = false →
  let out := serve (LoginHandler r) σ in
  let saved := <[url := VInt 1]>
                 (<["requestedURL" := VString url]> (<["state" := VString ""]> values)) in
  out.1 = Returns tt ∧
  mkLogEntry ErrorLevel None [LErr (Some e)] ∈ logged out.2 ∧
  rw_session (writer out.2) =
    match session_Save_err r saved with Some _ => [] | None => [saved] end ∧
  rw_status (writer out.2) = Some StatusFound ∧
  ∃ redirectURL opts, rw_body (writer out.2) = [RedirectTo (AuthCodeURL redirectURL "" opts)].
Proof.
  intros Hsession Hrng Hurl Hknown Hstate Hdest Hfresh Htesting out saved.
  destruct (LoginHandler_run r σ values err0 url random (Some e) 0
              Hsession Hrng Hurl Hknown Hstate Hdest (or_introl (conj Hfresh eq_refl)))
    as (Hret & _ & Hsaved & Hlog & Hpage).
  fold out in Hret, Hsaved, Hlog, Hpage.
  change (wrap_int (0 + 1)) with 1 in Hsaved, Hpage.
  destruct (decide (1 > 2)) as [Habs|_]; [discriminate Habs|].
  destruct Hpage as (redirectURL & opts & Hpage). rewrite Htesting in Hpage.
  destruct Hpage as [Hstatus Hbody].
  split; [exact Hret|]. split; [apply Hlog; reflexivity|]. split; [exact Hsaved|].
  split; [exact Hstatus|]. exists redirectURL, opts. exact Hbody.
Qed.

(** [loginURL] reads nothing of the world but the client's redirect URL. *)
Lemma loginURL_frame (r : Request) (state : string) (σ σ' : World) :
  OAuthClient_RedirectURL σ = OAuthClient_RedirectURL σ' →
  (loginURL r state σ).1 = (loginURL r state σ').1.
Proof.
  intros Hclient. unfold loginURL, set_RedirectURL, get_world, modify, mbind, M_bind.
  destruct (GenOAuth_Provider cfg);
    try (destruct (first_RedirectURL _ _)); try (destruct (OAuthopts cfg));
    simpl; rewrite ?Hclient; reflexivity.
Qed.

(** Where [/login] redirects: with testing mode off and an incremented count
    of at most 2, the body is the redirect to the URL that [loginURL] returns
    for this request and the state generated for it, with the client's
    redirect URL as the request found it. *)
Lemma login_destination_target (r : Request) (state : string) (values : gmap string value)
    (url : string) (count : Z) (σ : World) :
  url ≠ "requestedURL" →
  (values !! url = None ∧ count = 0) ∨ values !! url = Some (VInt count) →
  ¬ wrap_int (count + 1) > 2 →
  cfg_Testing cfg = false →
  ∃ lURL, (loginURL r state σ).1 = Returns lURL ∧
          rw_body (writer (login_destination r state values url σ).2) =
            (rw_body (writer σ) ++ [RedirectTo lURL])%list.
Proof.
  intros Hdest Hcount Hfew Htesting.
  unfold login_destination. cbv zeta.
  rewrite lookup_insert_ne by congruence.
  set (start := match values !! url with None => mret 0 | Some v => assert_int (Some v) end).
  assert (Hstart : start σ = (Returns count, σ)).
  { subst start. destruct Hcount as [[Hc Hz]|Hc]; rewrite Hc; [rewrite Hz|]; reflexivity. }
  rewrite (bind_run _ _ _ _ _ Hstart). clear Hstart start.
  unfold session_Save.
  destruct (session_Save_err r _) as [se|];
    (erewrite bind_run by reflexivity);
    (erewrite bind_run by reflexivity);
    (destruct (decide (wrap_int (count + 1) > 2)) as [Hmany|_]; [contradiction|]).
  all: match goal with
       | |- context [mbind _ (loginURL ?r0 ?st) ?σ1] =>
           destruct (loginURL_run r0 st σ1)
             as (redirectURL & opts & σ2 & Hrun & Hwriter & _);
           rewrite (bind_run _ _ _ _ _ Hrun);
           exists (AuthCodeURL redirectURL st opts);
           (split; [rewrite (loginURL_frame r0 st σ σ1) by reflexivity;
                    rewrite Hrun; reflexivity|])
       end;
    unfold redirect302, http_Redirect, get_world, mbind, M_bind;
    simpl in Hwriter; rewrite Htesting; simpl; rewrite Hwriter, ?app_nil_r; reflexivity.
Qed.

(** The first half of [/login] leaves the client's redirect URL alone. *)
Lemma login_reaches_destination_client (r : Request) (σ : World)
    (values : gmap string value) (err0 : option error) (url random : string)
    (rerr : option error) :
  sessstore_Get r (Session_Name cfg) = (values, err0) →
  rng σ (rng_next σ) = (random, rerr) →
  Query_Get (URL_Query r) "url" = url →
  url ≠ "" →
  let state := match rerr with Some _ => "" | None => stripNonAlphaNum random end in
  ∃ σ1, serve (LoginHandler r) σ =
          login_destination r state (<["state" := VString state]> values) url σ1 ∧
        rw_body (writer σ1) = [] ∧
        OAuthClient_RedirectURL σ1 = OAuthClient_RedirectURL σ.
Proof.
  intros Hsession Hrng Hurl Hknown state. subst state.
  unfold serve, LoginHandler. rewrite Hsession, Hurl.
  destruct (decide (url = "")) as [Hnone|_]; [contradiction|].
  destruct err0 as [e0|];
    (erewrite bind_run by reflexivity);
    (erewrite bind_run by reflexivity);
    (erewrite (bind_run generateStateNonce) by (apply generateStateNonce_run; exact Hrng));
    cbv beta iota;
    destruct rerr as [re|];
    (erewrite bind_run by reflexivity);
    eexists; (split; [reflexivity|]); simpl; split; reflexivity.
Qed.

(** The state that [/login] generates in a world, and the provider URL it
    redirects to. *)
Lemma LoginHandler_redirect_target (r : Request) (σ : World) (values : gmap string value)
    (err0 : option error) (url : string) (count : Z) :
  sessstore_Get r (Session_Name cfg) = (values, err0) →
  Query_Get (URL_Query r) "url" = url →
  url ≠ "" → url ≠ "state" → url ≠ "requestedURL" →
  (values !! url = None ∧ count = 0) ∨ values !! url = Some (VInt count) →
  ¬ wrap_int (count + 1) > 2 →
  cfg_Testing cfg = false →
  ∃ state rerr lURL,
    (generateStateNonce σ).1 = Returns (state, rerr) ∧
    (loginURL r state σ).1 = Returns lURL ∧
    (∃ redirectURL opts, lURL = AuthCodeURL redirectURL state opts) ∧
    rw_body (writer (serve (LoginHandler r) σ).2) = [RedirectTo lURL] ∧
    (∀ saved, saved ∈ rw_session (writer (serve (LoginHandler r) σ).2) →
              saved !! "state" = Some (VString state)).
Proof.
  intros Hsession Hurl Hknown Hstate Hdest Hcount Hfew Htesting.
  destruct (rng σ (rng_next σ)) as [random rerr] eqn:Hrng.
  set (state := match rerr with Some _ => "" | None => stripNonAlphaNum random end).
  exists state, rerr.
  destruct (login_reaches_destination_client r σ values err0 url random rerr
              Hsession Hrng Hurl Hknown) as (σ1 & Hrun1 & Hbody1 & Hclient1).
  fold state in Hrun1.
  assert (Hcount' : (<["state" := VString state]> values !! url = None ∧ count = 0) ∨
                    <["state" := VString state]> values !! url = Some (VInt count)).
  { rewrite lookup_insert_ne by congruence. exact Hcount. }
  destruct (login_destination_target r state (<["state" := VString state]> values) url count
              σ1 Hdest Hcount' Hfew Htesting) as (lURL & Htarget & Hbody).
  exists lURL.
  split; [rewrite (generateStateNonce_run σ random rerr Hrng); reflexivity|].
  split; [rewrite (loginURL_frame r state σ σ1) by (symmetry; exact Hclient1); exact Htarget|].
  split.
  { destruct (loginURL_run r state σ1) as (redirectURL & opts & σ2 & Hrun & _).
    rewrite Hrun in Htarget. injection Htarget as <-. exists redirectURL, opts. reflexivity. }
  split; [rewrite Hrun1, Hbody, Hbody1; reflexivity|].
  destruct (LoginHandler_run r σ values err0 url random rerr count
              Hsession Hrng Hurl Hknown Hstate Hdest Hcount) as (_ & _ & Hsaved & _).
  intros saved Hin. rewrite Hsaved in Hin.
  destruct (session_Save_err r _); [apply elem_of_nil in Hin; contradiction|].
  apply list_elem_of_singleton in Hin. subst saved.
  rewrite lookup_insert_ne by congruence.
  rewrite lookup_insert_ne by discriminate.
  apply lookup_insert_eq.
Qed.

(** C8 (amended): with testing mode off and a session that is saved and
    carried from one request to the next, for a destination URL that is not
    empty and is not one of the session keys [state] and [requestedURL], and a
    session that holds no failure count for it yet (none, or zero), three
    consecutive [/login] requests in that session go as follows. The first two
    each answer with a 302 redirect to the provider: to the URL that
    [loginURL] returns for the request and the state generated for it, which
    is the provider's authorization URL carrying that state; the session
    saved holds that state and the failure count 1, then 2. The third
    renders the too-many-redirects page with status 200, and a session it
    saves holds the count 3. *)
Theorem login_loop_guard (r1 r2 r3 : Request) (σ : World) (values : gmap string value)
    (err0 : option error) (url : string) :
  url ≠ "" → url ≠ "state" → url ≠ "requestedURL" →
  Query_Get (URL_Query r1) "url" = url →
  Query_Get (URL_Query r2) "url" = url →
  Query_Get (URL_Query r3) "url" = url →
  cfg_Testing cfg = false →
  sessstore_Get r1 (Session_Name cfg) = (values, err0) →
  values !! url = None ∨ values !! url = Some (VInt 0) →
  let out1 := serve (LoginHandler r1) σ in
  carries_session r2 (writer out1.2) →
  let out2 := serve (LoginHandler r2) out1.2 in
  carries_session r3 (writer out2.2) →
  let out3 := serve (LoginHandler r3) out2.2 in
  (out1.1 = Returns tt ∧ rw_status (writer out1.2) = Some StatusFound ∧
   ∃ state rerr lURL saved,
     (generateStateNonce σ).1 = Returns (state, rerr) ∧
     (loginURL r1 state σ).1 = Returns lURL ∧
     (∃ redirectURL opts, lURL = AuthCodeURL redirectURL state opts) ∧
     rw_body (writer out1.2) = [RedirectTo lURL] ∧
     rw_session (writer out1.2) = [saved] ∧
     saved !! "state" = Some (VString state) ∧
     saved !! url = Some (VInt 1)) ∧
  (out2.1 = Returns tt ∧ rw_status (writer out2.2) = Some StatusFound ∧
   ∃ state rerr lURL saved,
     (generateStateNonce out1.2).1 = Returns (state, rerr) ∧
     (loginURL r2 state out1.2).1 = Returns lURL ∧
     (∃ redirectURL opts, lURL = AuthCodeURL redirectURL state opts) ∧
     rw_body (writer out2.2) = [RedirectTo lURL] ∧
     rw_session (writer out2.2) = [saved] ∧
     saved !! "state" = Some (VString state) ∧
     saved !! url = Some (VInt 2)) ∧
  (out3.1 = Returns tt ∧ rw_status (writer out3.2) = Some StatusOK ∧
   rw_body (writer out3.2) =
     [IndexPage (mkIndex ("/login too many redirects for " +:+ url +:+ " - " +:+
                          Query_Get (URL_Query r3) "error")
                   (cfg_TestURLs out2.2) false)] ∧
   ∀ saved, saved ∈ rw_session (writer out3.2) → saved !! url = Some (VInt 3)).
Proof.
  intros Hknown Hstate Hdest Hurl1 Hurl2 Hurl3 Htesting Hsession1 Hfresh
    out1 Hcarry2 out2 Hcarry3 out3.
  assert (Hfew1 : ¬ wrap_int (0 + 1) > 2) by discriminate.
  assert (Hfew2 : ¬ wrap_int (1 + 1) > 2) by discriminate.
  (* first request *)
  destruct (rng σ (rng_next σ)) as [random1 rerr1] eqn:Hrng1.
  assert (Hcount1 : (values !! url = None ∧ 0 = 0) ∨ values !! url = Some (VInt 0))
    by (destruct Hfresh; [left; split; [assumption|reflexivity]|right; assumption]).
  destruct (LoginHandler_run r1 σ values err0 url random1 rerr1 0
              Hsession1 Hrng1 Hurl1 Hknown Hstate Hdest Hcount1)
    as (Hret1 & _ & Hsaved1 & _ & Hpage1).
  destruct (LoginHandler_redirect_target r1 σ values err0 url 0
              Hsession1 Hurl1 Hknown Hstate Hdest Hcount1 Hfew1 Htesting)
    as (state1 & rerrA & lURL1 & Hnonce1 & Htarget1 & Hprovider1 & Hbody1 & Hkeeps1).
  fold out1 in Hret1, Hsaved1, Hpage1, Hbody1, Hkeeps1.
  change (wrap_int (0 + 1)) with 1 in Hsaved1, Hpage1.
  destruct (decide (1 > 2)) as [Habs|_]; [discriminate Habs|].
  destruct Hpage1 as (redirectURL1 & opts1 & Hpage1). rewrite Htesting in Hpage1.
  destruct Hcarry2 as (values2 & Hlast2 & Hsession2).
  destruct (session_Save_err r1 _) as [se1|];
    [rewrite Hsaved1 in Hlast2; discriminate Hlast2|].
  rewrite Hsaved1 in Hlast2. injection Hlast2 as <-.
  (* second request *)
  destruct (rng out1.2 (rng_next out1.2)) as [random2 rerr2] eqn:Hrng2.
  destruct (LoginHandler_run r2 out1.2 _ None url random2 rerr2 1
              Hsession2 Hrng2 Hurl2 Hknown Hstate Hdest
              (or_intror (lookup_insert_eq _ _ _)))
    as (Hret2 & _ & Hsaved2 & _ & Hpage2).
  destruct (LoginHandler_redirect_target r2 out1.2 _ None url 1
              Hsession2 Hurl2 Hknown Hstate Hdest
              (or_intror (lookup_insert_eq _ _ _)) Hfew2 Htesting)
    as (state2 & rerrB & lURL2 & Hnonce2 & Htarget2 & Hprovider2 & Hbody2 & Hkeeps2).
  fold out2 in Hret2, Hsaved2, Hpage2, Hbody2, Hkeeps2.
  change (wrap_int (1 + 1)) with 2 in Hsaved2, Hpage2.
  destruct (decide (2 > 2)) as [Habs|_]; [discriminate Habs|].
  destruct Hpage2 as (redirectURL2 & opts2 & Hpage2). rewrite Htesting in Hpage2.
  destruct Hcarry3 as (values3 & Hlast3 & Hsession3).
  destruct (session_Save_err r2 _) as [se2|];
    [rewrite Hsaved2 in Hlast3; discriminate Hlast3|].
  rewrite Hsaved2 in Hlast3. injection Hlast3 as <-.
  (* third request *)
  destruct (rng out2.2 (rng_next out2.2)) as [random3 rerr3] eqn:Hrng3.
  destruct (LoginHandler_run r3 out2.2 _ None url random3 rerr3 2
              Hsession3 Hrng3 Hurl3 Hknown Hstate Hdest
              (or_intror (lookup_insert_eq _ _ _)))
    as (Hret3 & _ & Hsaved3 & _ & Hpage3).
  fold out3 in Hret3, Hsaved3, Hpage3.
  change (wrap_int (2 + 1)) with 3 in Hsaved3, Hpage3.
  destruct (decide (3 > 2)) as [_|Habs]; [|exfalso; apply Habs; reflexivity].
  rewrite Htesting in Hpage3.
  split; [|split].
  - split; [exact Hret1|]. split; [apply Hpage1|].
    eexists state1, rerrA, lURL1, _.
    split; [exact Hnonce1|]. split; [exact Htarget1|]. split; [exact Hprovider1|].
    split; [exact Hbody1|]. split; [exact Hsaved1|].
    split; [apply Hkeeps1; rewrite Hsaved1; apply elem_of_cons; left; reflexivity|].
    apply lookup_insert_eq.
  - split; [exact Hret2|]. split; [apply Hpage2|].
    eexists state2, rerrB, lURL2, _.
    split; [exact Hnonce2|]. split; [exact Htarget2|]. split; [exact Hprovider2|].
    split; [exact Hbody2|]. split; [exact Hsaved2|].
    split; [apply Hkeeps2; rewrite Hsaved2; apply elem_of_cons; left; reflexivity|].
    apply lookup_insert_eq.
  - split; [exact Hret3|]. split; [apply Hpage3|]. split; [apply Hpage3|].
    intros saved Hin. rewrite Hsaved3 in Hin.
    destruct (session_Save_err r3 _); [apply elem_of_nil in Hin; contradiction|].
    apply list_elem_of_singleton in Hin. subst saved. apply lookup_insert_eq.
Qed.

(** ** The state nonce *)

Lemma stripNonAlphaNum_all (s : string) : all_AlphaNum (stripNonAlphaNum s).
Proof.
  induction s as [|c rest IH]; simpl; [exact I|].
  destruct (isAlphaNum c) eqn:Hc; simpl; [split; assumption|exact IH].
Qed.

Lemma stripNonAlphaNum_id (s : string) : all_AlphaNum s → stripNonAlphaNum s = s.
Proof.
  induction s as [|c rest IH]; simpl; [reflexivity|].
  intros [Hc Hrest]. rewrite Hc, IH by assumption. reflexivity.
Qed.

(** X1: [generateStateNonce] returns, takes one value from the random
    source, and its state has only ASCII letters and digits: it is the empty
    string when the source fails, and the random string itself when that
    has only letters and digits. *)
Theorem generateStateNonce_alphanumeric (σ : World) :
  ∃ state,
    (generateStateNonce σ).1 = Returns (state, (rng σ (rng_next σ)).2) ∧
    all_AlphaNum state ∧
    ((rng σ (rng_next σ)).2 ≠ None → state = "") ∧
    ((rng σ (rng_next σ)).2 = None → all_AlphaNum (rng σ (rng_next σ)).1 →
       state = (rng σ (rng_next σ)).1) ∧
    rng_next (generateStateNonce σ).2 = S (rng_next σ).
Proof.
  destruct (rng σ (rng_next σ)) as [random rerr] eqn:Hrng.
  rewrite (generateStateNonce_run σ random rerr Hrng). simpl.
  destruct rerr as [e|]; eexists; (split; [reflexivity|]).
  - split; [exact I|]. split; [reflexivity|]. split; [discriminate|reflexivity].
  - split; [apply stripNonAlphaNum_all|]. split; [intros Habs; contradiction|].
    split; [intros _; apply stripNonAlphaNum_id|reflexivity].
Qed.

(** ** The provider's login URL *)

Lemma prefix_of_spec (p s : string) : prefix_of p s = true ↔ ∃ rest, s = p +:+ rest.
Proof.
  revert s. induction p as [|a p IH]; intros s; simpl.
  - split; [intros _; exists s; reflexivity|reflexivity].
  - destruct s as [|b s].
    + split; [discriminate|]. intros (rest & Heq). discriminate.
    + destruct (decide (a = b)) as [->|Hne].
      * rewrite IH. split; intros (rest & Heq); exists rest.
        -- rewrite Heq. reflexivity.
        -- inversion Heq. reflexivity.
      * split; [discriminate|]. intros (rest & Heq). inversion Heq. congruence.
Qed.

Lemma Contains_spec (s sub : string) : Contains s sub = true ↔ substring_of sub s.
Proof.
  induction s as [|c s IH]; simpl.
  - rewrite orb_false_r, prefix_of_spec. split.
    + intros (rest & Heq). exists "", rest. exact Heq.
    + intros ([|? ?] & after & Heq); [exists after; exact Heq|discriminate].
  - rewrite orb_true_iff, prefix_of_spec, IH. split.
    + intros [(rest & Heq)|(before & after & Heq)].
      * exists "", rest. exact Heq.
      * exists (String c before), after. rewrite Heq. reflexivity.
    + intros ([|c' before] & after & Heq).
      * left. exists after. exact Heq.
      * right. exists before, after. inversion Heq. reflexivity.
Qed.

Lemma first_RedirectURL_spec (domain : string) (urls : list string) :
  match first_RedirectURL domain urls with
  | Some v => ∃ pre post, urls = (pre ++ v :: post)%list ∧ substring_of domain v ∧
                          ∀ u, u ∈ pre → ¬ substring_of domain u
  | None => ∀ u, u ∈ urls → ¬ substring_of domain u
  end.
Proof.
  induction urls as [|v rest IH]; simpl.
  - intros u Hin. inversion Hin.
  - destruct (Contains v domain) eqn:Hv.
    + exists [], rest. split; [reflexivity|]. split; [apply Contains_spec, Hv|].
      intros u Hin. inversion Hin.
    + assert (Hnot : ¬ substring_of domain v).
      { intros Hsub. apply Contains_spec in Hsub. congruence. }
      destruct (first_RedirectURL domain rest) as [w|].
      * destruct IH as (pre & post & -> & Hsub & Hpre).
        exists (v :: pre), post. split; [reflexivity|]. split; [exact Hsub|].
        intros u Hin. apply elem_of_cons in Hin as [->|Hin]; [exact Hnot|apply Hpre, Hin].
      * intros u Hin. apply elem_of_cons in Hin as [->|Hin]; [exact Hnot|apply IH, Hin].
Qed.

(** X2: for a provider other than IndieAuth and ADFS, [loginURL] builds the
    URL on the first configured redirect URL that has the domain matching the
    request's host as a substring, and leaves that URL in the process-wide
    [OAuthClient.RedirectURL]; when no configured URL has it, the redirect URL
    left by an earlier request is used. Nothing else changes. *)
Theorem loginURL_redirect_selection (r : Request) (state : string) (σ : World) :
  GenOAuth_Provider cfg ≠ IndieAuth →
  GenOAuth_Provider cfg ≠ ADFS →
  let domain := domains_Matches (Host r) in
  ∃ redirect,
    loginURL r state σ =
      (Returns (AuthCodeURL redirect state
                  (match OAuthopts cfg with Some o => [Some o] | None => [] end)),
       mkWorld (writer σ) (logged σ) (calls σ) (cfg_TestURLs σ) redirect
               (rng σ) (rng_next σ)) ∧
    ((∃ pre post, GenOAuth_RedirectURLs cfg = (pre ++ redirect :: post)%list ∧
                  substring_of domain redirect ∧
                  ∀ u, u ∈ pre → ¬ substring_of domain u) ∨
     ((∀ u, u ∈ GenOAuth_RedirectURLs cfg → ¬ substring_of domain u) ∧
      redirect = OAuthClient_RedirectURL σ)).
Proof.
  intros Hindie Hadfs domain.
  pose proof (first_RedirectURL_spec domain (GenOAuth_RedirectURLs cfg)) as Hfirst.
  unfold loginURL, set_RedirectURL, get_world, modify, mbind, M_bind. fold domain.
  destruct (GenOAuth_Provider cfg); try contradiction;
    destruct (first_RedirectURL domain (GenOAuth_RedirectURLs cfg)) as [v|];
    destruct (OAuthopts cfg); simpl;
    first [ exists v; split; [reflexivity|left; exact Hfirst]
          | exists (OAuthClient_RedirectURL σ);
            split; [destruct σ; reflexivity|right; split; [exact Hfirst|reflexivity]] ].
Qed.

(** X3: when the domain collaborator answers the empty string for the
    request's host, [loginURL] of a provider other than IndieAuth and ADFS
    takes the first configured redirect URL, whatever it is. *)
Theorem loginURL_unmatched_host (r : Request) (state : string) (σ : World)
    (first : string) (others : list string) :
  GenOAuth_Provider cfg ≠ IndieAuth →
  GenOAuth_Provider cfg ≠ ADFS →
  domains_Matches (Host r) = "" →
  GenOAuth_RedirectURLs cfg = first :: others →
  (loginURL r state σ).1 =
    Returns (AuthCodeURL first state
               (match OAuthopts cfg with Some o => [Some o] | None => [] end)) ∧
  OAuthClient_RedirectURL (loginURL r state σ).2 = first.
Proof.
  intros Hindie Hadfs Hdomain Hurls.
  assert (Hfirst : first_RedirectURL "" (first :: others) = Some first).
  { simpl. replace (Contains first "") with true; [reflexivity|].
    symmetry. apply Contains_spec. exists "", first. reflexivity. }
  unfold loginURL, set_RedirectURL, get_world, modify, mbind, M_bind.
  rewrite Hdomain, Hurls, Hfirst.
  destruct (GenOAuth_Provider cfg); try contradiction;
    destruct (OAuthopts cfg); simpl; split; reflexivity.
Qed.

(** ** More on the authorization policy *)

(** X4: [VerifyUser] logs a warning exactly in the default tier, where
    nothing is configured and it permits every user; in every other tier it
    logs nothing at Warn or Error level. *)
Theorem VerifyUser_warns_by_default (user : User) (σ : World) :
  (Policy_tier cfg = TierDefault →
     (VerifyUser user σ).1 = Returns (true, None) ∧
     ∃ entry, log_level entry = Warn ∧
              logged (VerifyUser user σ).2 = (logged σ ++ [entry])%list) ∧
  (Policy_tier cfg ≠ TierDefault → logged (VerifyUser user σ).2 = logged σ).
Proof.
  unfold VerifyUser, VerifyUser_switch, Policy_tier.
  destruct (AllowAllUsers cfg).
  { split; [discriminate|]. intros _. simpl. reflexivity. }
  destruct (decide (List.length (WhiteList cfg) ≠ 0%nat)) as [Hwl|Hwl];
    rewrite length_ne_0 in Hwl.
  { rewrite bool_decide_true by assumption. split; [discriminate|]. intros _.
    destruct (range_find _ _); reflexivity. }
  rewrite bool_decide_false by assumption.
  destruct (decide (List.length (TeamWhiteList cfg) ≠ 0%nat)) as [Htwl|Htwl];
    rewrite length_ne_0 in Htwl.
  { rewrite bool_decide_true by assumption. split; [discriminate|]. intros _.
    destruct (range_teams _ _); reflexivity. }
  rewrite bool_decide_false by assumption.
  destruct (decide (List.length (Domains cfg) ≠ 0%nat)) as [Hdom|Hdom];
    rewrite length_ne_0 in Hdom.
  { rewrite bool_decide_true by assumption. split; [discriminate|]. intros _.
    destruct (IsUnderManagement _); reflexivity. }
  rewrite bool_decide_false by assumption.
  split; [|intros Habs; contradiction]. intros _. simpl.
  split; [reflexivity|]. eexists. split; [|reflexivity]. reflexivity.
Qed.

(** ** More on [/validate] *)

Lemma forM_establishes {A : Type} (l : list A) (body : A → M unit) (x : A)
    (key val : string) :
  (∀ y, adds_headers (body y)) →
  x ∈ l →
  (∀ σ, ∃ σ', body x σ = (Returns tt, σ') ∧ header_step σ σ' ∧
              header_has (writer σ') key val) →
  ∀ σ, ∃ σ', forM_ l body σ = (Returns tt, σ') ∧ header_step σ σ' ∧
             header_has (writer σ') key val.
Proof.
  intros Hbody Hin Hx. induction l as [|y rest IH]; [inversion Hin|].
  intros σ. simpl. apply elem_of_cons in Hin as [<-|Hin].
  - destruct (Hx σ) as (σ1 & Hrun1 & Hstep1 & Hhas).
    destruct (adds_headers_forM_ rest body Hbody σ1) as (σ2 & Hrun2 & Hstep2).
    exists σ2. rewrite (bind_run _ _ _ _ _ Hrun1).
    split; [exact Hrun2|]. split; [eapply header_step_trans; eassumption|].
    destruct Hstep2 as (_ & _ & _ & _ & _ & _ & Hkeep). apply Hkeep, Hhas.
  - destruct (Hbody y σ) as (σ1 & Hrun1 & Hstep1).
    destruct (IH Hin σ1) as (σ2 & Hrun2 & Hstep2 & Hhas).
    exists σ2. rewrite (bind_run _ _ _ _ _ Hrun1).
    split; [exact Hrun2|]. split; [eapply header_step_trans; eassumption|exact Hhas].
Qed.

Lemma project_claim_match (k : string) (v : claimValue) (header : string) (σ : World) :
  ∃ σ', project_claim k v k header σ = (Returns tt, σ') ∧ header_step σ σ' ∧
        header_has (writer σ') header (claim_header_value v).
Proof.
  unfold project_claim. destruct (decide (k = k)) as [_|Hne]; [|contradiction].
  destruct v; simpl; apply w_Header_Add_run.
Qed.

(** The whole of the accepted path: what it returns, what it leaves alone,
    and the headers it is sure to add. *)
Lemma validate_accepted_full (claims : VouchClaims) (σ : World) :
  ∃ σ', validate_accepted claims σ = (Returns tt, σ') ∧
        rw_status (writer σ') = Some (default StatusOK (rw_status (writer σ))) ∧
        rw_cookie (writer σ') = rw_cookie (writer σ) ∧
        rw_session (writer σ') = rw_session (writer σ) ∧
        calls σ' = calls σ ∧
        (∀ k v header, (k, v) ∈ vc_CustomClaims claims →
                       (k, header) ∈ hdr_ClaimsCleaned (Headers cfg) →
                       header_has (writer σ') header (claim_header_value v)) ∧
        (hdr_AccessToken (Headers cfg) ≠ "" → vc_PAccessToken claims ≠ "" →
         header_has (writer σ') (hdr_AccessToken (Headers cfg)) (vc_PAccessToken claims)) ∧
        (hdr_IDToken (Headers cfg) ≠ "" → vc_PIdToken claims ≠ "" →
         header_has (writer σ') (hdr_IDToken (Headers cfg)) (vc_PIdToken claims)).
Proof.
  unfold validate_accepted.
  set (claims_phase := if decide (0 < _)%nat then _ else _).
  set (access_phase := if decide (hdr_AccessToken _ ≠ _) then _ else _).
  set (id_phase := if decide (hdr_IDToken _ ≠ _) then _ else _).
  set (last_phase := if cfg_Testing cfg then _ else _).
  pose (inner := λ (k : string) (v : claimValue) '((claim, header) : string * string),
                  project_claim k v claim header).
  pose (outer := λ '((k, v) : string * claimValue),
                  forM_ (hdr_ClaimsCleaned (Headers cfg)) (inner k v)).
  assert (Hinner : ∀ k v y, adds_headers (inner k v y)).
  { intros k v [claim header]. apply adds_headers_project_claim. }
  assert (Houter : ∀ y, adds_headers (outer y)).
  { intros [k v]. apply adds_headers_forM_. apply Hinner. }
  assert (Hclaims : ∀ σ0, ∃ σ1, claims_phase σ0 = (Returns tt, σ1) ∧ header_step σ0 σ1 ∧
            ∀ k v header, (k, v) ∈ vc_CustomClaims claims →
                          (k, header) ∈ hdr_ClaimsCleaned (Headers cfg) →
                          header_has (writer σ1) header (claim_header_value v)).
  { intros σ0. subst claims_phase. destruct (decide (0 < _)%nat) as [Hsome|Hnone].
    - change (forM_ (vc_CustomClaims claims) _) with (forM_ (vc_CustomClaims claims) outer).
      destruct (adds_headers_forM_ (vc_CustomClaims claims) outer Houter σ0)
        as (σ1 & Hrun1 & Hstep1).
      exists σ1. split; [exact Hrun1|]. split; [exact Hstep1|].
      intros k v header Hk Hheader.
      assert (Hestablished : ∀ σa, ∃ σb, outer (k, v) σa = (Returns tt, σb) ∧
                header_step σa σb ∧ header_has (writer σb) header (claim_header_value v)).
      { apply (forM_establishes (hdr_ClaimsCleaned (Headers cfg)) (inner k v) (k, header)
                 header (claim_header_value v) (Hinner k v) Hheader).
        intros σb. apply project_claim_match. }
      destruct (forM_establishes (vc_CustomClaims claims) outer (k, v) header
                  (claim_header_value v) Houter Hk Hestablished σ0)
        as (σ1' & Hrun1' & _ & Hhas).
      rewrite Hrun1 in Hrun1'. injection Hrun1' as <-. exact Hhas.
    - exists σ0. split; [reflexivity|]. split; [apply header_step_refl|].
      intros k v header _ Hheader. exfalso. apply Hnone.
      destruct (hdr_ClaimsCleaned (Headers cfg)); [inversion Hheader|simpl; lia]. }
  assert (Haccess : ∀ σ0, ∃ σ1, access_phase σ0 = (Returns tt, σ1) ∧ header_step σ0 σ1 ∧
            (hdr_AccessToken (Headers cfg) ≠ "" → vc_PAccessToken claims ≠ "" →
             header_has (writer σ1) (hdr_AccessToken (Headers cfg))
               (vc_PAccessToken claims))).
  { intros σ0. subst access_phase.
    destruct (decide (hdr_AccessToken _ ≠ _)); [destruct (decide (vc_PAccessToken _ ≠ _))|].
    - destruct (w_Header_Add_run (hdr_AccessToken (Headers cfg)) (vc_PAccessToken claims) σ0)
        as (σ1 & ? & ? & ?). exists σ1. tauto.
    - exists σ0. split; [reflexivity|]. split; [apply header_step_refl|tauto].
    - exists σ0. split; [reflexivity|]. split; [apply header_step_refl|tauto]. }
  assert (Hid : ∀ σ0, ∃ σ1, id_phase σ0 = (Returns tt, σ1) ∧ header_step σ0 σ1 ∧
            (hdr_IDToken (Headers cfg) ≠ "" → vc_PIdToken claims ≠ "" →
             header_has (writer σ1) (hdr_IDToken (Headers cfg)) (vc_PIdToken claims))).
  { intros σ0. subst id_phase.
    destruct (decide (hdr_IDToken _ ≠ _)); [destruct (decide (vc_PIdToken _ ≠ _))|].
    - destruct (w_Header_Add_run (hdr_IDToken (Headers cfg)) (vc_PIdToken claims) σ0)
        as (σ1 & ? & ? & ?). exists σ1. tauto.
    - exists σ0. split; [reflexivity|]. split; [apply header_step_refl|tauto].
    - exists σ0. split; [reflexivity|]. split; [apply header_step_refl|tauto]. }
  assert (Hlast : ∀ σ5, ∃ σ', last_phase σ5 = (Returns tt, σ') ∧
            rw_header (writer σ') = rw_header (writer σ5) ∧
            rw_status (writer σ') = Some (default StatusOK (rw_status (writer σ5))) ∧
            rw_cookie (writer σ') = rw_cookie (writer σ5) ∧
            rw_session (writer σ') = rw_session (writer σ5) ∧
            calls σ' = calls σ5).
  { intros σ5. subst last_phase. unfold renderIndex, ok200, get_world.
    destruct (cfg_Testing cfg).
    - destruct (w_Write_run
                  (IndexPage (mkIndex ("user authorized " +:+ vc_Username claims)
                                (cfg_TestURLs σ5) true)) σ5)
        as (σ' & Hrun & ? & ? & ? & ? & ? & ?).
      exists σ'. unfold mbind, M_bind. simpl. tauto.
    - destruct (w_Write_run (Bytes ("200 OK" +:+ LF)) σ5)
        as (σ' & Hrun & ? & ? & ? & ? & ? & ?).
      exists σ'. tauto. }
  clearbody claims_phase access_phase id_phase last_phase.
  destruct (Hclaims σ) as (σ1 & Hrun1 & Hstep1 & Hprojected).
  destruct (w_Header_Add_run (hdr_User (Headers cfg)) (vc_Username claims) σ1)
    as (σ2 & Hrun2 & Hstep2 & _).
  destruct (w_Header_Add_run (hdr_Success (Headers cfg)) "true" σ2)
    as (σ3 & Hrun3 & Hstep3 & _).
  destruct (Haccess σ3) as (σ4 & Hrun4 & Hstep4 & Htoken).
  destruct (Hid σ4) as (σ5 & Hrun5 & Hstep5 & Hidtoken).
  destruct (Hlast σ5) as (σ6 & Hrun6 & Hheader6 & Hstatus6 & Hcookie6 & Hsession6 & Hcalls6).
  exists σ6.
  rewrite (bind_run _ _ _ _ _ Hrun1), (bind_run _ _ _ _ _ Hrun2),
    (bind_run _ _ _ _ _ Hrun3), (bind_run _ _ _ _ _ Hrun4), (bind_run _ _ _ _ _ Hrun5).
  split; [exact Hrun6|].
  pose proof (header_step_trans _ _ _ Hstep2 (header_step_trans _ _ _ Hstep3
                (header_step_trans _ _ _ Hstep4 Hstep5))) as Hstep15.
  pose proof (header_step_trans _ _ _ Hstep1 Hstep15) as Hstep05.
  unfold header_has in *. rewrite Hheader6, Hstatus6, Hcookie6, Hsession6, Hcalls6.
  destruct Hstep05 as (Hst & _ & Hck & Hss & Hcl & _ & _).
  destruct Hstep15 as (_ & _ & _ & _ & _ & _ & Hkeep15).
  destruct Hstep5 as (_ & _ & _ & _ & _ & _ & Hkeep45).
  rewrite Hst, Hck, Hss, Hcl.
  repeat split; try reflexivity.
  - intros k v header Hk Hheader. apply Hkeep15. eapply Hprojected; eassumption.
  - intros Hc Hp. apply Hkeep45. apply Htoken; assumption.
  - exact Hidtoken.
Qed.

(** A token that parses, names a user and passes the host check (or needs
    none) takes the accepted path. *)
Lemma validate_reaches_accepted (r : Request) (σ : World) (tok : Token)
    (claims : VouchClaims) :
  FindJWT r ≠ "" →
  ParseTokenString (FindJWT r) = (tok, None) →
  PTokenClaims tok = (claims, None) →
  vc_Username claims ≠ "" →
  AllowAllUsers cfg = true ∨ SiteInClaims (Host r) claims = true →
  serve (ValidateRequestHandler r) σ =
    validate_accepted claims
      (mkWorld fresh_writer [] [] (cfg_TestURLs σ) (OAuthClient_RedirectURL σ)
               (rng σ) (rng_next σ)).
Proof.
  intros Hfound Hparse Hclaims Huser Hpass. unfold serve.
  rewrite (validate_parsed _ _ tok claims) by assumption.
  destruct Hpass as [->| ->]; [reflexivity|].
  destruct (AllowAllUsers cfg); reflexivity.
Qed.

(** X5: with allow-all configured, [/validate] accepts a token that parses
    and names a user for every host: it answers 200 with the username in the
    identity header and [true] in the success header, and the token's sites
    are not consulted. *)
Theorem validate_allow_all (r : Request) (σ : World) (tok : Token) (claims : VouchClaims) :
  FindJWT r ≠ "" →
  ParseTokenString (FindJWT r) = (tok, None) →
  PTokenClaims tok = (claims, None) →
  vc_Username claims ≠ "" →
  AllowAllUsers cfg = true →
  let out := serve (ValidateRequestHandler r) σ in
  out.1 = Returns tt ∧
  header_has (writer out.2) (hdr_User (Headers cfg)) (vc_Username claims) ∧
  header_has (writer out.2) (hdr_Success (Headers cfg)) "true" ∧
  status_sent (writer out.2) = StatusOK ∧
  rw_cookie (writer out.2) = [].
Proof.
  intros Hfound Hparse Hclaims Huser Hallow out. subst out.
  rewrite (validate_reaches_accepted r σ tok claims) by (assumption || (left; assumption)).
  match goal with
  | |- context [validate_accepted claims ?σ0] =>
      destruct (validate_accepted_run claims σ0 eq_refl)
        as (σ' & -> & Hu & Hs & Hstatus & Hcookie & _)
  end.
  simpl. unfold status_sent. rewrite Hstatus, Hcookie. tauto.
Qed.

(** X6: on the accepted path of [/validate], every custom claim of the token
    for which a header is configured is projected: the response carries, under
    that header, the comma-separated quoted elements of a sequence and the
    [fmt.Sprint] text of any other value. *)
Theorem validate_projects_every_claim (r : Request) (σ : World) (tok : Token)
    (claims : VouchClaims) (k header : string) (v : claimValue) :
  FindJWT r ≠ "" →
  ParseTokenString (FindJWT r) = (tok, None) →
  PTokenClaims tok = (claims, None) →
  vc_Username claims ≠ "" →
  AllowAllUsers cfg = true ∨ SiteInClaims (Host r) claims = true →
  (k, v) ∈ vc_CustomClaims claims →
  (k, header) ∈ hdr_ClaimsCleaned (Headers cfg) →
  header_has (writer (serve (ValidateRequestHandler r) σ).2) header (claim_header_value v).
Proof.
  intros Hfound Hparse Hclaims Huser Hpass Hk Hheader.
  rewrite (validate_reaches_accepted r σ tok claims) by assumption.
  match goal with
  | |- context [validate_accepted claims ?σ0] =>
      destruct (validate_accepted_full claims σ0)
        as (σ' & -> & _ & _ & _ & _ & Hprojected & _)
  end.
  simpl. eapply Hprojected; eassumption.
Qed.

(** X7: on the accepted path of [/validate], the provider's access token and
    ID token are put in their headers whenever the header is configured and
    the token carries the value. *)
Theorem validate_forwards_provider_tokens (r : Request) (σ : World) (tok : Token)
    (claims : VouchClaims) :
  FindJWT r ≠ "" →
  ParseTokenString (FindJWT r) = (tok, None) →
  PTokenClaims tok = (claims, None) →
  vc_Username claims ≠ "" →
  AllowAllUsers cfg = true ∨ SiteInClaims (Host r) claims = true →
  let out := serve (ValidateRequestHandler r) σ in
  (hdr_AccessToken (Headers cfg) ≠ "" → vc_PAccessToken claims ≠ "" →
   header_has (writer out.2) (hdr_AccessToken (Headers cfg)) (vc_PAccessToken claims)) ∧
  (hdr_IDToken (Headers cfg) ≠ "" → vc_PIdToken claims ≠ "" →
   header_has (writer out.2) (hdr_IDToken (Headers cfg)) (vc_PIdToken claims)).
Proof.
  intros Hfound Hparse Hclaims Huser Hpass out. subst out.
  rewrite (validate_reaches_accepted r σ tok claims) by assumption.
  match goal with
  | |- context [validate_accepted claims ?σ0] =>
      destruct (validate_accepted_full claims σ0)
        as (σ' & -> & _ & _ & _ & _ & _ & Haccess & Hid)
  end.
  simpl. split; assumption.
Qed.

(** X8: [/validate] returns for every request, never writes a session, and
    ends in one of two ways: status 401 with the proof cookie cleared, or
    status 200 with the proof cookie untouched. *)
Theorem validate_outcomes (r : Request) (σ : World) :
  let out := serve (ValidateRequestHandler r) σ in
  out.1 = Returns tt ∧
  rw_session (writer out.2) = [] ∧
  ((rw_status (writer out.2) = Some StatusUnauthorized ∧
    rw_cookie (writer out.2) = [ClearCookie]) ∨
   (status_sent (writer out.2) = StatusOK ∧ rw_cookie (writer out.2) = [])).
Proof.
  intros out.
  assert (Hrejected : ∀ msg, token_rejected (FindJWT r) msg → FindJWT r ≠ "" →
            out.1 = Returns tt ∧ rw_session (writer out.2) = [] ∧
            ((rw_status (writer out.2) = Some StatusUnauthorized ∧
              rw_cookie (writer out.2) = [ClearCookie]) ∨
             (status_sent (writer out.2) = StatusOK ∧ rw_cookie (writer out.2) = []))).
  { intros msg Hrej Hfound.
    destruct (validate_rejected r σ msg Hfound Hrej) as [Hret Hwriter].
    fold out in Hret, Hwriter. rewrite Hwriter. split; [exact Hret|].
    destruct (PublicAccess cfg); (split; [reflexivity|]);
      [right|left]; split; reflexivity. }
  destruct (decide (FindJWT r = "")) as [Hnone|Hfound].
  { destruct (validate_no_token r σ Hnone) as [Hret Hwriter].
    fold out in Hret, Hwriter. rewrite Hwriter. split; [exact Hret|].
    destruct (PublicAccess cfg); (split; [reflexivity|]);
      [right|left]; split; reflexivity. }
  destruct (ParseTokenString (FindJWT r)) as [tok [e|]] eqn:Hparse.
  { apply (Hrejected e); [left; exists tok; exact Hparse|exact Hfound]. }
  destruct (PTokenClaims tok) as [claims [e|]] eqn:Hclaims.
  { apply (Hrejected e); [|exact Hfound]. right. left. exists tok, claims. tauto. }
  destruct (decide (vc_Username claims = "")) as [Hempty|Huser].
  { apply (Hrejected "no Username found in jwt"); [|exact Hfound].
    right. right. exists tok, claims. tauto. }
  assert (Haccepted : AllowAllUsers cfg = true ∨ SiteInClaims (Host r) claims = true →
            out.1 = Returns tt ∧ rw_session (writer out.2) = [] ∧
            ((rw_status (writer out.2) = Some StatusUnauthorized ∧
              rw_cookie (writer out.2) = [ClearCookie]) ∨
             (status_sent (writer out.2) = StatusOK ∧ rw_cookie (writer out.2) = []))).
  { intros Hpass. subst out.
    rewrite (validate_reaches_accepted r σ tok claims) by assumption.
    match goal with
    | |- context [validate_accepted claims ?σ0] =>
        destruct (validate_accepted_full claims σ0)
          as (σ' & -> & Hstatus & Hcookie & Hsession & _)
    end.
    simpl in *. unfold status_sent. rewrite Hstatus, Hcookie, Hsession.
    split; [reflexivity|]. split; [reflexivity|]. right. split; reflexivity. }
  destruct (AllowAllUsers cfg) eqn:Hallow; [apply Haccepted; left; reflexivity|].
  destruct (SiteInClaims (Host r) claims) eqn:Hsite; [apply Haccepted; right; reflexivity|].
  subst out. unfold serve.
  rewrite (validate_parsed _ _ tok claims) by assumption.
  rewrite Hallow, Hsite. simpl.
  destruct (PublicAccess cfg); simpl; (split; [reflexivity|]); (split; [reflexivity|]);
    [right|left]; split; reflexivity.
Qed.

(** X9: an Authorization header that ends with its first space carries an
    empty token, and it stops the discovery: without a cookie token and a
    custom-header token, [/validate] answers such a request as one without a
    token, whatever token its query string holds. *)
Theorem validate_empty_authorization_token (r : Request) (σ : World) (j scheme : string)
    (e : error) :
  cookie_Cookie r = (j, Some e) →
  Header_Get (req_Header r) (hdr_JWT (Headers cfg)) = "" →
  Header_Get (req_Header r) "Authorization" = scheme +:+ " " →
  ¬ contains_byte " " scheme →
  let out := serve (ValidateRequestHandler r) σ in
  FindJWT r = "" ∧
  out.1 = Returns tt ∧
  writer out.2 =
    if PublicAccess cfg then
      mkResponseWriter (rw_header public_writer) (Some StatusOK) [Bytes ("200 OK" +:+ LF)] [] []
    else unauthorized_writer "no jwt found in request".
Proof.
  intros Hcookie Hheader Hauth Hfree out.
  assert (Hnone : FindJWT r = "").
  { unfold FindJWT. rewrite Hcookie, Hheader, Hauth.
    destruct (decide ("" ≠ "")) as [Hne|_]; [congruence|].
    destruct (decide (scheme +:+ " " ≠ "")) as [_|Hempty].
    - unfold SplitN2. change (scheme +:+ " ") with (scheme +:+ String " " "").
      rewrite cut_first by assumption. reflexivity.
    - exfalso. apply Hempty. destruct scheme; discriminate. }
  split; [exact Hnone|]. exact (validate_no_token r σ Hnone).
Qed.

(** ** More on [/auth] *)

Lemma iface_ne_string_false (v : option value) (s : string) :
  iface_ne_string v s = false ↔ v = Some (VString s).
Proof.
  destruct v as [[s'|n]|]; simpl.
  - destruct (decide (s' = s)) as [->|Hne].
    + rewrite bool_decide_false by (intros Hne; apply Hne; reflexivity). tauto.
    + rewrite bool_decide_true by assumption. split; [discriminate|]. intros [=]. contradiction.
  - split; discriminate.
  - split; discriminate.
Qed.

(** X10: a callback whose [state] parameter is not the nonce stored in the
    session (a session without a nonce included) is answered with the
    invalid-session-state page: the provider is not called, no cookie is set
    and no session is written. *)
Theorem callback_state_mismatch (r : Request) (σ : World) (values : gmap string value) :
  sessstore_Get r (Session_Name cfg) = (values, None) →
  values !! "state" ≠ Some (VString (Query_Get (URL_Query r) "state")) →
  let out := serve (CallbackHandler r) σ in
  out.1 = Returns tt ∧
  calls out.2 = [] ∧
  writer out.2 =
    mkResponseWriter ∅ (Some StatusOK)
      [IndexPage (mkIndex "/auth Invalid session state." (cfg_TestURLs σ) (cfg_Testing cfg))]
      [] [].
Proof.
  intros Hsession Hstate out. subst out.
  assert (Hne : iface_ne_string (values !! "state") (Query_Get (URL_Query r) "state") = true).
  { destruct (iface_ne_string _ _) eqn:Hcheck; [reflexivity|].
    apply iface_ne_string_false in Hcheck. contradiction. }
  unfold serve, CallbackHandler, renderIndex. rewrite Hsession, Hne.
  repeat split; reflexivity.
Qed.

(** X11: when the session cannot be loaded, the callback answers 500 with the
    error text and does nothing else. *)
Theorem callback_session_error (r : Request) (σ : World) (values : gmap string value)
    (e : error) :
  sessstore_Get r (Session_Name cfg) = (values, Some e) →
  let out := serve (CallbackHandler r) σ in
  out.1 = Returns tt ∧
  calls out.2 = [] ∧
  rw_status (writer out.2) = Some StatusInternalServerError ∧
  rw_body (writer out.2) = [Bytes (e +:+ LF)] ∧
  rw_cookie (writer out.2) = [] ∧
  rw_session (writer out.2) = [].
Proof.
  intros Hsession out. subst out. unfold serve, CallbackHandler. rewrite Hsession.
  repeat split; reflexivity.
Qed.

(** X12: when the provider's [GetUserInfo] fails, the callback answers 400
    with the error text: the policy is not run, no cookie is set and no
    session is written. *)
Theorem callback_userinfo_error (r : Request) (σ : World) (values : gmap string value)
    (filled : User * CustomClaims * PTokens) (e : error) :
  sessstore_Get r (Session_Name cfg) = (values, None) →
  values !! "state" = Some (VString (Query_Get (URL_Query r) "state")) →
  Query_Get (URL_Query r) "error" = "" →
  GetUserInfo r no_user no_claims no_tokens = (filled, Some e) →
  let out := serve (CallbackHandler r) σ in
  out.1 = Returns tt ∧
  calls out.2 = [CallGetUserInfo] ∧
  rw_status (writer out.2) = Some StatusBadRequest ∧
  rw_body (writer out.2) = [Bytes (e +:+ LF)] ∧
  rw_cookie (writer out.2) = [] ∧
  rw_session (writer out.2) = [].
Proof.
  intros Hsession Hstate Herror Hinfo out. subst out.
  apply iface_ne_string_false in Hstate.
  unfold serve, CallbackHandler, getUserInfo. rewrite Hsession, Hstate, Herror.
  destruct (decide ("" ≠ "")) as [Hne|_]; [congruence|].
  fold no_user no_claims no_tokens. rewrite Hinfo.
  destruct filled as [[user cc] pt]. repeat split; reflexivity.
Qed.

(** X13: when the policy denies the user, the callback renders the
    not-authorized page with the policy's error, and with a link back to the
    stored destination when there is one; it sets no cookie and writes no
    session, so the failure count of the destination stays. *)
Theorem callback_policy_denied (r : Request) (σ : World) (values : gmap string value)
    (user : User) (cc : CustomClaims) (pt : PTokens) (url : string) :
  sessstore_Get r (Session_Name cfg) = (values, None) →
  values !! "state" = Some (VString (Query_Get (URL_Query r) "state")) →
  Query_Get (URL_Query r) "error" = "" →
  GetUserInfo r no_user no_claims no_tokens = ((user, cc, pt), None) →
  ¬ Policy_permits (Policy_tier cfg) cfg user →
  values !! "requestedURL" = Some (VString url) →
  let out := serve (CallbackHandler r) σ in
  ∃ e,
    (VerifyUser user σ).1 = Returns (false, Some e) ∧
    out.1 = Returns tt ∧
    calls out.2 = [CallGetUserInfo; CallVerifyUser user false] ∧
    writer out.2 =
      mkResponseWriter ∅ (Some StatusOK)
        [IndexPage
           (mkIndex
              (if decide (url ≠ "") then
                 "/auth User is not authorized. " +:+ e +:+ " <a href=" +:+ DQUOTE +:+ url +:+
                 DQUOTE +:+ ">Please try again</a>."
               else "/auth User is not authorized. " +:+ e +:+ " Please try again.")
              (cfg_TestURLs σ) (cfg_Testing cfg))]
        [] [].
Proof.
  intros Hsession Hstate Herror Hinfo Hdenied Hurl out. subst out.
  apply iface_ne_string_false in Hstate.
  rewrite (callback_reaches_policy r σ values user cc pt url) by assumption.
  match goal with
  | |- context [mbind _ (VerifyUser user) ?σ1] =>
      destruct (VerifyUser_run user σ1) as (d & e & entries & Hrun & Hdecision & Herr);
      rewrite (bind_run _ _ _ _ _ Hrun);
      pose proof (VerifyUser_any_world user σ σ1) as Hsame; rewrite Hrun in Hsame
  end.
  destruct d; [exfalso; tauto|].
  destruct e as [e|]; [|exfalso; assert (false = true) by tauto; discriminate].
  exists e. split; [exact Hsame|].
  cbv beta iota. change (negb false) with true. cbv iota.
  unfold callback_denied, renderIndex, get_world, mbind, M_bind. rewrite Hurl. simpl.
  destruct (decide (url ≠ "")); simpl; repeat split; reflexivity.
Qed.

(** Every way a callback can end, as far as its result and the sessions it
    writes go. *)
Lemma CallbackHandler_sessions (r : Request) (σ : World) (values : gmap string value)
    (err : option error) :
  sessstore_Get r (Session_Name cfg) = (values, err) →
  let out := serve (CallbackHandler r) σ in
  (out.1 = Returns tt ∧ rw_session (writer out.2) = []) ∨
  (rw_session (writer out.2) = [] ∧
   (∃ q, values !! "state" = Some (VString q)) ∧
   ¬ ∃ u, values !! "requestedURL" = Some (VString u)) ∨
  (out.1 = Returns tt ∧
   ∃ u, values !! "requestedURL" = Some (VString u) ∧ u ≠ "" ∧
        ∀ saved, saved ∈ rw_session (writer out.2) →
                 saved = <[u := VInt 0]> (<["requestedURL" := VString ""]> values)).
Proof.
  intros Hsession.
  destruct err as [e|].
  { left. unfold serve, CallbackHandler. rewrite Hsession. split; reflexivity. }
  destruct (iface_ne_string (values !! "state") (Query_Get (URL_Query r) "state"))
    eqn:Hstate.
  { left. unfold serve, CallbackHandler, renderIndex. rewrite Hsession, Hstate.
    split; reflexivity. }
  destruct (decide (Query_Get (URL_Query r) "error" ≠ "")) as [Herror|Herror].
  { left. unfold serve, CallbackHandler, renderIndex. rewrite Hsession, Hstate.
    destruct (decide (Query_Get (URL_Query r) "error" ≠ "")); [|contradiction].
    split; reflexivity. }
  apply dec_stable in Herror.
  destruct (GetUserInfo r no_user no_claims no_tokens) as [[[user cc] pt] [e|]] eqn:Hinfo.
  { left. unfold serve, CallbackHandler, getUserInfo.
    rewrite Hsession, Hstate, Herror.
    destruct (decide ("" ≠ "")) as [Hne|_]; [congruence|].
    fold no_user no_claims no_tokens. rewrite Hinfo. split; reflexivity. }
  destruct (values !! "requestedURL") as [[url|n]|] eqn:Hurl.
  2,3: right; left; unfold serve, CallbackHandler, getUserInfo;
       rewrite Hsession, Hstate, Herror;
       (destruct (decide ("" ≠ "")) as [Hne|_]; [congruence|]);
       fold no_user no_claims no_tokens; rewrite Hinfo, Hurl;
       (split; [reflexivity|]);
       (split; [apply iface_ne_string_false in Hstate; eexists; exact Hstate|]);
       intros (u & [=]).
  intros out. subst out.
  rewrite (callback_reaches_policy r σ values user cc pt url) by assumption.
  match goal with
  | |- context [mbind _ (VerifyUser user) ?σ1] =>
      destruct (VerifyUser_run user σ1) as (d & e & entries & Hrun & _ & _);
      rewrite (bind_run _ _ _ _ _ Hrun)
  end.
  destruct d; simpl.
  - match goal with
    | |- context [callback_authorized r values user cc pt ?σ2] =>
        destruct (callback_authorized_run r values user cc pt url σ2 Hurl)
          as (σ' & -> & _ & _ & _ & _ & Hsaved & _)
    end.
    simpl in *. rewrite Hsaved.
    destruct (decide (url ≠ "")) as [Hknown|Hnone].
    + right. right. split; [reflexivity|]. exists url.
      split; [reflexivity|]. split; [exact Hknown|].
      intros saved Hin. destruct (session_Save_err r _); [inversion Hin|].
      apply list_elem_of_singleton in Hin. exact Hin.
    + left. split; reflexivity.
  - match goal with
    | |- context [callback_denied values e ?σ2] =>
        destruct (callback_denied_run values e url σ2 Hurl)
          as (σ' & -> & _ & _ & Hsaved)
    end.
    simpl in *. rewrite Hsaved. left. split; reflexivity.
Qed.

(** X14: on a session of the shape the handlers write, the callback never
    panics, and every session it writes has that shape again. *)
Theorem callback_keeps_session_shape (r : Request) (σ : World)
    (values : gmap string value) (err : option error) :
  sessstore_Get r (Session_Name cfg) = (values, err) →
  session_ok values →
  let out := serve (CallbackHandler r) σ in
  out.1 = Returns tt ∧
  ∀ saved, saved ∈ rw_session (writer out.2) → session_ok saved.
Proof.
  intros Hsession (Hcounts & Hstate & Hdest & Hboth) out.
  destruct (CallbackHandler_sessions r σ values err Hsession)
    as [[Hret Hnone]|[(Hnone & (q & Hq) & Hmissing)|(Hret & u & Hu & Hknown & Hsaved)]];
    fold out in Hret || fold out in Hnone.
  - fold out in Hnone. split; [exact Hret|]. rewrite Hnone. intros saved Hin. inversion Hin.
  - exfalso. apply Hmissing.
    destruct Hdest as [Hno|(u & Hu & _)]; [|exists u; exact Hu].
    exfalso. apply Hboth; [rewrite Hq; discriminate|exact Hno].
  - fold out in Hsaved. split; [exact Hret|]. intros saved Hin.
    rewrite (Hsaved saved Hin).
    destruct Hdest as [Hno|(u' & Hu' & Hu1 & Hu2)]; [congruence|].
    assert (u' = u) as -> by congruence.
    repeat split.
    + intros k Hk1 Hk2. destruct (decide (u = k)) as [->|Hne].
      * right. exists 0. apply lookup_insert_eq.
      * rewrite !lookup_insert_ne by congruence. apply Hcounts; assumption.
    + rewrite !lookup_insert_ne by congruence. exact Hstate.
    + right. exists "". rewrite lookup_insert_ne by congruence.
      rewrite lookup_insert_eq. repeat split; discriminate.
    + intros _. rewrite lookup_insert_ne by congruence.
      rewrite lookup_insert_eq. discriminate.
Qed.

(** ** More on [/login] *)

Lemma wrap_int_small (z : Z) : int_min ≤ z ≤ int_max → wrap_int z = z.
Proof.
  unfold wrap_int, int_min, int_max.
  change (2 ^ 63) with 9223372036854775808.
  change (2 ^ 64) with 18446744073709551616.
  intros Hrange. rewrite Z.mod_small by lia. lia.
Qed.

(** [/login] without a destination. *)
Lemma login_no_destination_run (r : Request) (σ : World) :
  Query_Get (URL_Query r) "url" = "" →
  let out := serve (LoginHandler r) σ in
  out.1 = Returns tt ∧
  writer out.2 =
    mkResponseWriter ∅ (Some StatusOK)
      [IndexPage (mkIndex "/login no destination URL requested" (cfg_TestURLs σ)
                    (cfg_Testing cfg))]
      [ClearCookie] [] ∧
  calls out.2 = [] ∧
  rng_next out.2 = S (rng_next σ).
Proof.
  intros Hurl out. subst out.
  destruct (sessstore_Get r (Session_Name cfg)) as [values err0] eqn:Hsession.
  destruct (rng σ (rng_next σ)) as [random rerr] eqn:Hrng.
  unfold serve, LoginHandler, renderIndex. rewrite Hsession, Hurl.
  destruct (decide ("" = "")) as [_|Hne]; [|contradiction].
  destruct err0 as [e0|];
    (erewrite bind_run by reflexivity);
    (erewrite bind_run by reflexivity);
    (erewrite (bind_run generateStateNonce) by (apply generateStateNonce_run; exact Hrng));
    cbv beta iota;
    destruct rerr as [re|];
    (erewrite bind_run by reflexivity);
    repeat split; reflexivity.
Qed.

(** The second half of [/login] when the session holds a string under the
    destination: the type assertion to [int] panics, and nothing is done. *)
Lemma login_destination_panics (r : Request) (state : string) (values : gmap string value)
    (url s : string) (σ : World) :
  <["requestedURL" := VString url]> values !! url = Some (VString s) →
  login_destination r state values url σ =
    (Panics "interface conversion: interface {} is string, not int", σ).
Proof.
  intros Hstring. unfold login_destination. cbv zeta. rewrite Hstring. reflexivity.
Qed.

(** The first half of [/login], with what it leaves in the world. *)
Lemma login_prefix_run (r : Request) (σ : World) (values : gmap string value)
    (err0 : option error) (url random : string) (rerr : option error) :
  sessstore_Get r (Session_Name cfg) = (values, err0) →
  rng σ (rng_next σ) = (random, rerr) →
  Query_Get (URL_Query r) "url" = url →
  url ≠ "" →
  let state := match rerr with Some _ => "" | None => stripNonAlphaNum random end in
  ∃ σ1, serve (LoginHandler r) σ =
          login_destination r state (<["state" := VString state]> values) url σ1 ∧
        writer σ1 = mkResponseWriter ∅ None [] [ClearCookie] [] ∧
        calls σ1 = [] ∧
        cfg_TestURLs σ1 = cfg_TestURLs σ.
Proof.
  intros Hsession Hrng Hurl Hknown state. subst state.
  unfold serve, LoginHandler. rewrite Hsession, Hurl.
  destruct (decide (url = "")) as [Hnone|_]; [contradiction|].
  destruct err0 as [e0|];
    (erewrite bind_run by reflexivity);
    (erewrite bind_run by reflexivity);
    (erewrite (bind_run generateStateNonce) by (apply generateStateNonce_run; exact Hrng));
    cbv beta iota;
    destruct rerr as [re|];
    (erewrite bind_run by reflexivity);
    eexists; (split; [reflexivity|]); simpl; repeat split; reflexivity.
Qed.

(** X15: [/login] without a [url] parameter clears the proof cookie and
    renders the no-destination page with status 200; it takes a state from the
    random source but writes no session, so that state is dropped. *)
Theorem login_without_destination (r : Request) (σ : World) :
  Query_Get (URL_Query r) "url" = "" →
  let out := serve (LoginHandler r) σ in
  out.1 = Returns tt ∧
  writer out.2 =
    mkResponseWriter ∅ (Some StatusOK)
      [IndexPage (mkIndex "/login no destination URL requested" (cfg_TestURLs σ)
                    (cfg_Testing cfg))]
      [ClearCookie] [] ∧
  rng_next out.2 = S (rng_next σ).
Proof.
  intros Hurl out.
  destruct (login_no_destination_run r σ Hurl) as (Hret & Hwriter & _ & Hrng).
  split; [exact Hret|]. split; [exact Hwriter|exact Hrng].
Qed.

(** X16: [/login] for the destination [state] or [requestedURL] panics: the
    session stores a string under that key, which the handler reads as the
    failure count. The proof cookie is cleared, and nothing else is written:
    no status, no body, no session. *)
Theorem login_reserved_destination (r : Request) (σ : World) :
  Query_Get (URL_Query r) "url" = "state" ∨ Query_Get (URL_Query r) "url" = "requestedURL" →
  let out := serve (LoginHandler r) σ in
  out.1 = Panics "interface conversion: interface {} is string, not int" ∧
  writer out.2 = mkResponseWriter ∅ None [] [ClearCookie] [].
Proof.
  intros Hurl out. subst out.
  destruct (sessstore_Get r (Session_Name cfg)) as [values err0] eqn:Hsession.
  destruct (rng σ (rng_next σ)) as [random rerr] eqn:Hrng.
  destruct Hurl as [Hurl|Hurl].
  - destruct (login_prefix_run r σ values err0 "state" random rerr Hsession Hrng Hurl)
      as (σ1 & Hrun & Hwriter & _); [discriminate|].
    rewrite Hrun.
    erewrite login_destination_panics
      by (rewrite lookup_insert_ne by discriminate; apply lookup_insert_eq).
    split; [reflexivity|exact Hwriter].
  - destruct (login_prefix_run r σ values err0 "requestedURL" random rerr Hsession Hrng Hurl)
      as (σ1 & Hrun & Hwriter & _); [discriminate|].
    rewrite Hrun.
    erewrite login_destination_panics by apply lookup_insert_eq.
    split; [reflexivity|exact Hwriter].
Qed.

(** X17: once the session holds a failure count of 2 or more for the
    destination, every further [/login] for it renders the too-many-redirects
    page, in testing mode too, and saves the count incremented: only a
    successful callback lets the user through again. *)
Theorem login_guard_persists (r : Request) (σ : World) (values : gmap string value)
    (err0 : option error) (url : string) (count : Z) :
  sessstore_Get r (Session_Name cfg) = (values, err0) →
  Query_Get (URL_Query r) "url" = url →
  url ≠ "" → url ≠ "state" → url ≠ "requestedURL" →
  values !! url = Some (VInt count) →
  2 ≤ count < int_max →
  let out := serve (LoginHandler r) σ in
  out.1 = Returns tt ∧
  rw_status (writer out.2) = Some StatusOK ∧
  rw_body (writer out.2) =
    [IndexPage (mkIndex ("/login too many redirects for " +:+ url +:+ " - " +:+
                         Query_Get (URL_Query r) "error")
                  (cfg_TestURLs σ) (cfg_Testing cfg))] ∧
  ∀ saved, saved ∈ rw_session (writer out.2) → saved !! url = Some (VInt (count + 1)).
Proof.
  intros Hsession Hurl Hknown Hstate Hdest Hcount Hrange out.
  destruct (rng σ (rng_next σ)) as [random rerr] eqn:Hrng.
  destruct (LoginHandler_run r σ values err0 url random rerr count
              Hsession Hrng Hurl Hknown Hstate Hdest (or_intror Hcount))
    as (Hret & _ & Hsaved & _ & Hpage).
  fold out in Hret, Hsaved, Hpage.
  assert (Hwrap : wrap_int (count + 1) = count + 1).
  { apply wrap_int_small. unfold int_min, int_max in *.
    change (2 ^ 63) with 9223372036854775808 in *. lia. }
  rewrite Hwrap in Hsaved, Hpage.
  destruct (decide (count + 1 > 2)) as [_|Hfew]; [|lia].
  destruct Hpage as [Hstatus Hbody].
  split; [exact Hret|]. split; [exact Hstatus|]. split; [exact Hbody|].
  intros saved Hin. rewrite Hsaved in Hin.
  destruct (session_Save_err r _); [inversion Hin|].
  apply list_elem_of_singleton in Hin. subst saved. apply lookup_insert_eq.
Qed.

(** X18: on a session of the shape the handlers write, [/login] returns
    unless the destination is [state] or [requestedURL], and every session it
    writes has that shape again. *)
Theorem login_keeps_session_shape (r : Request) (σ : World) (values : gmap string value)
    (err0 : option error) :
  sessstore_Get r (Session_Name cfg) = (values, err0) →
  session_ok values →
  let url := Query_Get (URL_Query r) "url" in
  let out := serve (LoginHandler r) σ in
  (out.1 = Returns tt ↔ url ≠ "state" ∧ url ≠ "requestedURL") ∧
  ∀ saved, saved ∈ rw_session (writer out.2) → session_ok saved.
Proof.
  intros Hsession (Hcounts & Hstate & Hdest & Hboth) url out.
  destruct (decide (url = "")) as [Hnone|Hknown].
  { destruct (login_no_destination_run r σ Hnone) as (Hret & Hwriter & _).
    fold out in Hret, Hwriter. rewrite Hret, Hwriter. simpl. split.
    - split; [intros _|reflexivity]. rewrite Hnone. split; discriminate.
    - intros saved Hin. inversion Hin. }
  destruct (rng σ (rng_next σ)) as [random rerr] eqn:Hrng.
  destruct (decide (url = "state")) as [Hs|Hs];
    [|destruct (decide (url = "requestedURL")) as [Hd|Hd]].
  - destruct (login_prefix_run r σ values err0 url random rerr Hsession Hrng eq_refl Hknown)
      as (σ1 & Hrun & Hwriter & _).
    subst out. rewrite Hrun.
    erewrite login_destination_panics
      by (rewrite Hs; rewrite lookup_insert_ne by discriminate; apply lookup_insert_eq).
    simpl. rewrite Hwriter. simpl. split.
    + split; [discriminate|]. intros [Habs _]. contradiction.
    + intros saved Hin. inversion Hin.
  - destruct (login_prefix_run r σ values err0 url random rerr Hsession Hrng eq_refl Hknown)
      as (σ1 & Hrun & Hwriter & _).
    subst out. rewrite Hrun.
    erewrite login_destination_panics by (rewrite Hd; apply lookup_insert_eq).
    simpl. rewrite Hwriter. simpl. split.
    + split; [discriminate|]. intros [_ Habs]. contradiction.
    + intros saved Hin. inversion Hin.
  - assert (Hcount : ∃ count, (values !! url = None ∧ count = 0) ∨
                              values !! url = Some (VInt count)).
    { destruct (Hcounts url Hs Hd) as [Hno|(n & Hn)];
        [exists 0; left; split; [exact Hno|reflexivity]|exists n; right; exact Hn]. }
    destruct Hcount as (count & Hcount).
    destruct (LoginHandler_run r σ values err0 url random rerr count
                Hsession Hrng eq_refl Hknown Hs Hd Hcount)
      as (Hret & _ & Hsaved & _).
    fold out in Hret, Hsaved. split; [tauto|].
    intros saved Hin. rewrite Hsaved in Hin.
    destruct (session_Save_err r _); [inversion Hin|].
    apply list_elem_of_singleton in Hin. subst saved.
    repeat split.
    + intros k Hk1 Hk2. destruct (decide (url = k)) as [<-|Hne].
      * right. eexists. apply lookup_insert_eq.
      * rewrite !lookup_insert_ne by congruence. apply Hcounts; assumption.
    + right. eexists. rewrite !lookup_insert_ne by congruence. apply lookup_insert_eq.
    + right. exists url. rewrite lookup_insert_ne by congruence.
      rewrite lookup_insert_eq. repeat split; assumption.
    + intros _. rewrite lookup_insert_ne by congruence.
      rewrite lookup_insert_eq. discriminate.
Qed.

(** X19: whatever the request and the session, [/login] clears the proof
    cookie once and never sets it, and writes at most one session; when it
    panics, it has written no status, no body and no session. *)
Theorem login_cookie_discipline (r : Request) (σ : World) :
  let out := serve (LoginHandler r) σ in
  rw_cookie (writer out.2) = [ClearCookie] ∧
  (List.length (rw_session (writer out.2)) ≤ 1)%nat ∧
  (∀ msg, out.1 = Panics msg →
          rw_status (writer out.2) = None ∧ rw_body (writer out.2) = [] ∧
          rw_session (writer out.2) = []).
Proof.
  intros out.
  destruct (decide (Query_Get (URL_Query r) "url" = "")) as [Hnone|Hknown].
  { destruct (login_no_destination_run r σ Hnone) as (Hret & Hwriter & _).
    fold out in Hret, Hwriter. rewrite Hret, Hwriter. simpl.
    split; [reflexivity|]. split; [lia|]. intros msg [=]. }
  destruct (sessstore_Get r (Session_Name cfg)) as [values err0] eqn:Hsession.
  destruct (rng σ (rng_next σ)) as [random rerr] eqn:Hrng.
  set (url := Query_Get (URL_Query r) "url") in *.
  set (state := match rerr with Some _ => "" | None => stripNonAlphaNum random end).
  destruct (<["requestedURL" := VString url]> (<["state" := VString state]> values) !! url)
    as [[s|count]|] eqn:Hlookup.
  - destruct (login_prefix_run r σ values err0 url random rerr Hsession Hrng eq_refl Hknown)
      as (σ1 & Hrun & Hwriter & _).
    fold state in Hrun. subst out. rewrite Hrun.
    rewrite (login_destination_panics r state _ url s σ1 Hlookup). simpl.
    rewrite Hwriter. simpl. split; [reflexivity|]. split; [lia|]. intros msg _. tauto.
  - assert (Hd : url ≠ "requestedURL").
    { intros Heq. rewrite Heq, lookup_insert_eq in Hlookup. discriminate. }
    rewrite lookup_insert_ne in Hlookup by congruence.
    assert (Hs : url ≠ "state").
    { intros Heq. rewrite Heq, lookup_insert_eq in Hlookup. discriminate. }
    rewrite lookup_insert_ne in Hlookup by congruence.
    destruct (LoginHandler_run r σ values err0 url random rerr count
                Hsession Hrng eq_refl Hknown Hs Hd (or_intror Hlookup))
      as (Hret & Hcookie & Hsaved & _).
    fold out in Hret, Hcookie, Hsaved. rewrite Hret, Hcookie, Hsaved.
    split; [reflexivity|]. split; [destruct (session_Save_err r _); simpl; lia|].
    intros msg [=].
  - assert (Hd : url ≠ "requestedURL").
    { intros Heq. rewrite Heq, lookup_insert_eq in Hlookup. discriminate. }
    rewrite lookup_insert_ne in Hlookup by congruence.
    assert (Hs : url ≠ "state").
    { intros Heq. rewrite Heq, lookup_insert_eq in Hlookup. discriminate. }
    rewrite lookup_insert_ne in Hlookup by congruence.
    destruct (LoginHandler_run r σ values err0 url random rerr 0
                Hsession Hrng eq_refl Hknown Hs Hd (or_introl (conj Hlookup eq_refl)))
      as (Hret & Hcookie & Hsaved & _).
    fold out in Hret, Hcookie, Hsaved. rewrite Hret, Hcookie, Hsaved.
    split; [reflexivity|]. split; [destruct (session_Save_err r _); simpl; lia|].
    intros msg [=].
Qed.

(** ** The handlers together *)

(** A callback that the policy permits, with all it writes. *)
Lemma callback_permitted_run (r : Request) (σ : World) (values : gmap string value)
    (user : User) (cc : CustomClaims) (pt : PTokens) (url : string) :
  sessstore_Get r (Session_Name cfg) = (values, None) →
  values !! "state" = Some (VString (Query_Get (URL_Query r) "state")) →
  Query_Get (URL_Query r) "error" = "" →
  GetUserInfo r no_user no_claims no_tokens = ((user, cc, pt), None) →
  Policy_permits (Policy_tier cfg) cfg user →
  values !! "requestedURL" = Some (VString url) →
  let out := serve (CallbackHandler r) σ in
  let tok := CreateUserTokenString user cc pt in
  let saved := <[url := VInt 0]> (<["requestedURL" := VString ""]> values) in
  out.1 = Returns tt ∧
  rw_cookie (writer out.2) = [SetCookie tok] ∧
  rw_session (writer out.2) =
    (if decide (url ≠ "") then
       match session_Save_err r saved with Some _ => [] | None => [saved] end
     else []) ∧
  rw_status (writer out.2) =
    Some (if decide (url ≠ "") then if cfg_Testing cfg then StatusOK else StatusFound
          else StatusOK) ∧
  rw_body (writer out.2) =
    [if decide (url ≠ "") then
       if cfg_Testing cfg then
         IndexPage (mkIndex ("302 redirect to: " +:+ url) (cfg_TestURLs σ ++ [url]) true)
       else RedirectTo url
     else IndexPage (mkIndex ("/auth " +:+ tok) (cfg_TestURLs σ) (cfg_Testing cfg))].
Proof.
  intros Hsession Hstate Herror Hinfo Hpermits Hurl out tok saved. subst out.
  apply iface_ne_string_false in Hstate.
  rewrite (callback_reaches_policy r σ values user cc pt url) by assumption.
  match goal with
  | |- context [mbind _ (VerifyUser user) ?σ1] =>
      destruct (VerifyUser_run user σ1) as (d & e & entries & Hrun & Hdecision & _);
      rewrite (bind_run _ _ _ _ _ Hrun)
  end.
  assert (d = true) as -> by tauto. cbv beta iota.
  change (negb true) with false. cbv iota.
  match goal with
  | |- context [callback_authorized r values user cc pt ?σ2] =>
      destruct (callback_authorized_run r values user cc pt url σ2 Hurl)
        as (σ' & -> & _ & Hcookie & _ & Hstatus & Hsaved & Hbody)
  end.
  simpl in Hcookie, Hstatus, Hsaved, Hbody. simpl fst. simpl snd.
  rewrite Hcookie, Hstatus, Hsaved, Hbody. repeat split; reflexivity.
Qed.

(** A callback that passes the session, state and error checks calls the
    provider first. *)
Lemma callback_calls_provider (r : Request) (σ : World) (values : gmap string value) :
  sessstore_Get r (Session_Name cfg) = (values, None) →
  values !! "state" = Some (VString (Query_Get (URL_Query r) "state")) →
  Query_Get (URL_Query r) "error" = "" →
  ∃ rest, calls (serve (CallbackHandler r) σ).2 = CallGetUserInfo :: rest.
Proof.
  intros Hsession Hstate Herror. apply iface_ne_string_false in Hstate.
  destruct (GetUserInfo r no_user no_claims no_tokens) as [[[user cc] pt] [e|]] eqn:Hinfo.
  { exists []. unfold serve, CallbackHandler, getUserInfo.
    rewrite Hsession, Hstate, Herror.
    destruct (decide ("" ≠ "")) as [Hne|_]; [congruence|].
    fold no_user no_claims no_tokens. rewrite Hinfo. reflexivity. }
  destruct (values !! "requestedURL") as [[url|n]|] eqn:Hurl.
  2,3: exists []; unfold serve, CallbackHandler, getUserInfo;
       rewrite Hsession, Hstate, Herror;
       (destruct (decide ("" ≠ "")) as [Hne|_]; [congruence|]);
       fold no_user no_claims no_tokens; rewrite Hinfo, Hurl; reflexivity.
  rewrite (callback_reaches_policy r σ values user cc pt url) by assumption.
  match goal with
  | |- context [mbind _ (VerifyUser user) ?σ1] =>
      destruct (VerifyUser_run user σ1) as (d & e & entries & Hrun & _ & _);
      rewrite (bind_run _ _ _ _ _ Hrun)
  end.
  destruct d; simpl.
  - match goal with
    | |- context [callback_authorized r values user cc pt ?σ2] =>
        destruct (callback_authorized_run r values user cc pt url σ2 Hurl)
          as (σ' & -> & Hcalls & _)
    end.
    simpl in *. rewrite Hcalls. eexists. reflexivity.
  - match goal with
    | |- context [callback_denied values e ?σ2] =>
        destruct (callback_denied_run values e url σ2 Hurl) as (σ' & -> & Hcalls & _)
    end.
    simpl in *. rewrite Hcalls. eexists. reflexivity.
Qed.

(** X20: a successful callback re-opens the redirect-loop guard: the next
    [/login] for the same destination, in the session the callback saved,
    counts from zero again and is answered with a 302 redirect (testing mode
    off), whatever the failure count was before. *)
Theorem login_after_success_redirects (r r2 : Request) (σ : World)
    (values : gmap string value) (user : User) (cc : CustomClaims) (pt : PTokens)
    (url : string) :
  sessstore_Get r (Session_Name cfg) = (values, None) →
  values !! "state" = Some (VString (Query_Get (URL_Query r) "state")) →
  Query_Get (URL_Query r) "error" = "" →
  GetUserInfo r no_user no_claims no_tokens = ((user, cc, pt), None) →
  Policy_permits (Policy_tier cfg) cfg user →
  values !! "requestedURL" = Some (VString url) →
  url ≠ "" → url ≠ "state" → url ≠ "requestedURL" →
  cfg_Testing cfg = false →
  let out := serve (CallbackHandler r) σ in
  carries_session r2 (writer out.2) →
  Query_Get (URL_Query r2) "url" = url →
  let out2 := serve (LoginHandler r2) out.2 in
  out2.1 = Returns tt ∧
  rw_status (writer out2.2) = Some StatusFound ∧
  (∃ lURL, rw_body (writer out2.2) = [RedirectTo lURL]) ∧
  ∀ saved, saved ∈ rw_session (writer out2.2) → saved !! url = Some (VInt 1).
Proof.
  intros Hsession Hstate Herror Hinfo Hpermits Hurl Hknown Hs Hd Htesting out
    Hcarry Hurl2 out2.
  destruct (callback_permitted_run r σ values user cc pt url
              Hsession Hstate Herror Hinfo Hpermits Hurl) as (_ & _ & Hsaved & _).
  fold out in Hsaved.
  destruct (decide (url ≠ "")) as [_|Habs]; [|contradiction].
  destruct Hcarry as (values2 & Hlast & Hsession2).
  rewrite Hsaved in Hlast.
  destruct (session_Save_err r _); [discriminate Hlast|].
  injection Hlast as <-.
  destruct (rng out.2 (rng_next out.2)) as [random rerr] eqn:Hrng.
  destruct (LoginHandler_run r2 out.2 _ None url random rerr 0
              Hsession2 Hrng Hurl2 Hknown Hs Hd (or_intror (lookup_insert_eq _ _ _)))
    as (Hret & _ & Hsaved2 & _ & Hpage).
  fold out2 in Hret, Hsaved2, Hpage.
  change (wrap_int (0 + 1)) with 1 in Hsaved2, Hpage.
  destruct (decide (1 > 2)) as [Habs|_]; [discriminate Habs|].
  destruct Hpage as (redirectURL & opts & Hpage). rewrite Htesting in Hpage.
  split; [exact Hret|]. split; [apply Hpage|]. split; [eexists; apply Hpage|].
  intros saved Hin. rewrite Hsaved2 in Hin.
  destruct (session_Save_err r2 _); [inversion Hin|].
  apply list_elem_of_singleton in Hin. subst saved. apply lookup_insert_eq.
Qed.

(** X21: the nonce survives a successful callback: a second callback with
    the same [state], in the session the first one saved, passes the state
    check again; if the provider answers and the policy permits, it sets a
    proof cookie and, the destination being cleared, renders the page with the
    token. *)
Theorem callback_replay_accepted (r r2 : Request) (σ : World)
    (values : gmap string value) (user user2 : User) (cc cc2 : CustomClaims)
    (pt pt2 : PTokens) (url : string) :
  sessstore_Get r (Session_Name cfg) = (values, None) →
  values !! "state" = Some (VString (Query_Get (URL_Query r) "state")) →
  Query_Get (URL_Query r) "error" = "" →
  GetUserInfo r no_user no_claims no_tokens = ((user, cc, pt), None) →
  Policy_permits (Policy_tier cfg) cfg user →
  values !! "requestedURL" = Some (VString url) →
  url ≠ "" → url ≠ "state" → url ≠ "requestedURL" →
  let out := serve (CallbackHandler r) σ in
  carries_session r2 (writer out.2) →
  Query_Get (URL_Query r2) "state" = Query_Get (URL_Query r) "state" →
  Query_Get (URL_Query r2) "error" = "" →
  GetUserInfo r2 no_user no_claims no_tokens = ((user2, cc2, pt2), None) →
  Policy_permits (Policy_tier cfg) cfg user2 →
  let out2 := serve (CallbackHandler r2) out.2 in
  out2.1 = Returns tt ∧
  rw_cookie (writer out2.2) = [SetCookie (CreateUserTokenString user2 cc2 pt2)] ∧
  rw_body (writer out2.2) =
    [IndexPage (mkIndex ("/auth " +:+ CreateUserTokenString user2 cc2 pt2)
                  (cfg_TestURLs out.2) (cfg_Testing cfg))].
Proof.
  intros Hsession Hstate Herror Hinfo Hpermits Hurl Hknown Hs Hd out
    Hcarry Hstate2 Herror2 Hinfo2 Hpermits2 out2.
  destruct (callback_permitted_run r σ values user cc pt url
              Hsession Hstate Herror Hinfo Hpermits Hurl) as (_ & _ & Hsaved & _).
  fold out in Hsaved.
  destruct (decide (url ≠ "")) as [_|Habs]; [|contradiction].
  destruct Hcarry as (values2 & Hlast & Hsession2).
  rewrite Hsaved in Hlast.
  destruct (session_Save_err r _); [discriminate Hlast|].
  injection Hlast as <-.
  assert (Hnonce : <[url := VInt 0]> (<["requestedURL" := VString ""]> values) !! "state" =
                   Some (VString (Query_Get (URL_Query r2) "state"))).
  { rewrite !lookup_insert_ne by congruence. rewrite Hstate2. exact Hstate. }
  assert (Hcleared : <[url := VInt 0]> (<["requestedURL" := VString ""]> values)
                       !! "requestedURL" = Some (VString "")).
  { rewrite lookup_insert_ne by congruence. apply lookup_insert_eq. }
  destruct (callback_permitted_run r2 out.2 _ user2 cc2 pt2 ""
              Hsession2 Hnonce Herror2 Hinfo2 Hpermits2 Hcleared)
    as (Hret & Hcookie & _ & _ & Hbody).
  fold out2 in Hret, Hcookie, Hbody.
  destruct (decide ("" ≠ "")) as [Hne|_]; [congruence|].
  split; [exact Hret|]. split; [exact Hcookie|exact Hbody].
Qed.

(** X22: the empty state that [/login] stores when the random source fails
    is matched by a callback that carries no [state] parameter at all: in the
    session of such a login, the callback passes the state check and calls the
    provider. *)
Theorem callback_matches_empty_state (r r2 : Request) (σ : World)
    (values : gmap string value) (err0 : option error) (url random : string) (e : error) :
  sessstore_Get r (Session_Name cfg) = (values, err0) →
  rng σ (rng_next σ) = (random, Some e) →
  Query_Get (URL_Query r) "url" = url →
  url ≠ "" → url ≠ "state" → url ≠ "requestedURL" →
  values !! url = None ∨ (∃ n, values !! url = Some (VInt n)) →
  let out := serve (LoginHandler r) σ in
  carries_session r2 (writer out.2) →
  Query_Get (URL_Query r2) "state" = "" →
  Query_Get (URL_Query r2) "error" = "" →
  ∃ rest, calls (serve (CallbackHandler r2) out.2).2 = CallGetUserInfo :: rest.
Proof.
  intros Hsession Hrng Hurl Hknown Hs Hd Hcount out Hcarry Hstate2 Herror2.
  assert (Hcount' : ∃ count, (values !! url = None ∧ count = 0) ∨
                             values !! url = Some (VInt count)).
  { destruct Hcount as [Hno|(n & Hn)];
      [exists 0; left; split; [exact Hno|reflexivity]|exists n; right; exact Hn]. }
  destruct Hcount' as (count & Hcount').
  destruct (LoginHandler_run r σ values err0 url random (Some e) count
              Hsession Hrng Hurl Hknown Hs Hd Hcount') as (_ & _ & Hsaved & _).
  fold out in Hsaved.
  destruct Hcarry as (values2 & Hlast & Hsession2).
  rewrite Hsaved in Hlast.
  destruct (session_Save_err r _); [discriminate Hlast|].
  injection Hlast as <-.
  apply (callback_calls_provider r2 out.2 _ Hsession2); [|exact Herror2].
  rewrite !lookup_insert_ne by congruence. rewrite lookup_insert_eq, Hstate2. reflexivity.
Qed.

(** ** [/logout] *)

(** X23: [/logout] returns for every request, whatever the store's age was:
    it clears the proof cookie, reads the session under the age -1 and saves
    what it read even when reading failed, leaves the store at the age 300,
    and goes through [redirect302] to the [url] parameter as it is given, or
    renders the logged-out page when there is none. *)
Theorem logout_always (r : Request) (MaxAge : Z) (σ : World) :
  let out := serve_with (LogoutHandler r MaxAge) σ in
  let read := sessstore_Get_at (-1) r (Session_Name cfg) in
  let url := Query_Get (URL_Query r) "url" in
  out.1 = Returns 300 ∧
  rw_cookie (writer out.2) = [ClearCookie] ∧
  calls out.2 = [] ∧
  rw_session (writer out.2) =
    match session_Save_err_at (-1) r read.1 with Some _ => [] | None => [read.1] end ∧
  rw_status (writer out.2) =
    Some (if decide (url ≠ "") then if cfg_Testing cfg then StatusOK else StatusFound
          else StatusOK) ∧
  rw_body (writer out.2) =
    [if decide (url ≠ "") then
       if cfg_Testing cfg then
         IndexPage (mkIndex ("302 redirect to: " +:+ url) (cfg_TestURLs σ ++ [url]) true)
       else RedirectTo url
     else IndexPage (mkIndex "/logout you have been logged out" (cfg_TestURLs σ)
                       (cfg_Testing cfg))].
Proof.
  intros out read url. subst out read url.
  unfold serve_with, LogoutHandler, session_Save_at, redirect302, renderIndex, http_Redirect,
    get_world, mbind, M_bind.
  destruct (sessstore_Get_at (-1) r (Session_Name cfg)) as [values [e|]]; simpl;
    destruct (session_Save_err_at (-1) r values) as [se|]; simpl;
    destruct (decide (Query_Get (URL_Query r) "url" ≠ "")); simpl;
    destruct (cfg_Testing cfg); simpl; repeat split; reflexivity.
Qed.

End Handlers.

(** ** The theorems on the reference collaborators *)

Section OnReference.
Import Reference.
#[local] Existing Instance textproto.
#[local] Existing Instance cookies.
#[local] Existing Instance sessions.
#[local] Existing Instance jwtmanager.
#[local] Existing Instance domains.
#[local] Existing Instance provider.
#[local] Existing Instance oauth2.
#[local] Existing Instance fmt.

Lemma no_space_in_Token : ¬ contains_byte " " "Token".
Proof. exact (cut_spec " " "Token"). Defined.

(** The Authorization header [Token jwt:alice] yields the token [jwt:alice],
    although its scheme is not [Bearer] and the query string carries another
    token. *)
Lemma FindJWT_Authorization_header_witness :
  cookie_Cookie (r_authorization "Token jwt:alice") =
    ("", Some "http: named cookie not present") ∧
  Header_Get (req_Header (r_authorization "Token jwt:alice"))
    (hdr_JWT (Headers (config false false))) = "" ∧
  FindJWT (config false false) (r_authorization "Token jwt:alice") = "jwt:alice".
Proof.
  split; [reflexivity|]. split; [reflexivity|].
  exact (proj1 (FindJWT_Authorization_header (config false false)
                  (r_authorization "Token jwt:alice") ""
                  "http: named cookie not present" eq_refl eq_refl)
           "Token" "jwt:alice" no_space_in_Token eq_refl).
Defined.

(** A valid token for [a.example.com], presented at [a.example.com]. *)
Lemma validate_checks_site_witness :
  FindJWT (config false false) (r_cookie "a.example.com" "jwt:alice") ≠ "" ∧
  AllowAllUsers (config false false) = false ∧
  SiteInClaims "a.example.com" (claims_of "alice") = true ∧
  (serve (ValidateRequestHandler (config false false) (r_cookie "a.example.com" "jwt:alice"))
     (world rand_ok)).1 = Returns tt ∧
  header_has
    (writer (serve (ValidateRequestHandler (config false false)
                      (r_cookie "a.example.com" "jwt:alice")) (world rand_ok)).2)
    "X-Vouch-User" "alice" ∧
  header_has
    (writer (serve (ValidateRequestHandler (config false false)
                      (r_cookie "a.example.com" "jwt:alice")) (world rand_ok)).2)
    "X-Vouch-Success" "true".
Proof.
  assert (Hfound : FindJWT (config false false) (r_cookie "a.example.com" "jwt:alice") ≠ "")
    by (vm_compute; discriminate).
  assert (Huser : vc_Username (claims_of "alice") ≠ "") by (vm_compute; discriminate).
  destruct (validate_checks_site (pkg_jwtmanager := jwtmanager)
              (config false false) (r_cookie "a.example.com" "jwt:alice")
              (world rand_ok) "alice" (claims_of "alice")
              Hfound eq_refl eq_refl Huser eq_refl) as (Hret & Haccepted & _ & _).
  destruct (Haccepted eq_refl) as (Hidentity & Hsuccess & _ & _).
  split; [exact Hfound|]. split; [reflexivity|]. split; [reflexivity|].
  split; [exact Hret|]. split; [exact Hidentity|exact Hsuccess].
Defined.

(** Scenario E, and the claim [address], a JSON object: the first gives the
    header of quoted elements, the second a header too, and nothing is
    logged. *)
Lemma validate_projects_claims :
  rw_header
    (writer (serve (ValidateRequestHandler (config false false)
                      (r_cookie "a.example.com" "jwt:alice")) (world rand_ok)).2)
    !! "X-Groups" = Some [DQUOTE +:+ "a" +:+ DQUOTE +:+ "," +:+ DQUOTE +:+ "b" +:+ DQUOTE] ∧
  rw_header
    (writer (serve (ValidateRequestHandler (config false false)
                      (r_cookie "a.example.com" "jwt:alice")) (world rand_ok)).2)
    !! "X-Address" = Some ["map[country:US]"] ∧
  logged (serve (ValidateRequestHandler (config false false)
                   (r_cookie "a.example.com" "jwt:alice")) (world rand_ok)).2 = [].
Proof. vm_compute. repeat split; reflexivity. Qed.

(** A cookie that is not a token, against a request without any token, with
    public access off. *)
Lemma validate_rejected_like_no_token_witness :
  FindJWT (config false false) (r_cookie "a.example.com" "garbage") ≠ "" ∧
  token_rejected (FindJWT (config false false) (r_cookie "a.example.com" "garbage"))
    "token contains an invalid number of segments" ∧
  FindJWT (config false false) r_no_token = "" ∧
  status_sent
    (writer (serve (ValidateRequestHandler (config false false)
                      (r_cookie "a.example.com" "garbage")) (world rand_ok)).2) =
  status_sent
    (writer (serve (ValidateRequestHandler (config false false) r_no_token)
               (world rand_ok)).2) ∧
  writer (serve (ValidateRequestHandler (config false false)
                   (r_cookie "a.example.com" "garbage")) (world rand_ok)).2 =
  unauthorized_writer "token contains an invalid number of segments".
Proof.
  assert (Hfound : FindJWT (config false false) (r_cookie "a.example.com" "garbage") ≠ "")
    by (vm_compute; discriminate).
  assert (Hrejected :
            token_rejected (FindJWT (config false false) (r_cookie "a.example.com" "garbage"))
              "token contains an invalid number of segments")
    by (left; exists ""; reflexivity).
  destruct (validate_rejected_like_no_token (config false false)
              (r_cookie "a.example.com" "garbage") r_no_token (world rand_ok) (world rand_ok)
              "token contains an invalid number of segments" Hfound Hrejected eq_refl)
    as (_ & _ & Hstatus & _ & _ & Hoff & _).
  destruct (Hoff eq_refl) as (Hwriter & _).
  split; [exact Hfound|]. split; [exact Hrejected|]. split; [reflexivity|].
  split; [exact Hstatus|exact Hwriter].
Defined.

(** The two responses of the previous lemma do not have the same body. *)
Lemma validate_rejected_body_differs :
  FindJWT (config false false) (r_cookie "a.example.com" "garbage") ≠ "" ∧
  token_rejected (FindJWT (config false false) (r_cookie "a.example.com" "garbage"))
    "token contains an invalid number of segments" ∧
  FindJWT (config false false) r_no_token = "" ∧
  rw_body
    (writer (serve (ValidateRequestHandler (config false false)
                      (r_cookie "a.example.com" "garbage")) (world rand_ok)).2) ≠
  rw_body
    (writer (serve (ValidateRequestHandler (config false false) r_no_token)
               (world rand_ok)).2).
Proof.
  split; [vm_compute; discriminate|].
  split; [left; exists ""; reflexivity|].
  split; [reflexivity|]. vm_compute. discriminate.
Qed.

(** The provider reports [access_denied]: in the session of the login, with
    a [state] that is not the stored nonce, and with a session cookie that
    does not decode. *)
Lemma callback_provider_error_witness :
  Query_Get
    (URL_Query (r_callback [("state", "Zm9vYmFyYmF6"); ("error", "access_denied");
                            ("error_description", "the user denied access")]))
    "error" ≠ "" ∧
  calls (serve (CallbackHandler (config false false)
                  (r_callback [("state", "Zm9vYmFyYmF6"); ("error", "access_denied");
                               ("error_description", "the user denied access")]))
           (world rand_ok)).2 = [] ∧
  rw_status
    (writer (serve (CallbackHandler (config false false)
                      (r_callback [("state", "Zm9vYmFyYmF6"); ("error", "access_denied");
                                   ("error_description", "the user denied access")]))
               (world rand_ok)).2) = Some StatusForbidden ∧
  rw_body
    (writer (serve (CallbackHandler (config false false)
                      (r_callback [("state", "forged"); ("error", "access_denied");
                                   ("error_description", "the user denied access")]))
               (world rand_ok)).2) =
    [IndexPage (mkIndex "/auth Invalid session state." [] false)] ∧
  rw_status
    (writer (serve (CallbackHandler (config false false)
                      (r_in_session [("state", "Zm9vYmFyYmF6"); ("error", "access_denied")]
                         (Plain "garbage")))
               (world rand_ok)).2) = Some StatusInternalServerError.
Proof.
  assert (Herror :
            Query_Get
              (URL_Query (r_callback [("state", "Zm9vYmFyYmF6"); ("error", "access_denied");
                                      ("error_description", "the user denied access")]))
              "error" ≠ "") by (vm_compute; discriminate).
  assert (Hforged :
            Query_Get
              (URL_Query (r_callback [("state", "forged"); ("error", "access_denied");
                                      ("error_description", "the user denied access")]))
              "error" ≠ "") by (vm_compute; discriminate).
  assert (Hgarbage :
            Query_Get
              (URL_Query (r_in_session [("state", "Zm9vYmFyYmF6"); ("error", "access_denied")]
                            (Plain "garbage")))
              "error" ≠ "") by (vm_compute; discriminate).
  assert (Hmismatch : session_after 1 !! "state" ≠
                      Some (VString (Query_Get (URL_Query
                         (r_callback [("state", "forged"); ("error", "access_denied");
                                      ("error_description", "the user denied access")]))
                         "state")))
    by (vm_compute; discriminate).
  destruct (callback_provider_error (config false false)
              (r_callback [("state", "Zm9vYmFyYmF6"); ("error", "access_denied");
                           ("error_description", "the user denied access")])
              (world rand_ok) Herror) as (_ & Hcalls & _ & _ & _ & _ & Hpage).
  destruct (Hpage (session_after 1) eq_refl eq_refl) as (Hstatus & _).
  destruct (callback_provider_error (config false false)
              (r_callback [("state", "forged"); ("error", "access_denied");
                           ("error_description", "the user denied access")])
              (world rand_ok) Hforged) as (_ & _ & _ & _ & _ & Hinvalid & _).
  destruct (Hinvalid (session_after 1) eq_refl Hmismatch) as (_ & Hbody).
  destruct (callback_provider_error (config false false)
              (r_in_session [("state", "Zm9vYmFyYmF6"); ("error", "access_denied")]
                 (Plain "garbage"))
              (world rand_ok) Hgarbage) as (_ & _ & _ & _ & Hfailed & _).
  destruct (Hfailed ∅ "securecookie: the value is not valid" eq_refl) as (Hcode & _).
  split; [exact Herror|]. split; [exact Hcalls|]. split; [exact Hstatus|].
  split; [exact Hbody|exact Hcode].
Defined.

(** The same report with a [state] that is not the stored nonce: the
    response is not a 403. *)
Lemma callback_provider_error_forged_state :
  Query_Get
    (URL_Query (r_callback [("state", "forged"); ("error", "access_denied");
                            ("error_description", "the user denied access")]))
    "error" ≠ "" ∧
  status_sent
    (writer (serve (CallbackHandler (config false false)
                      (r_callback [("state", "forged"); ("error", "access_denied");
                                   ("error_description", "the user denied access")]))
               (world rand_ok)).2) ≠ StatusForbidden.
Proof. split; vm_compute; discriminate. Qed.

(** The provider vouches for [alice], who is on the whitelist. *)
Lemma callback_success_witness :
  sessstore_Get (r_callback [("state", "Zm9vYmFyYmF6"); ("code", "alice")])
    (Session_Name (config false false)) = (session_after 1, None) ∧
  Policy_permits (Policy_tier (config false false)) (config false false)
    (mkUser "alice" "alice@example.com" ["dev"]) ∧
  rw_cookie
    (writer (serve (CallbackHandler (config false false)
                      (r_callback [("state", "Zm9vYmFyYmF6"); ("code", "alice")]))
               (world rand_ok)).2) = [SetCookie "jwt:alice"] ∧
  rw_status
    (writer (serve (CallbackHandler (config false false)
                      (r_callback [("state", "Zm9vYmFyYmF6"); ("code", "alice")]))
               (world rand_ok)).2) = Some StatusFound ∧
  rw_body
    (writer (serve (CallbackHandler (config false false)
                      (r_callback [("state", "Zm9vYmFyYmF6"); ("code", "alice")]))
               (world rand_ok)).2) = [RedirectTo app_url].
Proof.
  assert (Hpermits : Policy_permits (Policy_tier (config false false)) (config false false)
                       (mkUser "alice" "alice@example.com" ["dev"]))
    by (apply elem_of_cons; left; reflexivity).
  assert (Hknown : app_url ≠ "") by (vm_compute; discriminate).
  assert (Hsession :
            sessstore_Get (r_callback [("state", "Zm9vYmFyYmF6"); ("code", "alice")])
              (Session_Name (config false false)) = (session_after 1, None))
    by reflexivity.
  assert (Hinfo :
            GetUserInfo (r_callback [("state", "Zm9vYmFyYmF6"); ("code", "alice")])
              no_user no_claims no_tokens =
            ((mkUser "alice" "alice@example.com" ["dev"], no_claims, no_tokens), None))
    by reflexivity.
  destruct (callback_success (config false false)
              (r_callback [("state", "Zm9vYmFyYmF6"); ("code", "alice")]) (world rand_ok)
              (session_after 1) (mkUser "alice" "alice@example.com" ["dev"])
              no_claims no_tokens app_url
              Hsession eq_refl eq_refl Hinfo Hpermits eq_refl)
    as (_ & Hcookie & Hredirect & _).
  destruct (Hredirect Hknown) as (_ & _ & _ & _ & Hstatus & Hbody).
  split; [reflexivity|]. split; [exact Hpermits|]. split; [exact Hcookie|].
  split; [exact Hstatus|exact Hbody].
Defined.

(** After that successful callback the saved session still holds the
    nonce. *)
Lemma callback_success_keeps_nonce :
  (serve (CallbackHandler (config false false)
            (r_callback [("state", "Zm9vYmFyYmF6"); ("code", "alice")]))
     (world rand_ok)).1 = Returns tt ∧
  rw_status
    (writer (serve (CallbackHandler (config false false)
                      (r_callback [("state", "Zm9vYmFyYmF6"); ("code", "alice")]))
               (world rand_ok)).2) = Some StatusFound ∧
  ∃ saved,
    rw_session
      (writer (serve (CallbackHandler (config false false)
                        (r_callback [("state", "Zm9vYmFyYmF6"); ("code", "alice")]))
                 (world rand_ok)).2) = [saved] ∧
    saved !! "state" = Some (VString "Zm9vYmFyYmF6") ∧
    ¬ cleared (saved !! "state").
Proof.
  split; [vm_compute; reflexivity|]. split; [vm_compute; reflexivity|].
  exists (<[app_url := VInt 0]> (<["requestedURL" := VString ""]> (session_after 1))).
  split; [vm_compute; reflexivity|].
  assert (Hnonce : <[app_url := VInt 0]> (<["requestedURL" := VString ""]> (session_after 1))
                     !! "state" = Some (VString "Zm9vYmFyYmF6"))
    by (vm_compute; reflexivity).
  split; [exact Hnonce|]. rewrite Hnonce.
  intros [Habs|[Habs|Habs]]; discriminate Habs.
Qed.

(** A first [/login] while the random source is failing: the browser is
    sent to the provider with an empty [state]. *)
Lemma login_without_randomness_witness :
  rand_fails 0%nat = ("", Some "crypto/rand: entropy unavailable") ∧
  Query_Get (URL_Query (r_login [])) "url" = app_url ∧
  (serve (LoginHandler (config false false) (r_login [])) (world rand_fails)).1 = Returns tt ∧
  rw_status
    (writer (serve (LoginHandler (config false false) (r_login [])) (world rand_fails)).2) =
    Some StatusFound ∧
  ∃ redirectURL opts,
    rw_body
      (writer (serve (LoginHandler (config false false) (r_login [])) (world rand_fails)).2) =
      [RedirectTo (AuthCodeURL redirectURL "" opts)].
Proof.
  assert (Hknown : app_url ≠ "") by (vm_compute; discriminate).
  assert (Hstate : app_url ≠ "state") by (vm_compute; discriminate).
  assert (Hdest : app_url ≠ "requestedURL") by (vm_compute; discriminate).
  assert (Hsession : sessstore_Get (r_login []) (Session_Name (config false false)) =
                       (∅, None)) by reflexivity.
  destruct (login_without_randomness (config false false) (r_login []) (world rand_fails)
              ∅ None app_url "" "crypto/rand: entropy unavailable"
              Hsession eq_refl eq_refl Hknown Hstate Hdest (lookup_empty _) eq_refl)
    as (Hret & _ & _ & Hstatus & Hbody).
  split; [reflexivity|]. split; [reflexivity|]. split; [exact Hret|].
  split; [exact Hstatus|exact Hbody].
Defined.

(** Three [/login] requests for [app_url], each in the session the previous
    one saved. *)
Lemma login_loop_guard_witness :
  carries_session (config false false) (r_login [("VouchSession", Sealed (session_after 1))])
    (writer (serve (LoginHandler (config false false) (r_login [])) (world rand_ok)).2) ∧
  rw_status
    (writer (serve (LoginHandler (config false false) (r_login [])) (world rand_ok)).2) =
    Some StatusFound ∧
  rw_status
    (writer
       (serve (LoginHandler (config false false)
                 (r_login [("VouchSession", Sealed (session_after 1))]))
          (serve (LoginHandler (config false false) (r_login [])) (world rand_ok)).2).2) =
    Some StatusFound ∧
  rw_status
    (writer
       (serve (LoginHandler (config false false)
                 (r_login [("VouchSession", Sealed (session_after 2))]))
          (serve (LoginHandler (config false false)
                    (r_login [("VouchSession", Sealed (session_after 1))]))
             (serve (LoginHandler (config false false) (r_login []))
                (world rand_ok)).2).2).2) = Some StatusOK.
Proof.
  assert (Hknown : app_url ≠ "") by (vm_compute; discriminate).
  assert (Hstate : app_url ≠ "state") by (vm_compute; discriminate).
  assert (Hdest : app_url ≠ "requestedURL") by (vm_compute; discriminate).
  assert (Hsession : sessstore_Get (r_login []) (Session_Name (config false false)) =
                       (∅, None)) by reflexivity.
  assert (Hcarry2 :
            carries_session (config false false)
              (r_login [("VouchSession", Sealed (session_after 1))])
              (writer (serve (LoginHandler (config false false) (r_login []))
                         (world rand_ok)).2)).
  { exists (session_after 1). split; [vm_compute; reflexivity|reflexivity]. }
  assert (Hcarry3 :
            carries_session (config false false)
              (r_login [("VouchSession", Sealed (session_after 2))])
              (writer
                 (serve (LoginHandler (config false false)
                           (r_login [("VouchSession", Sealed (session_after 1))]))
                    (serve (LoginHandler (config false false) (r_login []))
                       (world rand_ok)).2).2)).
  { exists (session_after 2). split; [vm_compute; reflexivity|reflexivity]. }
  destruct (login_loop_guard (config false false) (r_login [])
              (r_login [("VouchSession", Sealed (session_after 1))])
              (r_login [("VouchSession", Sealed (session_after 2))])
              (world rand_ok) ∅ None app_url
              Hknown Hstate Hdest eq_refl eq_refl eq_refl eq_refl
              Hsession (or_introl (lookup_empty _)) Hcarry2 Hcarry3)
    as ((_ & Hfirst & _) & (_ & Hsecond & _) & (_ & Hthird & _)).
  split; [exact Hcarry2|]. split; [exact Hfirst|]. split; [exact Hsecond|exact Hthird].
Defined.

(** In testing mode the first [/login] already answers with a page, not
    with a 302. *)
Lemma login_testing_mode_no_redirect :
  cfg_Testing (config false true) = true ∧
  Query_Get (URL_Query (r_login [])) "url" = app_url ∧
  sessstore_Get (r_login []) (Session_Name (config false true)) = (∅, None) ∧
  status_sent
    (writer (serve (LoginHandler (config false true) (r_login [])) (world rand_ok)).2) ≠
    StatusFound ∧
  rw_body
    (writer (serve (LoginHandler (config false true) (r_login [])) (world rand_ok)).2) =
    [IndexPage
       (mkIndex
          ("302 redirect to: " +:+
           "https://idp.example.com/authorize?redirect_uri=https://vouch.example.com/auth" +:+
           "&state=Zm9vYmFyYmF6")
          ["https://idp.example.com/authorize?redirect_uri=https://vouch.example.com/auth" +:+
           "&state=Zm9vYmFyYmF6"]
          true)].
Proof.
  split; [reflexivity|]. split; [reflexivity|]. split; [reflexivity|].
  split; [vm_compute; discriminate|vm_compute; reflexivity].
Qed.

#[local] Existing Instance sessions_at.

(** The request's host selects the second of three redirect URLs. *)
Lemma loginURL_redirect_selection_witness :
  GenOAuth_Provider config_teams ≠ IndieAuth ∧
  GenOAuth_Provider config_teams ≠ ADFS ∧
  ∃ redirect,
    (loginURL config_teams (r_login []) "abc" (world rand_ok)).1 =
      Returns (AuthCodeURL redirect "abc" []) ∧
    OAuthClient_RedirectURL (loginURL config_teams (r_login []) "abc" (world rand_ok)).2 =
      redirect.
Proof.
  assert (Hindie : GenOAuth_Provider config_teams ≠ IndieAuth) by discriminate.
  assert (Hadfs : GenOAuth_Provider config_teams ≠ ADFS) by discriminate.
  destruct (loginURL_redirect_selection config_teams (r_login []) "abc" (world rand_ok)
              Hindie Hadfs) as (redirect & Hrun & _).
  split; [exact Hindie|]. split; [exact Hadfs|]. exists redirect.
  rewrite Hrun. split; reflexivity.
Defined.

(** No domain matches: the first redirect URL, of another site, is taken. *)
Lemma loginURL_unmatched_host_witness :
  GenOAuth_Provider config_teams ≠ IndieAuth ∧
  GenOAuth_Provider config_teams ≠ ADFS ∧
  OAuthClient_RedirectURL
    (loginURL (pkg_domains := domains_none) config_teams (r_login []) "abc"
       (world rand_ok)).2 = "https://vouch.other.org/auth".
Proof.
  assert (Hindie : GenOAuth_Provider config_teams ≠ IndieAuth) by discriminate.
  assert (Hadfs : GenOAuth_Provider config_teams ≠ ADFS) by discriminate.
  destruct (loginURL_unmatched_host (pkg_domains := domains_none) config_teams (r_login [])
              "abc" (world rand_ok) "https://vouch.other.org/auth"
              ["https://vouch.example.com/auth"; "https://vouch.example.com/auth2"]
              Hindie Hadfs eq_refl eq_refl) as (_ & Hredirect).
  split; [exact Hindie|]. split; [exact Hadfs|exact Hredirect].
Defined.

(** With allow-all, a token for [a.example.com] is accepted at another
    host. *)
Lemma validate_allow_all_witness :
  AllowAllUsers config_allow_all = true ∧
  SiteInClaims "b.example.org" (claims_of "alice") = false ∧
  header_has
    (writer (serve (ValidateRequestHandler config_allow_all
                      (r_cookie "b.example.org" "jwt:alice")) (world rand_ok)).2)
    "X-Vouch-Success" "true".
Proof.
  assert (Hfound : FindJWT config_allow_all (r_cookie "b.example.org" "jwt:alice") ≠ "")
    by (vm_compute; discriminate).
  assert (Huser : vc_Username (claims_of "alice") ≠ "") by (vm_compute; discriminate).
  destruct (validate_allow_all (pkg_jwtmanager := jwtmanager) config_allow_all
              (r_cookie "b.example.org" "jwt:alice") (world rand_ok) "alice"
              (claims_of "alice") Hfound eq_refl eq_refl Huser eq_refl)
    as (_ & _ & Hsuccess & _).
  split; [reflexivity|]. split; [reflexivity|exact Hsuccess].
Defined.

(** The claim [address], an object, is projected into [X-Address]. *)
Lemma validate_projects_every_claim_witness :
  ("address", CObject [("country", CString "US")]) ∈ vc_CustomClaims (claims_of "alice") ∧
  ("address", "X-Address") ∈ hdr_ClaimsCleaned (Headers (config false false)) ∧
  header_has
    (writer (serve (ValidateRequestHandler (config false false)
                      (r_cookie "a.example.com" "jwt:alice")) (world rand_ok)).2)
    "X-Address" "map[country:US]".
Proof.
  assert (Hfound : FindJWT (config false false) (r_cookie "a.example.com" "jwt:alice") ≠ "")
    by (vm_compute; discriminate).
  assert (Huser : vc_Username (claims_of "alice") ≠ "") by (vm_compute; discriminate).
  assert (Hk : ("address", CObject [("country", CString "US")]) ∈
               vc_CustomClaims (claims_of "alice"))
    by (apply elem_of_cons; right; apply elem_of_cons; left; reflexivity).
  assert (Hheader : ("address", "X-Address") ∈ hdr_ClaimsCleaned (Headers (config false false)))
    by (apply elem_of_cons; right; apply elem_of_cons; left; reflexivity).
  split; [exact Hk|]. split; [exact Hheader|].
  exact (validate_projects_every_claim (pkg_jwtmanager := jwtmanager) (config false false)
           (r_cookie "a.example.com" "jwt:alice") (world rand_ok) "alice"
           (claims_of "alice") "address" "X-Address" (CObject [("country", CString "US")])
           Hfound eq_refl eq_refl Huser (or_intror eq_refl) Hk Hheader).
Defined.

(** A token with the provider's tokens, and both headers configured. *)
Lemma validate_forwards_provider_tokens_witness :
  hdr_AccessToken (Headers config_tokens) ≠ "" ∧
  vc_PAccessToken (claims_with_tokens "alice") ≠ "" ∧
  header_has
    (writer (serve (ValidateRequestHandler (pkg_jwtmanager := jwtmanager_tokens) config_tokens
                      (r_cookie "a.example.com" "alice")) (world rand_ok)).2)
    "X-Vouch-IdP-AccessToken" "access-123" ∧
  header_has
    (writer (serve (ValidateRequestHandler (pkg_jwtmanager := jwtmanager_tokens) config_tokens
                      (r_cookie "a.example.com" "alice")) (world rand_ok)).2)
    "X-Vouch-IdP-IdToken" "id-456".
Proof.
  assert (Hfound : FindJWT config_tokens (r_cookie "a.example.com" "alice") ≠ "")
    by (vm_compute; discriminate).
  assert (Huser : vc_Username (claims_with_tokens "alice") ≠ "")
    by (vm_compute; discriminate).
  assert (Hconfigured : hdr_AccessToken (Headers config_tokens) ≠ "")
    by (vm_compute; discriminate).
  assert (Hcarried : vc_PAccessToken (claims_with_tokens "alice") ≠ "")
    by (vm_compute; discriminate).
  destruct (validate_forwards_provider_tokens (pkg_jwtmanager := jwtmanager_tokens)
              config_tokens (r_cookie "a.example.com" "alice") (world rand_ok) "alice"
              (claims_with_tokens "alice") Hfound eq_refl eq_refl Huser (or_intror eq_refl))
    as (Haccess & Hid).
  split; [exact Hconfigured|]. split; [exact Hcarried|].
  split; [exact (Haccess Hconfigured Hcarried)|].
  apply Hid; vm_compute; discriminate.
Defined.

(** [Authorization: Bearer ] with a token in the query string. *)
Lemma validate_empty_authorization_token_witness :
  Header_Get (req_Header (r_authorization "Bearer ")) "Authorization" = "Bearer " ∧
  Query_Get (URL_Query (r_authorization "Bearer ")) "access_token" = "jwt:bob" ∧
  FindJWT (config false false) (r_authorization "Bearer ") = "" ∧
  writer (serve (ValidateRequestHandler (config false false) (r_authorization "Bearer "))
            (world rand_ok)).2 = unauthorized_writer "no jwt found in request".
Proof.
  assert (Hfree : ¬ contains_byte " " "Bearer") by exact (cut_spec " " "Bearer").
  assert (Hcookie : cookie_Cookie (r_authorization "Bearer ") =
                      ("", Some "http: named cookie not present")) by reflexivity.
  assert (Hheader : Header_Get (req_Header (r_authorization "Bearer "))
                      (hdr_JWT (Headers (config false false))) = "") by reflexivity.
  assert (Hauth : Header_Get (req_Header (r_authorization "Bearer ")) "Authorization" =
                    "Bearer" +:+ " ") by reflexivity.
  destruct (validate_empty_authorization_token (config false false)
              (r_authorization "Bearer ") (world rand_ok) "" "Bearer"
              "http: named cookie not present" Hcookie Hheader Hauth Hfree)
    as (Hnone & _ & Hwriter).
  split; [reflexivity|]. split; [reflexivity|]. split; [exact Hnone|exact Hwriter].
Defined.

Lemma session_after_ok (count : Z) : session_ok (session_after count).
Proof.
  unfold session_after. repeat split.
  - intros k Hs Hd. destruct (decide (app_url = k)) as [<-|Hne].
    + right. eexists. apply lookup_insert_eq.
    + left. rewrite !lookup_insert_ne by congruence. apply lookup_empty.
  - right. eexists. rewrite !lookup_insert_ne by discriminate. apply lookup_insert_eq.
  - right. exists app_url. rewrite lookup_insert_ne by discriminate.
    rewrite lookup_insert_eq. repeat split; discriminate.
  - intros _. rewrite lookup_insert_ne by discriminate.
    rewrite lookup_insert_eq. discriminate.
Qed.

(** A callback with a forged state. *)
Lemma callback_state_mismatch_witness :
  sessstore_Get (r_callback [("state", "forged"); ("code", "alice")])
    (Session_Name (config false false)) = (session_after 1, None) ∧
  session_after 1 !! "state" ≠ Some (VString "forged") ∧
  calls (serve (CallbackHandler (config false false)
                  (r_callback [("state", "forged"); ("code", "alice")]))
           (world rand_ok)).2 = [].
Proof.
  assert (Hsession : sessstore_Get (r_callback [("state", "forged"); ("code", "alice")])
                       (Session_Name (config false false)) = (session_after 1, None))
    by reflexivity.
  assert (Hstate : session_after 1 !! "state" ≠
                   Some (VString (Query_Get (URL_Query
                      (r_callback [("state", "forged"); ("code", "alice")])) "state")))
    by (vm_compute; discriminate).
  destruct (callback_state_mismatch (config false false)
              (r_callback [("state", "forged"); ("code", "alice")]) (world rand_ok)
              (session_after 1) Hsession Hstate) as (_ & Hcalls & _).
  split; [exact Hsession|]. split; [exact Hstate|exact Hcalls].
Defined.

(** A session cookie that does not decode. *)
Lemma callback_session_error_witness :
  sessstore_Get (r_in_session [("state", "Zm9vYmFyYmF6")] (Plain "garbage"))
    (Session_Name (config false false)) = (∅, Some "securecookie: the value is not valid") ∧
  rw_status
    (writer (serve (CallbackHandler (config false false)
                      (r_in_session [("state", "Zm9vYmFyYmF6")] (Plain "garbage")))
               (world rand_ok)).2) = Some StatusInternalServerError.
Proof.
  assert (Hsession : sessstore_Get (r_in_session [("state", "Zm9vYmFyYmF6")] (Plain "garbage"))
                       (Session_Name (config false false)) =
                     (∅, Some "securecookie: the value is not valid")) by reflexivity.
  destruct (callback_session_error (config false false)
              (r_in_session [("state", "Zm9vYmFyYmF6")] (Plain "garbage")) (world rand_ok)
              ∅ "securecookie: the value is not valid" Hsession) as (_ & _ & Hstatus & _).
  split; [exact Hsession|exact Hstatus].
Defined.

(** A callback without a [code]: the provider fails. *)
Lemma callback_userinfo_error_witness :
  GetUserInfo (r_callback [("state", "Zm9vYmFyYmF6")]) no_user no_claims no_tokens =
    ((no_user, no_claims, no_tokens), Some "oauth2: cannot fetch token") ∧
  rw_status
    (writer (serve (CallbackHandler (config false false)
                      (r_callback [("state", "Zm9vYmFyYmF6")])) (world rand_ok)).2) =
    Some StatusBadRequest ∧
  rw_body
    (writer (serve (CallbackHandler (config false false)
                      (r_callback [("state", "Zm9vYmFyYmF6")])) (world rand_ok)).2) =
    [Bytes ("oauth2: cannot fetch token" +:+ LF)].
Proof.
  assert (Hsession : sessstore_Get (r_callback [("state", "Zm9vYmFyYmF6")])
                       (Session_Name (config false false)) = (session_after 1, None))
    by reflexivity.
  assert (Hinfo : GetUserInfo (r_callback [("state", "Zm9vYmFyYmF6")])
                    no_user no_claims no_tokens =
                  ((no_user, no_claims, no_tokens), Some "oauth2: cannot fetch token"))
    by reflexivity.
  destruct (callback_userinfo_error (config false false)
              (r_callback [("state", "Zm9vYmFyYmF6")]) (world rand_ok) (session_after 1)
              (no_user, no_claims, no_tokens) "oauth2: cannot fetch token"
              Hsession eq_refl eq_refl Hinfo) as (_ & _ & Hstatus & Hbody & _).
  split; [exact Hinfo|]. split; [exact Hstatus|exact Hbody].
Defined.

(** The provider vouches for [mallory], who is not on the whitelist. *)
Lemma callback_policy_denied_witness :
  ¬ Policy_permits (Policy_tier (config false false)) (config false false)
      (mkUser "mallory" "mallory@example.com" ["dev"]) ∧
  ∃ e,
    rw_body
      (writer (serve (CallbackHandler (config false false)
                        (r_callback [("state", "Zm9vYmFyYmF6"); ("code", "mallory")]))
                 (world rand_ok)).2) =
      [IndexPage
         (mkIndex
            ("/auth User is not authorized. " +:+ e +:+ " <a href=" +:+ DQUOTE +:+ app_url +:+
             DQUOTE +:+ ">Please try again</a>.") [] false)] ∧
    rw_cookie
      (writer (serve (CallbackHandler (config false false)
                        (r_callback [("state", "Zm9vYmFyYmF6"); ("code", "mallory")]))
                 (world rand_ok)).2) = [].
Proof.
  assert (Hdenied : ¬ Policy_permits (Policy_tier (config false false)) (config false false)
                        (mkUser "mallory" "mallory@example.com" ["dev"])).
  { intros Hin. apply list_elem_of_singleton in Hin. discriminate Hin. }
  assert (Hsession : sessstore_Get
                       (r_callback [("state", "Zm9vYmFyYmF6"); ("code", "mallory")])
                       (Session_Name (config false false)) = (session_after 1, None))
    by reflexivity.
  assert (Hinfo : GetUserInfo (r_callback [("state", "Zm9vYmFyYmF6"); ("code", "mallory")])
                    no_user no_claims no_tokens =
                  ((mkUser "mallory" "mallory@example.com" ["dev"], no_claims, no_tokens),
                   None)) by reflexivity.
  destruct (callback_policy_denied (config false false)
              (r_callback [("state", "Zm9vYmFyYmF6"); ("code", "mallory")]) (world rand_ok)
              (session_after 1) (mkUser "mallory" "mallory@example.com" ["dev"])
              no_claims no_tokens app_url
              Hsession eq_refl eq_refl Hinfo Hdenied eq_refl)
    as (e & _ & _ & _ & Hwriter).
  split; [exact Hdenied|]. exists e. rewrite Hwriter. split; reflexivity.
Defined.

(** The successful callback of [alice] writes a session of the same shape. *)
Lemma callback_keeps_session_shape_witness :
  session_ok (session_after 1) ∧
  (serve (CallbackHandler (config false false)
            (r_callback [("state", "Zm9vYmFyYmF6"); ("code", "alice")]))
     (world rand_ok)).1 = Returns tt ∧
  session_ok session_cleared.
Proof.
  assert (Hsession : sessstore_Get (r_callback [("state", "Zm9vYmFyYmF6"); ("code", "alice")])
                       (Session_Name (config false false)) = (session_after 1, None))
    by reflexivity.
  destruct (callback_keeps_session_shape (config false false)
              (r_callback [("state", "Zm9vYmFyYmF6"); ("code", "alice")]) (world rand_ok)
              (session_after 1) None Hsession (session_after_ok 1)) as (Hret & Hshape).
  split; [exact (session_after_ok 1)|]. split; [exact Hret|].
  apply Hshape.
  assert (Hsaved :
            rw_session
              (writer (serve (CallbackHandler (config false false)
                                (r_callback [("state", "Zm9vYmFyYmF6"); ("code", "alice")]))
                         (world rand_ok)).2) = [session_cleared])
    by (vm_compute; reflexivity).
  rewrite Hsaved. apply list_elem_of_singleton. reflexivity.
Defined.

(** [/login] without any parameter. *)
Lemma login_without_destination_witness :
  Query_Get (URL_Query (r_in_session [] (Sealed (session_after 1)))) "url" = "" ∧
  rw_session
    (writer (serve (LoginHandler (config false false)
                      (r_in_session [] (Sealed (session_after 1)))) (world rand_ok)).2) = [] ∧
  rng_next (serve (LoginHandler (config false false)
                     (r_in_session [] (Sealed (session_after 1)))) (world rand_ok)).2 = 1%nat.
Proof.
  destruct (login_without_destination (config false false)
              (r_in_session [] (Sealed (session_after 1))) (world rand_ok) eq_refl)
    as (_ & Hwriter & Hrng).
  split; [reflexivity|]. rewrite Hwriter. split; [reflexivity|exact Hrng].
Defined.

(** [/login?url=state]. *)
Lemma login_reserved_destination_witness :
  Query_Get (URL_Query (r_in_session [("url", "state")] (Sealed (session_after 1)))) "url" =
    "state" ∧
  (serve (LoginHandler (config false false)
            (r_in_session [("url", "state")] (Sealed (session_after 1))))
     (world rand_ok)).1 = Panics "interface conversion: interface {} is string, not int".
Proof.
  destruct (login_reserved_destination (config false false)
              (r_in_session [("url", "state")] (Sealed (session_after 1))) (world rand_ok)
              (or_introl eq_refl)) as (Hpanic & _).
  split; [reflexivity|exact Hpanic].
Defined.

(** A fourth [/login] in a session that has counted three. *)
Lemma login_guard_persists_witness :
  session_after 3 !! app_url = Some (VInt 3) ∧
  rw_status
    (writer (serve (LoginHandler (config false false)
                      (r_login [("VouchSession", Sealed (session_after 3))]))
               (world rand_ok)).2) = Some StatusOK ∧
  rw_body
    (writer (serve (LoginHandler (config false false)
                      (r_login [("VouchSession", Sealed (session_after 3))]))
               (world rand_ok)).2) =
    [IndexPage (mkIndex ("/login too many redirects for " +:+ app_url +:+ " - ") [] false)].
Proof.
  assert (Hknown : app_url ≠ "") by (vm_compute; discriminate).
  assert (Hstate : app_url ≠ "state") by (vm_compute; discriminate).
  assert (Hdest : app_url ≠ "requestedURL") by (vm_compute; discriminate).
  assert (Hsession : sessstore_Get (r_login [("VouchSession", Sealed (session_after 3))])
                       (Session_Name (config false false)) = (session_after 3, None))
    by reflexivity.
  assert (Hcount : session_after 3 !! app_url = Some (VInt 3)) by apply lookup_insert_eq.
  assert (Hrange : 2 ≤ 3 < int_max) by (split; [lia|reflexivity]).
  destruct (login_guard_persists (config false false)
              (r_login [("VouchSession", Sealed (session_after 3))]) (world rand_ok)
              (session_after 3) None app_url 3
              Hsession eq_refl Hknown Hstate Hdest Hcount Hrange)
    as (_ & Hstatus & Hbody & _).
  split; [exact Hcount|]. split; [exact Hstatus|exact Hbody].
Defined.

(** A second [/login] keeps the shape of the session. *)
Lemma login_keeps_session_shape_witness :
  session_ok (session_after 1) ∧
  (serve (LoginHandler (config false false)
            (r_login [("VouchSession", Sealed (session_after 1))])) (world rand_ok)).1 =
    Returns tt ∧
  session_ok (session_after 2).
Proof.
  assert (Hsession : sessstore_Get (r_login [("VouchSession", Sealed (session_after 1))])
                       (Session_Name (config false false)) = (session_after 1, None))
    by reflexivity.
  destruct (login_keeps_session_shape (config false false)
              (r_login [("VouchSession", Sealed (session_after 1))]) (world rand_ok)
              (session_after 1) None Hsession (session_after_ok 1)) as (Hret & Hshape).
  split; [exact (session_after_ok 1)|]. split.
  - apply Hret. split; vm_compute; discriminate.
  - apply Hshape.
    assert (Hsaved :
              rw_session
                (writer (serve (LoginHandler (config false false)
                                  (r_login [("VouchSession", Sealed (session_after 1))]))
                           (world rand_ok)).2) = [session_after 2])
      by (vm_compute; reflexivity).
    rewrite Hsaved. apply list_elem_of_singleton. reflexivity.
Defined.

(** Login again after the successful callback of [alice]. *)
Lemma login_after_success_redirects_witness :
  carries_session (config false false) (r_login [("VouchSession", Sealed session_cleared)])
    (writer (serve (CallbackHandler (config false false)
                      (r_callback [("state", "Zm9vYmFyYmF6"); ("code", "alice")]))
               (world rand_ok)).2) ∧
  rw_status
    (writer
       (serve (LoginHandler (config false false)
                 (r_login [("VouchSession", Sealed session_cleared)]))
          (serve (CallbackHandler (config false false)
                    (r_callback [("state", "Zm9vYmFyYmF6"); ("code", "alice")]))
             (world rand_ok)).2).2) = Some StatusFound.
Proof.
  assert (Hknown : app_url ≠ "") by (vm_compute; discriminate).
  assert (Hstate : app_url ≠ "state") by (vm_compute; discriminate).
  assert (Hdest : app_url ≠ "requestedURL") by (vm_compute; discriminate).
  assert (Hpermits : Policy_permits (Policy_tier (config false false)) (config false false)
                       (mkUser "alice" "alice@example.com" ["dev"]))
    by (apply elem_of_cons; left; reflexivity).
  assert (Hsession :
            sessstore_Get (r_callback [("state", "Zm9vYmFyYmF6"); ("code", "alice")])
              (Session_Name (config false false)) = (session_after 1, None))
    by reflexivity.
  assert (Hinfo :
            GetUserInfo (r_callback [("state", "Zm9vYmFyYmF6"); ("code", "alice")])
              no_user no_claims no_tokens =
            ((mkUser "alice" "alice@example.com" ["dev"], no_claims, no_tokens), None))
    by reflexivity.
  assert (Hcarry :
            carries_session (config false false)
              (r_login [("VouchSession", Sealed session_cleared)])
              (writer (serve (CallbackHandler (config false false)
                                (r_callback [("state", "Zm9vYmFyYmF6"); ("code", "alice")]))
                         (world rand_ok)).2)).
  { exists session_cleared. split; [vm_compute; reflexivity|reflexivity]. }
  destruct (login_after_success_redirects (config false false)
              (r_callback [("state", "Zm9vYmFyYmF6"); ("code", "alice")])
              (r_login [("VouchSession", Sealed session_cleared)]) (world rand_ok)
              (session_after 1) (mkUser "alice" "alice@example.com" ["dev"])
              no_claims no_tokens app_url
              Hsession eq_refl eq_refl Hinfo Hpermits eq_refl Hknown Hstate Hdest eq_refl
              Hcarry eq_refl) as (_ & Hstatus & _).
  split; [exact Hcarry|exact Hstatus].
Defined.

(** The callback of [alice], sent a second time. *)
Lemma callback_replay_accepted_witness :
  carries_session (config false false)
    (r_in_session [("state", "Zm9vYmFyYmF6"); ("code", "alice")] (Sealed session_cleared))
    (writer (serve (CallbackHandler (config false false)
                      (r_callback [("state", "Zm9vYmFyYmF6"); ("code", "alice")]))
               (world rand_ok)).2) ∧
  rw_cookie
    (writer
       (serve (CallbackHandler (config false false)
                 (r_in_session [("state", "Zm9vYmFyYmF6"); ("code", "alice")]
                    (Sealed session_cleared)))
          (serve (CallbackHandler (config false false)
                    (r_callback [("state", "Zm9vYmFyYmF6"); ("code", "alice")]))
             (world rand_ok)).2).2) = [SetCookie "jwt:alice"].
Proof.
  assert (Hknown : app_url ≠ "") by (vm_compute; discriminate).
  assert (Hstate : app_url ≠ "state") by (vm_compute; discriminate).
  assert (Hdest : app_url ≠ "requestedURL") by (vm_compute; discriminate).
  assert (Hpermits : Policy_permits (Policy_tier (config false false)) (config false false)
                       (mkUser "alice" "alice@example.com" ["dev"]))
    by (apply elem_of_cons; left; reflexivity).
  assert (Hsession :
            sessstore_Get (r_callback [("state", "Zm9vYmFyYmF6"); ("code", "alice")])
              (Session_Name (config false false)) = (session_after 1, None))
    by reflexivity.
  assert (Hinfo :
            GetUserInfo (r_callback [("state", "Zm9vYmFyYmF6"); ("code", "alice")])
              no_user no_claims no_tokens =
            ((mkUser "alice" "alice@example.com" ["dev"], no_claims, no_tokens), None))
    by reflexivity.
  assert (Hinfo2 :
            GetUserInfo (r_in_session [("state", "Zm9vYmFyYmF6"); ("code", "alice")]
                           (Sealed session_cleared))
              no_user no_claims no_tokens =
            ((mkUser "alice" "alice@example.com" ["dev"], no_claims, no_tokens), None))
    by reflexivity.
  assert (Hcarry :
            carries_session (config false false)
              (r_in_session [("state", "Zm9vYmFyYmF6"); ("code", "alice")]
                 (Sealed session_cleared))
              (writer (serve (CallbackHandler (config false false)
                                (r_callback [("state", "Zm9vYmFyYmF6"); ("code", "alice")]))
                         (world rand_ok)).2)).
  { exists session_cleared. split; [vm_compute; reflexivity|reflexivity]. }
  destruct (callback_replay_accepted (config false false)
              (r_callback [("state", "Zm9vYmFyYmF6"); ("code", "alice")])
              (r_in_session [("state", "Zm9vYmFyYmF6"); ("code", "alice")]
                 (Sealed session_cleared))
              (world rand_ok) (session_after 1)
              (mkUser "alice" "alice@example.com" ["dev"])
              (mkUser "alice" "alice@example.com" ["dev"])
              no_claims no_claims no_tokens no_tokens app_url
              Hsession eq_refl eq_refl Hinfo Hpermits eq_refl Hknown Hstate Hdest
              Hcarry eq_refl eq_refl Hinfo2 Hpermits) as (_ & Hcookie & _).
  split; [exact Hcarry|exact Hcookie].
Defined.

(** A login while the random source fails, then a callback without
    [state]. *)
Lemma callback_matches_empty_state_witness :
  carries_session (config false false)
    (r_in_session [("code", "alice")] (Sealed session_empty_state))
    (writer (serve (LoginHandler (config false false) (r_login [])) (world rand_fails)).2) ∧
  Query_Get (URL_Query (r_in_session [("code", "alice")] (Sealed session_empty_state)))
    "state" = "" ∧
  ∃ rest,
    calls
      (serve (CallbackHandler (config false false)
                (r_in_session [("code", "alice")] (Sealed session_empty_state)))
         (serve (LoginHandler (config false false) (r_login [])) (world rand_fails)).2).2 =
    CallGetUserInfo :: rest.
Proof.
  assert (Hknown : app_url ≠ "") by (vm_compute; discriminate).
  assert (Hstate : app_url ≠ "state") by (vm_compute; discriminate).
  assert (Hdest : app_url ≠ "requestedURL") by (vm_compute; discriminate).
  assert (Hsession : sessstore_Get (r_login []) (Session_Name (config false false)) =
                       (∅, None)) by reflexivity.
  assert (Hcarry :
            carries_session (config false false)
              (r_in_session [("code", "alice")] (Sealed session_empty_state))
              (writer (serve (LoginHandler (config false false) (r_login []))
                         (world rand_fails)).2)).
  { exists session_empty_state. split; [vm_compute; reflexivity|reflexivity]. }
  split; [exact Hcarry|]. split; [reflexivity|].
  exact (callback_matches_empty_state (config false false) (r_login [])
           (r_in_session [("code", "alice")] (Sealed session_empty_state))
           (world rand_fails) ∅ None app_url "" "crypto/rand: entropy unavailable"
           Hsession eq_refl eq_refl Hknown Hstate Hdest (or_introl (lookup_empty _))
           Hcarry eq_refl eq_refl).
Defined.

End OnReference.
